(** * CapSense: capacitive touch sensing for up to four push buttons

    A shallow embedding of [CapSense.c] (BoostC, PIC16F886) and the
    properties of its measurement pipeline, bin-based baseline tracker,
    debounce logic and auto-calibration protocol.

    Conventions of the embedding.
    - A [byte] is a [Z] in [0, 256); a [CapSenseReading] is a [Z] in
      [0, 65536).  Every store into a variable of one of these types is
      written with its wrap-around ([to_byte], [to_reading]).
    - C arrays are lists; an index is a [Z] converted with [Z.to_nat].
      A read outside the list yields 0 and a write outside the list is
      dropped (the C program has no defined behaviour there).
    - The globals of the translation unit are gathered in records and the
      functions are state transformers, in the order of the C statements.
    - [CapSense.h], [CapSense-consts.h], [math-tjw.h] and [eeprom-tjw.h] are
      not available.  Their constants are the fields of [Config]; what else
      is taken from them is marked where it is used.  The EEPROM is not
      modelled: the thresholds it delivers are an argument of [InitCapSense]
      and the copies written to it leave the globals as they are. *)

From Stdlib Require Import ZArith Lia Bool List.
From stdpp Require Import base list.
Import ListNotations.

#[local] Open Scope Z_scope.

(** ** Machine arithmetic *)

(** Store into a [byte] (unsigned char). *)
Definition to_byte (z : Z) : Z := z mod 256.

(** Modelled from the spec: the type [CapSenseReading] is declared in
    CapSense.h, which is missing.  The spec calls a reading an "unsigned
    fixed-width" measurement; the ISR assembles it from the two 8-bit halves of
    Timer 1, so it is taken to be an unsigned 16-bit integer. *)
Definition to_reading (z : Z) : Z := z mod 65536.

(** Difference of two tick counters.  [ticks] and the saved tick values are
    bytes; BoostC evaluates the difference of two 8-bit operands in 8 bits,
    which is what makes the elapsed-time tests survive the wrap of [ticks]. *)
Definition tick_diff (now before : Z) : Z := to_byte (now - before).

(** Modelled from the spec: [max], [min], [accumulateMax] and [accumulateMin]
    come from math-tjw.h, which is missing.  The spec describes them as the
    maximum, the minimum, and "max-accumulating" / "running minimum". *)
Definition c_max (a b : Z) : Z := if a <? b then b else a.
Definition c_min (a b : Z) : Z := if b <? a then b else a.
Definition accumulateMax (acc v : Z) : Z := if acc <? v then v else acc.
Definition accumulateMin (acc v : Z) : Z := if v <? acc then v else acc.

(** ** Arrays *)

Definition aget (l : list Z) (i : Z) : Z := default 0 (l !! Z.to_nat i).
Definition aset (l : list Z) (i : Z) (v : Z) : list Z := <[Z.to_nat i := v]> l.

Definition aget2 (m : list (list Z)) (i j : Z) : Z :=
  aget (default [] (m !! Z.to_nat i)) j.
Definition aset2 (m : list (list Z)) (i j : Z) (v : Z) : list (list Z) :=
  match m !! Z.to_nat i with
  | Some row => <[Z.to_nat i := aset row j v]> m
  | None => m
  end.

(** ** Configuration constants and enumerations *)

Record Config := {
  MAX_CAPSENSE_CHANNELS : Z;
  CAPSENSE_CHANNELS : Z;        (* bit mask of the channels in use *)
  FIRST_CAPSENSE_CHANNEL : Z;
  LAST_CAPSENSE_CHANNEL : Z;
  NO_CAPSENSE_BUTTONS : Z;
  NUM_CAPSENSE_BINS : Z;
  CS_MIN_THRESHOLD : Z;
  FILTER_LENGTH : Z;
  DEBOUNCE_POLLS : Z;
  TICKS_PER_SEC : Z;
  MAX_CS_READING : Z
}.

Definition TICKS_PER_BIN_CHANGE : Z := 1.
Definition TIMES_THRU_BUTTONS : Z := 3.

Inductive CSAutoCalibrateState :=
  acStart | acPressNothing | acPressAndReleaseButton | acDone.

Inductive CSAutoCalibrateResult := acrFail | acrOK | acrGreat.

Definition ac_eqb (a b : CSAutoCalibrateState) : bool :=
  match a, b with
  | acStart, acStart | acPressNothing, acPressNothing
  | acPressAndReleaseButton, acPressAndReleaseButton | acDone, acDone => true
  | _, _ => false
  end.

(** ** Program state *)

(** The timer and comparator registers the module writes. *)
Record Timer := {
  tmr0 : Z; tmr1l : Z; tmr1h : Z;
  TMR1ON : bool; T0IF : bool;
  cm1con0 : Z; cm2con0 : Z
}.

(** The globals of the sensing engine. *)
Record Sense := {
  csReadings : list Z;
  currentCapSenseChannel : Z;
  csBaseline : list Z;
  csMin : list Z;
  csDownInBin : list Z;
  csLastBinTicks : Z;
  csLastButtonTicks : Z;
  csLastDownPolls : Z;
  csHoldingButton : Z;
  csButton : Z;
  csCurrentBin : Z;
  csBin : list (list Z);
  csThresholds : list Z          (* bytes: read into [byte sensitivity] *)
}.

(** The globals of the calibration protocol. *)
Record Calib := {
  csAutoCalibrateState : CSAutoCalibrateState;
  csCalButton : Z;
  csResults : list CSAutoCalibrateResult;
  ticksStateStart : Z;
  timesThruButtons : Z;
  csMaxWaiting : list Z;
  csMaxHolding : list (list Z);
  csMaxOthers : list Z
}.

(** [ticks] is the tick counter owned by the UI timer module. *)
Record State := {
  hw : Timer;
  sn : Sense;
  cal : Calib;
  ticks : Z
}.

Definition with_hw (f : Timer -> Timer) (s : State) : State :=
  {| hw := f (hw s); sn := sn s; cal := cal s; ticks := ticks s |}.
Definition with_sn (f : Sense -> Sense) (s : State) : State :=
  {| hw := hw s; sn := f (sn s); cal := cal s; ticks := ticks s |}.
Definition with_cal (f : Calib -> Calib) (s : State) : State :=
  {| hw := hw s; sn := sn s; cal := f (cal s); ticks := ticks s |}.

(** Field updates of the three records. *)

Definition set_tmr0 v (r : Timer) : Timer :=
  {| tmr0 := v; tmr1l := tmr1l r; tmr1h := tmr1h r; TMR1ON := TMR1ON r;
     T0IF := T0IF r; cm1con0 := cm1con0 r; cm2con0 := cm2con0 r |}.
Definition set_tmr1l v (r : Timer) : Timer :=
  {| tmr0 := tmr0 r; tmr1l := v; tmr1h := tmr1h r; TMR1ON := TMR1ON r;
     T0IF := T0IF r; cm1con0 := cm1con0 r; cm2con0 := cm2con0 r |}.
Definition set_tmr1h v (r : Timer) : Timer :=
  {| tmr0 := tmr0 r; tmr1l := tmr1l r; tmr1h := v; TMR1ON := TMR1ON r;
     T0IF := T0IF r; cm1con0 := cm1con0 r; cm2con0 := cm2con0 r |}.
Definition set_TMR1ON v (r : Timer) : Timer :=
  {| tmr0 := tmr0 r; tmr1l := tmr1l r; tmr1h := tmr1h r; TMR1ON := v;
     T0IF := T0IF r; cm1con0 := cm1con0 r; cm2con0 := cm2con0 r |}.
Definition set_T0IF v (r : Timer) : Timer :=
  {| tmr0 := tmr0 r; tmr1l := tmr1l r; tmr1h := tmr1h r; TMR1ON := TMR1ON r;
     T0IF := v; cm1con0 := cm1con0 r; cm2con0 := cm2con0 r |}.
Definition set_cm1con0 v (r : Timer) : Timer :=
  {| tmr0 := tmr0 r; tmr1l := tmr1l r; tmr1h := tmr1h r; TMR1ON := TMR1ON r;
     T0IF := T0IF r; cm1con0 := v; cm2con0 := cm2con0 r |}.
Definition set_cm2con0 v (r : Timer) : Timer :=
  {| tmr0 := tmr0 r; tmr1l := tmr1l r; tmr1h := tmr1h r; TMR1ON := TMR1ON r;
     T0IF := T0IF r; cm1con0 := cm1con0 r; cm2con0 := v |}.

Definition set_csReadings v (r : Sense) : Sense :=
  {| csReadings := v; currentCapSenseChannel := currentCapSenseChannel r;
     csBaseline := csBaseline r; csMin := csMin r;
     csDownInBin := csDownInBin r; csLastBinTicks := csLastBinTicks r;
     csLastButtonTicks := csLastButtonTicks r;
     csLastDownPolls := csLastDownPolls r;
     csHoldingButton := csHoldingButton r; csButton := csButton r;
     csCurrentBin := csCurrentBin r; csBin := csBin r;
     csThresholds := csThresholds r |}.
Definition set_currentCapSenseChannel v (r : Sense) : Sense :=
  {| csReadings := csReadings r; currentCapSenseChannel := v;
     csBaseline := csBaseline r; csMin := csMin r;
     csDownInBin := csDownInBin r; csLastBinTicks := csLastBinTicks r;
     csLastButtonTicks := csLastButtonTicks r;
     csLastDownPolls := csLastDownPolls r;
     csHoldingButton := csHoldingButton r; csButton := csButton r;
     csCurrentBin := csCurrentBin r; csBin := csBin r;
     csThresholds := csThresholds r |}.
Definition set_csBaseline v (r : Sense) : Sense :=
  {| csReadings := csReadings r;
     currentCapSenseChannel := currentCapSenseChannel r; csBaseline := v;
     csMin := csMin r; csDownInBin := csDownInBin r;
     csLastBinTicks := csLastBinTicks r;
     csLastButtonTicks := csLastButtonTicks r;
     csLastDownPolls := csLastDownPolls r;
     csHoldingButton := csHoldingButton r; csButton := csButton r;
     csCurrentBin := csCurrentBin r; csBin := csBin r;
     csThresholds := csThresholds r |}.
Definition set_csMin v (r : Sense) : Sense :=
  {| csReadings := csReadings r;
     currentCapSenseChannel := currentCapSenseChannel r;
     csBaseline := csBaseline r; csMin := v; csDownInBin := csDownInBin r;
     csLastBinTicks := csLastBinTicks r;
     csLastButtonTicks := csLastButtonTicks r;
     csLastDownPolls := csLastDownPolls r;
     csHoldingButton := csHoldingButton r; csButton := csButton r;
     csCurrentBin := csCurrentBin r; csBin := csBin r;
     csThresholds := csThresholds r |}.
Definition set_csDownInBin v (r : Sense) : Sense :=
  {| csReadings := csReadings r;
     currentCapSenseChannel := currentCapSenseChannel r;
     csBaseline := csBaseline r; csMin := csMin r; csDownInBin := v;
     csLastBinTicks := csLastBinTicks r;
     csLastButtonTicks := csLastButtonTicks r;
     csLastDownPolls := csLastDownPolls r;
     csHoldingButton := csHoldingButton r; csButton := csButton r;
     csCurrentBin := csCurrentBin r; csBin := csBin r;
     csThresholds := csThresholds r |}.
Definition set_csLastBinTicks v (r : Sense) : Sense :=
  {| csReadings := csReadings r;
     currentCapSenseChannel := currentCapSenseChannel r;
     csBaseline := csBaseline r; csMin := csMin r;
     csDownInBin := csDownInBin r; csLastBinTicks := v;
     csLastButtonTicks := csLastButtonTicks r;
     csLastDownPolls := csLastDownPolls r;
     csHoldingButton := csHoldingButton r; csButton := csButton r;
     csCurrentBin := csCurrentBin r; csBin := csBin r;
     csThresholds := csThresholds r |}.
Definition set_csLastButtonTicks v (r : Sense) : Sense :=
  {| csReadings := csReadings r;
     currentCapSenseChannel := currentCapSenseChannel r;
     csBaseline := csBaseline r; csMin := csMin r;
     csDownInBin := csDownInBin r; csLastBinTicks := csLastBinTicks r;
     csLastButtonTicks := v; csLastDownPolls := csLastDownPolls r;
     csHoldingButton := csHoldingButton r; csButton := csButton r;
     csCurrentBin := csCurrentBin r; csBin := csBin r;
     csThresholds := csThresholds r |}.
Definition set_csLastDownPolls v (r : Sense) : Sense :=
  {| csReadings := csReadings r;
     currentCapSenseChannel := currentCapSenseChannel r;
     csBaseline := csBaseline r; csMin := csMin r;
     csDownInBin := csDownInBin r; csLastBinTicks := csLastBinTicks r;
     csLastButtonTicks := csLastButtonTicks r; csLastDownPolls := v;
     csHoldingButton := csHoldingButton r; csButton := csButton r;
     csCurrentBin := csCurrentBin r; csBin := csBin r;
     csThresholds := csThresholds r |}.
Definition set_csHoldingButton v (r : Sense) : Sense :=
  {| csReadings := csReadings r;
     currentCapSenseChannel := currentCapSenseChannel r;
     csBaseline := csBaseline r; csMin := csMin r;
     csDownInBin := csDownInBin r; csLastBinTicks := csLastBinTicks r;
     csLastButtonTicks := csLastButtonTicks r;
     csLastDownPolls := csLastDownPolls r; csHoldingButton := v;
     csButton := csButton r; csCurrentBin := csCurrentBin r;
     csBin := csBin r; csThresholds := csThresholds r |}.
Definition set_csButton v (r : Sense) : Sense :=
  {| csReadings := csReadings r;
     currentCapSenseChannel := currentCapSenseChannel r;
     csBaseline := csBaseline r; csMin := csMin r;
     csDownInBin := csDownInBin r; csLastBinTicks := csLastBinTicks r;
     csLastButtonTicks := csLastButtonTicks r;
     csLastDownPolls := csLastDownPolls r;
     csHoldingButton := csHoldingButton r; csButton := v;
     csCurrentBin := csCurrentBin r; csBin := csBin r;
     csThresholds := csThresholds r |}.
Definition set_csCurrentBin v (r : Sense) : Sense :=
  {| csReadings := csReadings r;
     currentCapSenseChannel := currentCapSenseChannel r;
     csBaseline := csBaseline r; csMin := csMin r;
     csDownInBin := csDownInBin r; csLastBinTicks := csLastBinTicks r;
     csLastButtonTicks := csLastButtonTicks r;
     csLastDownPolls := csLastDownPolls r;
     csHoldingButton := csHoldingButton r; csButton := csButton r;
     csCurrentBin := v; csBin := csBin r; csThresholds := csThresholds r |}.
Definition set_csBin v (r : Sense) : Sense :=
  {| csReadings := csReadings r;
     currentCapSenseChannel := currentCapSenseChannel r;
     csBaseline := csBaseline r; csMin := csMin r;
     csDownInBin := csDownInBin r; csLastBinTicks := csLastBinTicks r;
     csLastButtonTicks := csLastButtonTicks r;
     csLastDownPolls := csLastDownPolls r;
     csHoldingButton := csHoldingButton r; csButton := csButton r;
     csCurrentBin := csCurrentBin r; csBin := v;
     csThresholds := csThresholds r |}.
Definition set_csThresholds v (r : Sense) : Sense :=
  {| csReadings := csReadings r;
     currentCapSenseChannel := currentCapSenseChannel r;
     csBaseline := csBaseline r; csMin := csMin r;
     csDownInBin := csDownInBin r; csLastBinTicks := csLastBinTicks r;
     csLastButtonTicks := csLastButtonTicks r;
     csLastDownPolls := csLastDownPolls r;
     csHoldingButton := csHoldingButton r; csButton := csButton r;
     csCurrentBin := csCurrentBin r; csBin := csBin r; csThresholds := v |}.

Definition set_csAutoCalibrateState v (r : Calib) : Calib :=
  {| csAutoCalibrateState := v; csCalButton := csCalButton r;
     csResults := csResults r; ticksStateStart := ticksStateStart r;
     timesThruButtons := timesThruButtons r; csMaxWaiting := csMaxWaiting r;
     csMaxHolding := csMaxHolding r; csMaxOthers := csMaxOthers r |}.
Definition set_csCalButton v (r : Calib) : Calib :=
  {| csAutoCalibrateState := csAutoCalibrateState r; csCalButton := v;
     csResults := csResults r; ticksStateStart := ticksStateStart r;
     timesThruButtons := timesThruButtons r; csMaxWaiting := csMaxWaiting r;
     csMaxHolding := csMaxHolding r; csMaxOthers := csMaxOthers r |}.
Definition set_csResults v (r : Calib) : Calib :=
  {| csAutoCalibrateState := csAutoCalibrateState r;
     csCalButton := csCalButton r; csResults := v;
     ticksStateStart := ticksStateStart r;
     timesThruButtons := timesThruButtons r; csMaxWaiting := csMaxWaiting r;
     csMaxHolding := csMaxHolding r; csMaxOthers := csMaxOthers r |}.
Definition set_ticksStateStart v (r : Calib) : Calib :=
  {| csAutoCalibrateState := csAutoCalibrateState r;
     csCalButton := csCalButton r; csResults := csResults r;
     ticksStateStart := v; timesThruButtons := timesThruButtons r;
     csMaxWaiting := csMaxWaiting r; csMaxHolding := csMaxHolding r;
     csMaxOthers := csMaxOthers r |}.
Definition set_timesThruButtons v (r : Calib) : Calib :=
  {| csAutoCalibrateState := csAutoCalibrateState r;
     csCalButton := csCalButton r; csResults := csResults r;
     ticksStateStart := ticksStateStart r; timesThruButtons := v;
     csMaxWaiting := csMaxWaiting r; csMaxHolding := csMaxHolding r;
     csMaxOthers := csMaxOthers r |}.
Definition set_csMaxWaiting v (r : Calib) : Calib :=
  {| csAutoCalibrateState := csAutoCalibrateState r;
     csCalButton := csCalButton r; csResults := csResults r;
     ticksStateStart := ticksStateStart r;
     timesThruButtons := timesThruButtons r; csMaxWaiting := v;
     csMaxHolding := csMaxHolding r; csMaxOthers := csMaxOthers r |}.
Definition set_csMaxHolding v (r : Calib) : Calib :=
  {| csAutoCalibrateState := csAutoCalibrateState r;
     csCalButton := csCalButton r; csResults := csResults r;
     ticksStateStart := ticksStateStart r;
     timesThruButtons := timesThruButtons r; csMaxWaiting := csMaxWaiting r;
     csMaxHolding := v; csMaxOthers := csMaxOthers r |}.
Definition set_csMaxOthers v (r : Calib) : Calib :=
  {| csAutoCalibrateState := csAutoCalibrateState r;
     csCalButton := csCalButton r; csResults := csResults r;
     ticksStateStart := ticksStateStart r;
     timesThruButtons := timesThruButtons r; csMaxWaiting := csMaxWaiting r;
     csMaxHolding := csMaxHolding r; csMaxOthers := v |}.

(** ** The sensing engine *)

Section Engine.

Variable cfg : Config.

(** [SetCapSenseChannel]: route the comparators to the current channel. *)
Definition SetCapSenseChannel (s : State) : State :=
  let ch := currentCapSenseChannel (sn s) in
  let s := with_hw (set_cm1con0 (to_byte (148 + ch))) s in
  with_hw (set_cm2con0 (to_byte (160 + ch))) s.

(** [RestartCapSenseTimer]: clear out and reset both timers. *)
Definition RestartCapSenseTimer (s : State) : State :=
  let s := with_hw (set_tmr0 0) s in
  let s := with_hw (set_TMR1ON false) s in
  let s := with_hw (set_tmr1l 0) s in
  let s := with_hw (set_tmr1h 0) s in
  let s := with_hw (set_TMR1ON true) s in
  with_hw (set_T0IF false) s.

(** [IsChannelUsed]: [(1 << channel) & CAPSENSE_CHANNELS], returned as a
    byte; C reads any non-zero value as true. *)
Definition IsChannelUsed (channel : Z) : Z :=
  to_byte (Z.land (Z.shiftl 1 channel) (CAPSENSE_CHANNELS cfg)).

(** The tests [#if CAPSENSE_CHANNELS & CAPSENSE_CHANNELn].  The masks
    [CAPSENSE_CHANNELn] are declared in the missing header; they are taken to
    be the bits [1 << n] that [IsChannelUsed] tests. *)
Definition channel_compiled (n : Z) : bool :=
  negb (Z.land (CAPSENSE_CHANNELS cfg) (Z.shiftl 1 n) =? 0).

(** [GetCapSenseButton]: take the pending button out of the one-slot queue. *)
Definition GetCapSenseButton (s : State) : Z * State :=
  let result := csButton (sn s) in
  (result, with_sn (set_csButton (NO_CAPSENSE_BUTTONS cfg)) s).

Definition GetLastCapSenseReading (index : Z) (s : State) : Z :=
  aget (csReadings (sn s)) index.

Definition GetBaseline (index : Z) (s : State) : Z :=
  aget (csBaseline (sn s)) index.

(** One of the four unrolled statements
    [csBaseline[n] = max(csBin[n][0], csBin[n][1])]. *)
Definition bump_baseline (n : Z) (s : State) : State :=
  if channel_compiled n then
    with_sn (fun r => set_csBaseline
      (aset (csBaseline r) n
         (to_reading (c_max (aget2 (csBin r) n 0) (aget2 (csBin r) n 1)))) r) s
  else s.

(** One of the four unrolled statements
    [csBin[n][csCurrentBin] = csReadings[n]]. *)
Definition bump_reset_bin (n : Z) (s : State) : State :=
  if channel_compiled n then
    with_sn (fun r => set_csBin
      (aset2 (csBin r) n (csCurrentBin r) (aget (csReadings r) n)) r) s
  else s.

(** [BumpCapSenseBin]: move on to the next bin. *)
Definition BumpCapSenseBin (s : State) : State :=
  (* if (++csCurrentBin >= NUM_CAPSENSE_BINS) csCurrentBin = 0; *)
  let s := with_sn (fun r => set_csCurrentBin (to_byte (csCurrentBin r + 1)) r) s in
  let s := if NUM_CAPSENSE_BINS cfg <=? csCurrentBin (sn s)
           then with_sn (set_csCurrentBin 0) s else s in
  (* Find the global max again, over all bins, for all channels. *)
  let s := bump_baseline 0 s in
  let s := bump_baseline 1 s in
  let s := bump_baseline 2 s in
  let s := bump_baseline 3 s in
  (* Reset each channel's newly-current bin to its most recent reading. *)
  let s := bump_reset_bin 0 s in
  let s := bump_reset_bin 1 s in
  let s := bump_reset_bin 2 s in
  let s := bump_reset_bin 3 s in
  let s := with_sn (set_csLastBinTicks (ticks s)) s in
  with_sn (fun r => set_csDownInBin (aset (csDownInBin r) (csCurrentBin r) 0) r) s.

(** One of the three [#if !(CAPSENSE_CHANNELS & CAPSENSE_CHANNELn)] blocks of
    [BumpCapSenseChannel]. *)
Definition skip_if_unused (n : Z) (s : State) : State :=
  if channel_compiled n then s
  else if currentCapSenseChannel (sn s) =? n
       then with_sn (fun r => set_currentCapSenseChannel
                                (to_byte (currentCapSenseChannel r + 1)) r) s
       else s.

(** [BumpCapSenseChannel]: move to the next sensor and start its reading. *)
Definition BumpCapSenseChannel (s : State) : State :=
  let s := with_sn (fun r => set_currentCapSenseChannel
                               (to_byte (currentCapSenseChannel r + 1)) r) s in
  let s := skip_if_unused 1 s in
  let s := skip_if_unused 2 s in
  let s := skip_if_unused 3 s in
  let s := if LAST_CAPSENSE_CHANNEL cfg <? currentCapSenseChannel (sn s)
           then with_sn (set_currentCapSenseChannel (FIRST_CAPSENSE_CHANNEL cfg)) s
           else s in
  let s := SetCapSenseChannel s in
  RestartCapSenseTimer s.

(** [InitCapSense].  The pin configuration (ansel, tris), the oscillator
    set-up and [InitUiTime_Timer0] write registers that the module never
    reads and are left out; [stored] is the block that [read_eeprom_block]
    delivers into [csThresholds]. *)
Definition InitCapSense (stored : list Z) (s : State) : State :=
  let n := Z.to_nat (MAX_CAPSENSE_CHANNELS cfg) in
  let s := with_sn (set_currentCapSenseChannel (FIRST_CAPSENSE_CHANNEL cfg)) s in
  let s := with_sn (set_csCurrentBin 0) s in
  let s := with_sn (set_csBin
             (replicate n (replicate (Z.to_nat (NUM_CAPSENSE_BINS cfg)) 0))) s in
  let s := with_sn (set_csBaseline (replicate n 0)) s in
  let s := with_sn (set_csReadings (replicate n 0)) s in
  let s := with_sn (set_csLastBinTicks (ticks s)) s in
  let s := with_sn (set_csLastDownPolls 255) s in
  let s := with_sn (set_csHoldingButton (NO_CAPSENSE_BUTTONS cfg)) s in
  let s := with_sn (set_csDownInBin (replicate n 0)) s in
  let s := with_sn (set_csThresholds (to_byte <$> stored)) s in
  let s := SetCapSenseChannel s in
  let s := RestartCapSenseTimer s in
  with_sn (set_csButton (NO_CAPSENSE_BUTTONS cfg)) s.

(** *** The steps of [CapSenseISR] *)

(** [(tmr1h << 8) | tmr1l], stored in a [CapSenseReading]. *)
Definition read_tmr1 (t : Timer) : Z :=
  to_reading (Z.lor (Z.shiftl (tmr1h t) 8) (tmr1l t)).

(** The "pressed" threshold of a channel, from its baseline and its
    sensitivity (lines "Compute the pressed threshold" of the ISR). *)
Definition press_threshold (baseline sensitivity : Z) : Z :=
  let threshold := baseline in
  if sensitivity <? threshold then
    let threshold := to_reading (threshold - sensitivity) in
    to_reading (c_max threshold (CS_MIN_THRESHOLD cfg))
  else to_reading (CS_MIN_THRESHOLD cfg).

(** The threshold the ISR computes for the channel being scanned. *)
Definition isr_threshold (s : State) : Z :=
  let ch := currentCapSenseChannel (sn s) in
  let sensitivity := to_byte (aget (csThresholds (sn s)) ch) in
  press_threshold (aget (csBaseline (sn s)) ch) sensitivity.

(** The running average
    [*currentReading + (reading - *currentReading) / FILTER_LENGTH]. *)
Definition filter_step (current raw : Z) : Z :=
  to_reading (current + to_reading (raw - current) ÷ FILTER_LENGTH cfg).

(** The reading the ISR stores for the scanned channel. *)
Definition isr_reading (s : State) : Z :=
  filter_step (aget (csReadings (sn s)) (currentCapSenseChannel (sn s)))
              (read_tmr1 (hw s)).

Definition isr_store_reading (reading : Z) (s : State) : State :=
  with_sn (fun r => set_csReadings
    (aset (csReadings r) (currentCapSenseChannel r) reading) r) s.

(** The guard of the falling-edge branch. *)
Definition press_guard (r : Sense) : bool :=
  (csButton r =? NO_CAPSENSE_BUTTONS cfg)
  && (csHoldingButton r =? NO_CAPSENSE_BUTTONS cfg)
  && (DEBOUNCE_POLLS cfg <? csLastDownPolls r).

(** "Is it a button press?": the press and release bookkeeping. *)
Definition isr_button (reading threshold : Z) (s : State) : State :=
  if reading <? threshold then
    if press_guard (sn s) then
      let s := with_sn (fun r => set_csButton (currentCapSenseChannel r) r) s in
      let s := with_sn (set_csLastButtonTicks (ticks s)) s in
      let s := with_sn (fun r => set_csHoldingButton (currentCapSenseChannel r) r) s in
      let s := with_sn (set_csLastDownPolls 0) s in
      with_sn (fun r => set_csDownInBin (aset (csDownInBin r) (csCurrentBin r) 1) r) s
    else s
  else
    let s := if csHoldingButton (sn s) =? currentCapSenseChannel (sn s)
             then with_sn (set_csHoldingButton (NO_CAPSENSE_BUTTONS cfg)) s
             else s in
    if (csHoldingButton (sn s) =? NO_CAPSENSE_BUTTONS cfg)
       && (csLastDownPolls (sn s) <? 255)
    then with_sn (fun r => set_csLastDownPolls (to_byte (csLastDownPolls r + 1)) r) s
    else s.

(** The condition under which the current bin's extreme is updated. *)
Definition bin_update_guard (s : State) : bool :=
  ((csHoldingButton (sn s) =? NO_CAPSENSE_BUTTONS cfg)
   && (DEBOUNCE_POLLS cfg <? csLastDownPolls (sn s)))
  || (0 * TICKS_PER_SEC cfg <=? tick_diff (ticks s) (csLastButtonTicks (sn s))).

(** "Update the current bin's extreme." *)
Definition isr_bin_max (reading : Z) (s : State) : State :=
  if bin_update_guard s then
    let r := sn s in
    let ch := currentCapSenseChannel r in
    if aget2 (csBin r) ch (csCurrentBin r) <? reading
    then with_sn (set_csBin (aset2 (csBin r) ch (csCurrentBin r) reading)) s
    else s
  else s.

(** "During calibration, keep track of the minima as well."  (The module
    is taken with [CS_AUTO_CALIBRATE] defined.) *)
Definition isr_cal_min (reading : Z) (s : State) : State :=
  if ac_eqb (csAutoCalibrateState (cal s)) acPressAndReleaseButton then
    with_sn (fun r => set_csMin
      (aset (csMin r) (currentCapSenseChannel r)
         (accumulateMin (aget (csMin r) (currentCapSenseChannel r)) reading)) r) s
  else s.

Definition isr_rotate (s : State) : State :=
  if TICKS_PER_BIN_CHANGE <=? tick_diff (ticks s) (csLastBinTicks (sn s))
  then BumpCapSenseBin s else s.

(** [CapSenseISR].  [UiTimeInterrupt] belongs to the UI timer module, which
    is not among the sources: its result is the argument [fired], and
    [ticks s] is the tick counter as it stands once it has returned. *)
Definition CapSenseISR (fired : bool) (s : State) : bool * State :=
  if fired then
    let threshold := isr_threshold s in
    let reading := isr_reading s in
    let s := isr_store_reading reading s in
    let s := isr_button reading threshold s in
    let s := isr_bin_max reading s in
    let s := isr_cal_min reading s in
    let s := isr_rotate s in
    let s := BumpCapSenseChannel s in
    (true, s)
  else (false, s).

(** [CapSenseISRDone]: called at the end of interrupt processing. *)
Definition CapSenseISRDone (s : State) : State :=
  if T0IF (hw s) then RestartCapSenseTimer s else s.


(** ** Auto-calibration *)

(** The channel loop [for (channel = FIRST; channel <= LAST; ++channel)]. *)
Definition channel_range : list Z :=
  seqZ (FIRST_CAPSENSE_CHANNEL cfg)
       (LAST_CAPSENSE_CHANNEL cfg - FIRST_CAPSENSE_CHANNEL cfg + 1).

Definition SETTLE_TICKS : Z := TICKS_PER_BIN_CHANGE * NUM_CAPSENSE_BINS cfg + 1.

(** [InitReadingArray]: set the first [count] elements to [value]. *)
Definition InitReadingArray (array : list Z) (count : nat) (value : Z) : list Z :=
  replicate (Nat.min count (length array)) value ++ drop count array.

(** [InitReadingArray] on a two-dimensional array, row after row. *)
Fixpoint InitReadingRows (rows : list (list Z)) (count : nat) (value : Z)
  : list (list Z) :=
  match rows with
  | [] => []
  | row :: rest =>
      InitReadingArray row count value
      :: InitReadingRows rest (count - length row)%nat value
  end.

Definition EnterState (newState : CSAutoCalibrateState) (s : State) : State :=
  let s := with_cal (set_csAutoCalibrateState newState) s in
  with_cal (set_ticksStateStart (ticks s)) s.

Definition CapSenseStartCalibrate (s : State) : State := EnterState acStart s.

(** The depth of a channel's minimum below its baseline,
    [csBaseline[channel] - csMin[channel]]. *)
Definition excursion (s : State) (channel : Z) : Z :=
  to_reading (aget (csBaseline (sn s)) channel - aget (csMin (sn s)) channel).

(** Body of the loop of [acPressNothing]. *)
Definition fold_idle (s : State) (channel : Z) : State :=
  with_cal (fun c => set_csMaxWaiting
    (aset (csMaxWaiting c) channel
       (accumulateMax (aget (csMaxWaiting c) channel) (excursion s channel))) c) s.

(** Body of the loop of [acPressAndReleaseButton]. *)
Definition fold_press (s : State) (channel : Z) : State :=
  if channel =? csCalButton (cal s) then
    with_cal (fun c => set_csMaxHolding
      (aset2 (csMaxHolding c) channel (timesThruButtons c)
         (accumulateMax (aget2 (csMaxHolding c) channel (timesThruButtons c))
                        (excursion s channel))) c) s
  else
    with_cal (fun c => set_csMaxOthers
      (aset (csMaxOthers c) channel
         (accumulateMax (aget (csMaxOthers c) channel) (excursion s channel))) c) s.

(** [while (!IsChannelUsed(csCalButton) && csCalButton <= LAST) ++csCalButton;]
    Each round moves [csCalButton] one step towards [LAST + 1], so
    [LAST + 1 - csCalButton] rounds are enough ([skip_inactive_exits]). *)
Fixpoint skip_inactive_loop (fuel : nat) (b : Z) : Z :=
  match fuel with
  | O => b
  | S fuel' =>
      if (IsChannelUsed b =? 0) && (b <=? LAST_CAPSENSE_CHANNEL cfg)
      then skip_inactive_loop fuel' (to_byte (b + 1))
      else b
  end.

Definition skip_inactive (b : Z) : Z :=
  skip_inactive_loop (Z.to_nat (LAST_CAPSENSE_CHANNEL cfg + 1 - b)) b.

(** The state actions and transitions of the [switch]. *)
Definition cal_transition (s : State) : State :=
  match csAutoCalibrateState (cal s) with
  | acStart =>
      let s := with_cal (set_csCalButton (FIRST_CAPSENSE_CHANNEL cfg)) s in
      let s := with_cal (set_timesThruButtons 0) s in
      let n := Z.to_nat (MAX_CAPSENSE_CHANNELS cfg) in
      let s := with_cal (fun c => set_csMaxWaiting
                 (InitReadingArray (csMaxWaiting c) n 0) c) s in
      let s := with_cal (fun c => set_csMaxHolding
                 (InitReadingRows (csMaxHolding c)
                    (Z.to_nat (MAX_CAPSENSE_CHANNELS cfg * TIMES_THRU_BUTTONS)) 0) c) s in
      let s := with_cal (fun c => set_csMaxOthers
                 (InitReadingArray (csMaxOthers c) n 0) c) s in
      EnterState acPressNothing s
  | acPressNothing =>
      if SETTLE_TICKS <? tick_diff (ticks s) (ticksStateStart (cal s)) then
        let s := fold_left fold_idle channel_range s in
        if timesThruButtons (cal s) =? 0
        then EnterState acPressAndReleaseButton s
        else EnterState acDone s
      else s
  | acPressAndReleaseButton =>
      if SETTLE_TICKS <? tick_diff (ticks s) (ticksStateStart (cal s)) then
        let s := fold_left fold_press channel_range s in
        let s := EnterState acPressAndReleaseButton s in
        let s := with_cal (fun c => set_csCalButton (to_byte (csCalButton c + 1)) c) s in
        let s := with_cal (fun c => set_csCalButton (skip_inactive (csCalButton c)) c) s in
        let s := with_sn (fun r => set_csMin
                   (InitReadingArray (csMin r)
                      (Z.to_nat (MAX_CAPSENSE_CHANNELS cfg))
                      (to_reading (MAX_CS_READING cfg))) r) s in
        if LAST_CAPSENSE_CHANNEL cfg <? csCalButton (cal s) then
          let s := with_cal (set_csCalButton (FIRST_CAPSENSE_CHANNEL cfg)) s in
          let s := with_cal (fun c => set_timesThruButtons
                     (to_byte (timesThruButtons c + 1)) c) s in
          if TIMES_THRU_BUTTONS <=? timesThruButtons (cal s)
          then EnterState acPressNothing s
          else s
        else s
      else s
  | acDone => s
  end.

(** The weakest and the strongest of a channel's own presses: the loop
    over [i < TIMES_THRU_BUTTONS]. *)
Definition own_press_min (holding : list (list Z)) (channel : Z) : Z :=
  fold_left (fun m i => to_reading (c_min m (aget2 holding channel i)))
            (seqZ 0 TIMES_THRU_BUTTONS) (to_reading (MAX_CS_READING cfg)).
Definition own_press_max (holding : list (list Z)) (channel : Z) : Z :=
  fold_left (fun m i => to_reading (c_max m (aget2 holding channel i)))
            (seqZ 0 TIMES_THRU_BUTTONS) 0.

(** "Report a Fail status if we can't tell the difference ..." *)
Definition rate_fail (maxWaiting maxOthers minMe : Z) : bool :=
  (minMe <=? to_reading (maxOthers + 2 * CS_MIN_THRESHOLD cfg))
  || (minMe <=? to_reading (maxWaiting + 2 * CS_MIN_THRESHOLD cfg)).

(** "... note that this button is just OK - you have to press it hard." *)
Definition rate_ok (maxWaiting maxOthers minMe : Z) : bool :=
  (minMe <? maxOthers)
  || (to_reading (minMe - 2 * CS_MIN_THRESHOLD cfg) <? maxOthers)
  || (minMe <? maxWaiting)
  || (to_reading (minMe - CS_MIN_THRESHOLD cfg) <? maxWaiting).

(** The rating and the threshold (a byte) the Done phase gives to a channel
    in use. *)
Definition rate_channel (maxWaiting maxOthers minMe maxMe : Z)
  : CSAutoCalibrateResult * Z :=
  if rate_fail maxWaiting maxOthers minMe then
    (acrFail, to_byte (to_reading (maxMe ÷ 2 + maxWaiting ÷ 2 - CS_MIN_THRESHOLD cfg)))
  else
    (if rate_ok maxWaiting maxOthers minMe then acrOK else acrGreat,
     to_byte (to_reading (minMe - CS_MIN_THRESHOLD cfg))).

(** What the Done phase computes for channel [b]. *)
Definition done_result (c : Calib) (b : Z) : CSAutoCalibrateResult * Z :=
  if IsChannelUsed b =? 0 then (acrFail, 0)
  else rate_channel (aget (csMaxWaiting c) b) (aget (csMaxOthers c) b)
                    (own_press_min (csMaxHolding c) b)
                    (own_press_max (csMaxHolding c) b).

(** One round of the loop over [csCalButton] in the Done phase. *)
Definition done_step (s : State) (b : Z) : State :=
  let s := with_cal (set_csCalButton b) s in
  let res := done_result (cal s) b in
  let s := with_cal (fun c => set_csResults
             (<[Z.to_nat b := fst res]> (csResults c)) c) s in
  with_sn (fun r => set_csThresholds (aset (csThresholds r) b (snd res)) r) s.

Definition cal_done (s : State) : State :=
  let s := with_cal (set_csCalButton (FIRST_CAPSENSE_CHANNEL cfg)) s in
  let s := fold_left done_step channel_range s in
  (* the loop leaves csCalButton one past the last channel it visited *)
  match channel_range with
  | [] => s
  | _ => with_cal (set_csCalButton (to_byte (LAST_CAPSENSE_CHANNEL cfg + 1))) s
  end.

(** [CapSenseContinueCalibrate]: one poll of the calibration protocol.
    The result is [true] while calibration is still running.  The copies of
    the thresholds and of the statistics to the EEPROM go through
    eeprom-tjw.h and leave the globals as they are. *)
Definition CapSenseContinueCalibrate (s : State) : bool * State :=
  let s := snd (GetCapSenseButton s) in
  let s := cal_transition s in
  if ac_eqb (csAutoCalibrateState (cal s)) acDone
  then (false, cal_done s)
  else (true, s).

End Engine.

(** ** Example configurations and states *)

(** Two buttons, on channels 0 and 1. *)
Definition two_button_cfg : Config :=
  {| MAX_CAPSENSE_CHANNELS := 4; CAPSENSE_CHANNELS := 3;
     FIRST_CAPSENSE_CHANNEL := 0; LAST_CAPSENSE_CHANNEL := 1;
     NO_CAPSENSE_BUTTONS := 255; NUM_CAPSENSE_BINS := 2;
     CS_MIN_THRESHOLD := 2; FILTER_LENGTH := 4; DEBOUNCE_POLLS := 3;
     TICKS_PER_SEC := 4; MAX_CS_READING := 65535 |}.

(** A single button, on channel 0. *)
Definition one_button_cfg : Config :=
  {| MAX_CAPSENSE_CHANNELS := 4; CAPSENSE_CHANNELS := 1;
     FIRST_CAPSENSE_CHANNEL := 0; LAST_CAPSENSE_CHANNEL := 0;
     NO_CAPSENSE_BUTTONS := 255; NUM_CAPSENSE_BINS := 2;
     CS_MIN_THRESHOLD := 2; FILTER_LENGTH := 4; DEBOUNCE_POLLS := 3;
     TICKS_PER_SEC := 4; MAX_CS_READING := 65535 |}.

(** The single button with a coarse minimum threshold. *)
Definition coarse_cfg : Config :=
  {| MAX_CAPSENSE_CHANNELS := 4; CAPSENSE_CHANNELS := 1;
     FIRST_CAPSENSE_CHANNEL := 0; LAST_CAPSENSE_CHANNEL := 0;
     NO_CAPSENSE_BUTTONS := 255; NUM_CAPSENSE_BINS := 2;
     CS_MIN_THRESHOLD := 18; FILTER_LENGTH := 4; DEBOUNCE_POLLS := 3;
     TICKS_PER_SEC := 4; MAX_CS_READING := 65535 |}.

(** Timer registers with [count] oscillations in Timer 1. *)
Definition timer_at (count : Z) : Timer :=
  {| tmr0 := 0; tmr1l := count mod 256; tmr1h := count / 256;
     TMR1ON := true; T0IF := false; cm1con0 := 148; cm2con0 := 160 |}.

Definition calib_idle : Calib :=
  {| csAutoCalibrateState := acStart; csCalButton := 0;
     csResults := [acrFail; acrFail; acrFail; acrFail];
     ticksStateStart := 0; timesThruButtons := 0;
     csMaxWaiting := [0; 0; 0; 0];
     csMaxHolding := [[0; 0; 0]; [0; 0; 0]; [0; 0; 0]; [0; 0; 0]];
     csMaxOthers := [0; 0; 0; 0] |}.

(** Nothing held, nothing pending; channel 0 is being scanned, its reading
    (900) is below its press threshold (1000 - 38). *)
Definition touch_state : State :=
  {| hw := timer_at 900;
     sn := {| csReadings := [900; 1000; 0; 0]; currentCapSenseChannel := 0;
              csBaseline := [1000; 1000; 0; 0]; csMin := [0; 0; 0; 0];
              csDownInBin := [0; 0; 0; 0]; csLastBinTicks := 10;
              csLastButtonTicks := 0; csLastDownPolls := 255;
              csHoldingButton := 255; csButton := 255; csCurrentBin := 0;
              csBin := [[1000; 1000]; [1000; 1000]; [0; 0]; [0; 0]];
              csThresholds := [38; 38; 0; 0] |};
     cal := calib_idle; ticks := 10 |}.

(** Button 0 went down in this very tick and is still held; the press has
    been consumed.  The current bin of channel 0 holds 900 and the
    oscillation count has come back up a little, to 920. *)
Definition held_state : State :=
  {| hw := timer_at 920;
     sn := {| csReadings := [900; 1000; 0; 0]; currentCapSenseChannel := 0;
              csBaseline := [1000; 1000; 0; 0]; csMin := [0; 0; 0; 0];
              csDownInBin := [1; 0; 0; 0]; csLastBinTicks := 10;
              csLastButtonTicks := 10; csLastDownPolls := 0;
              csHoldingButton := 0; csButton := 255; csCurrentBin := 0;
              csBin := [[900; 1000]; [1000; 1000]; [0; 0]; [0; 0]];
              csThresholds := [38; 38; 0; 0] |};
     cal := calib_idle; ticks := 10 |}.

(** Both bins of channel 0 hold 3 while its baseline, computed at an earlier
    rotation, is still 5. *)
Definition settled_low_state : State :=
  {| hw := timer_at 3;
     sn := {| csReadings := [3; 1000; 0; 0]; currentCapSenseChannel := 0;
              csBaseline := [5; 1000; 0; 0]; csMin := [0; 0; 0; 0];
              csDownInBin := [0; 0; 0; 0]; csLastBinTicks := 10;
              csLastButtonTicks := 0; csLastDownPolls := 255;
              csHoldingButton := 255; csButton := 255; csCurrentBin := 1;
              csBin := [[3; 3]; [1000; 1000]; [0; 0]; [0; 0]];
              csThresholds := [38; 38; 0; 0] |};
     cal := calib_idle; ticks := 11 |}.

(** The second idle window of a calibration: the three passes are over, the
    minima were reset to [MAX_CS_READING] when the last pass ended, and
    channel 0 reads 900. *)
Definition idle_window_state : State :=
  {| hw := timer_at 900;
     sn := {| csReadings := [900; 1000; 0; 0]; currentCapSenseChannel := 0;
              csBaseline := [1000; 1000; 0; 0];
              csMin := [65535; 65535; 65535; 65535];
              csDownInBin := [0; 0; 0; 0]; csLastBinTicks := 10;
              csLastButtonTicks := 0; csLastDownPolls := 255;
              csHoldingButton := 255; csButton := 255; csCurrentBin := 0;
              csBin := [[1000; 1000]; [1000; 1000]; [0; 0]; [0; 0]];
              csThresholds := [38; 38; 0; 0] |};
     cal := {| csAutoCalibrateState := acPressNothing; csCalButton := 0;
               csResults := [acrFail; acrFail; acrFail; acrFail];
               ticksStateStart := 10; timesThruButtons := 3;
               csMaxWaiting := [4; 3; 0; 0];
               csMaxHolding := [[40; 45; 50]; [60; 62; 58]; [0; 0; 0]; [0; 0; 0]];
               csMaxOthers := [6; 7; 0; 0] |};
     ticks := 10 |}.

(** A calibration that has reached [acDone] with the given statistics. *)
Definition done_state (waiting others : list Z) (holding : list (list Z))
  : State :=
  {| hw := timer_at 900;
     sn := sn touch_state;
     cal := {| csAutoCalibrateState := acDone; csCalButton := 0;
               csResults := [acrGreat; acrGreat; acrGreat; acrGreat];
               ticksStateStart := 10; timesThruButtons := 3;
               csMaxWaiting := waiting; csMaxHolding := holding;
               csMaxOthers := others |};
     ticks := 20 |}.

(** Channel A (0) moved by 38 while B was pressed; its own presses moved it
    by 40, 44 and 50. *)
Definition crosstalk_state : State :=
  done_state [3; 2; 0; 0] [38; 4; 0; 0]
             [[40; 44; 50]; [60; 62; 58]; [0; 0; 0]; [0; 0; 0]].

(** The same in a module that holds no rating yet: every result is acrFail
    and every threshold 0. *)
Definition unrated_state (waiting others : list Z) (holding : list (list Z))
  : State :=
  with_sn (set_csThresholds [0; 0; 0; 0])
    (with_cal (set_csResults [acrFail; acrFail; acrFail; acrFail])
       (done_state waiting others holding)).

(** One channel: idle excursion 5, own presses 40, 45 and 50. *)
Definition clean_state : State :=
  unrated_state [5; 0; 0; 0] [0; 0; 0; 0]
                [[40; 45; 50]; [0; 0; 0]; [0; 0; 0]; [0; 0; 0]].

(** One channel pressed hard: own presses 300, 400 and 500. *)
Definition strong_press_state : State :=
  unrated_state [5; 0; 0; 0] [0; 0; 0; 0]
                [[300; 400; 500]; [0; 0; 0]; [0; 0; 0]; [0; 0; 0]].

(** One channel whose cross-talk accumulator holds a wrapped excursion
    (a minimum two above the baseline). *)
Definition wrapped_crosstalk_state : State :=
  unrated_state [0; 0; 0; 0] [65534; 0; 0; 0]
                [[40; 45; 50]; [0; 0; 0]; [0; 0; 0]; [0; 0; 0]].

(** ** Views of the state used in the statements *)

(** The button state: pending button, held button, down-poll counter. *)
Definition buttons (s : State) : Z * Z * Z :=
  (csButton (sn s), csHoldingButton (sn s), csLastDownPolls (sn s)).

(** The state of [CapSenseISR] right after its "Is it a button press?"
    step, before the bin update. *)
Definition isr_after_button (cfg : Config) (s : State) : State :=
  isr_button cfg (isr_reading cfg s) (isr_threshold cfg s)
             (isr_store_reading (isr_reading cfg s) s).

(** The state with other counts in the two timers. *)
Definition with_counts (t0 t1l t1h : Z) (s : State) : State :=
  with_hw (fun t => set_tmr0 t0 (set_tmr1l t1l (set_tmr1h t1h t))) s.

(** A state in which the timer-0 flag is up again at the end of interrupt
    processing, with 1234 oscillations counted so far. *)
Definition overrun_state : State :=
  with_hw (set_T0IF true) (with_hw (fun _ => timer_at 1234) touch_state).

(** The largest value held by the bins of one channel. *)
Definition max_over_bins (row : list Z) : Z := foldr Z.max 0 row.

(** The bins of a channel, as the list [csBin[channel]]. *)
Definition bins_of (s : State) (channel : Z) : list Z :=
  default [] (csBin (sn s) !! Z.to_nat channel).



(** The statistics gathered by the calibration. *)
Definition stats (c : Calib) : list Z * list Z * list (list Z) :=
  (csMaxWaiting c, csMaxOthers c, csMaxHolding c).

(** The excursion of a channel's own press in pass [i]. *)
Definition own_press (c : Calib) (channel i : Z) : Z :=
  aget2 (csMaxHolding c) channel i.

(** The weakest and the strongest own press over the three passes. *)
Definition minOwnPress (c : Calib) (channel : Z) : Z :=
  Z.min (own_press c channel 0)
        (Z.min (own_press c channel 1) (own_press c channel 2)).
Definition maxOwnPress (c : Calib) (channel : Z) : Z :=
  Z.max (own_press c channel 0)
        (Z.max (own_press c channel 1) (own_press c channel 2)).

(** The statistics of a channel are readings, and no own-press excursion
    exceeds [MAX_CS_READING]. *)
Definition stats_in_range (cfg : Config) (c : Calib) (channel : Z) : Prop :=
  MAX_CS_READING cfg < 65536
  /\ (forall i, 0 <= i < TIMES_THRU_BUTTONS ->
        0 <= own_press c channel i <= MAX_CS_READING cfg)
  /\ 0 <= aget (csMaxWaiting c) channel < 65536
  /\ 0 <= aget (csMaxOthers c) channel < 65536.

(** The "margins" test of the Done phase, on a channel's statistics. *)
Definition within_margins (cfg : Config) (c : Calib) (channel : Z) : Prop :=
  let minOwn := minOwnPress c channel in
  let crossTalk := aget (csMaxOthers c) channel in
  let idle := aget (csMaxWaiting c) channel in
  crossTalk > minOwn
  \/ crossTalk > to_reading (minOwn - 2 * CS_MIN_THRESHOLD cfg)
  \/ idle > minOwn
  \/ idle > to_reading (minOwn - CS_MIN_THRESHOLD cfg).

(** No filtering: a single button with [FILTER_LENGTH] 1. *)
Definition unfiltered_cfg : Config :=
  {| MAX_CAPSENSE_CHANNELS := 4; CAPSENSE_CHANNELS := 1;
     FIRST_CAPSENSE_CHANNEL := 0; LAST_CAPSENSE_CHANNEL := 0;
     NO_CAPSENSE_BUTTONS := 255; NUM_CAPSENSE_BINS := 2;
     CS_MIN_THRESHOLD := 2; FILTER_LENGTH := 1; DEBOUNCE_POLLS := 3;
     TICKS_PER_SEC := 4; MAX_CS_READING := 65535 |}.

(** A measurement cycle as the hardware drives it: Timer 1 has counted
    [count] oscillations and the tick counter stands at [now] when the
    interrupt fires; [CapSenseISRDone] is called on the way out. *)
Definition measure (cfg : Config) (s : State) (m : Z * Z) : State :=
  let '(count, now) := m in
  let s := {| hw := set_tmr1l (count mod 256) (set_tmr1h (count / 256) (hw s));
              sn := sn s; cal := cal s; ticks := to_byte now |} in
  CapSenseISRDone (snd (CapSenseISR cfg true s)).

(** The bin index after a rotation. *)
Definition next_bin (cfg : Config) (cur : Z) : Z :=
  if NUM_CAPSENSE_BINS cfg <=? to_byte (cur + 1) then 0 else to_byte (cur + 1).

(** The unrolled statements of [BumpCapSenseBin], one array at a time. *)
Definition baseline_stmt (cfg : Config) (s : State) (n : Z) (l : list Z) : list Z :=
  if channel_compiled cfg n
  then aset l n (to_reading (c_max (aget2 (csBin (sn s)) n 0)
                                   (aget2 (csBin (sn s)) n 1)))
  else l.

Definition reset_stmt (cfg : Config) (s : State) (n : Z) (m : list (list Z))
  : list (list Z) :=
  if channel_compiled cfg n
  then aset2 m n (next_bin cfg (csCurrentBin (sn s))) (aget (csReadings (sn s)) n)
  else m.

(** What happens to the module from outside: a measurement cycle, the
    application taking the pending button, and the two calls that drive the
    calibration. *)
Inductive Event :=
  | Measure (count now : Z)
  | TakeButton
  | StartCalibrate
  | ContinueCalibrate.

Definition drive (cfg : Config) (s : State) (e : Event) : State :=
  match e with
  | Measure count now => measure cfg s (count, now)
  | TakeButton => snd (GetCapSenseButton cfg s)
  | StartCalibrate => CapSenseStartCalibrate s
  | ContinueCalibrate => snd (CapSenseContinueCalibrate cfg s)
  end.

(** The globals as C initialises them (all zero), with the tick counter at
    [now]. *)
Definition zeroed (now : Z) : State :=
  {| hw := timer_at 0;
     sn := {| csReadings := [0; 0; 0; 0]; currentCapSenseChannel := 0;
              csBaseline := [0; 0; 0; 0]; csMin := [0; 0; 0; 0];
              csDownInBin := [0; 0; 0; 0]; csLastBinTicks := 0;
              csLastButtonTicks := 0; csLastDownPolls := 0;
              csHoldingButton := 0; csButton := 0; csCurrentBin := 0;
              csBin := [[0; 0]; [0; 0]; [0; 0]; [0; 0]];
              csThresholds := [0; 0; 0; 0] |};
     cal := calib_idle; ticks := now |}.

(** Power-up of the single unfiltered button with a stored sensitivity of
    38, followed by the given events. *)
Definition run_from_power_up (events : list Event) : State :=
  fold_left (drive unfiltered_cfg) events
            (InitCapSense unfiltered_cfg [38; 0; 0; 0] (zeroed 10)).

(** The button rests at 1000 for three ticks and is then touched. *)
Definition touch_events : list Event :=
  [Measure 1000 10; Measure 1000 11; Measure 1000 12; Measure 900 13; TakeButton].

(** One settle window of the calibration (more than [SETTLE_TICKS] ticks)
    from tick [t0], closed by a poll: the count is [rest], except for two
    ticks at [pressed]. *)
Definition window (rest pressed t0 : Z) : list Event :=
  [Measure rest t0; Measure pressed (t0 + 1); Measure pressed (t0 + 2);
   Measure rest (t0 + 3); Measure rest (t0 + 4); ContinueCalibrate].

(** A whole calibration up to the second idle window: idle, three presses
    of the button down to 950, and four of the five measurements of the last
    idle window, with a dip to 990. *)
Definition calibration_events : list Event :=
  [Measure 1000 10; Measure 1000 11; Measure 1000 12;
   StartCalibrate; ContinueCalibrate]
  ++ window 1000 1000 13 ++ window 1000 950 18 ++ window 1000 950 23
  ++ window 1000 950 28
  ++ [Measure 1000 33; Measure 990 34; Measure 990 35; Measure 1000 36].

(** ** Well-formed states and runs *)

Definition in16 (v : Z) : Prop := 0 <= v < 65536.
Definition in8 (v : Z) : Prop := 0 <= v < 256.

(** What the sensing globals satisfy in operation: the arrays have
    [MAX_CAPSENSE_CHANNELS] entries ([NUM_CAPSENSE_BINS] bins per channel),
    the values fit their types, the bin index is a valid index, and the
    down-poll counter is 0 while a button is held. *)
Record engine_inv (cfg : Config) (s : State) : Prop := {
  inv_readings_len :
    length (csReadings (sn s)) = Z.to_nat (MAX_CAPSENSE_CHANNELS cfg);
  inv_baseline_len :
    length (csBaseline (sn s)) = Z.to_nat (MAX_CAPSENSE_CHANNELS cfg);
  inv_down_len :
    length (csDownInBin (sn s)) = Z.to_nat (MAX_CAPSENSE_CHANNELS cfg);
  inv_thresholds_len :
    length (csThresholds (sn s)) = Z.to_nat (MAX_CAPSENSE_CHANNELS cfg);
  inv_bin_len :
    length (csBin (sn s)) = Z.to_nat (MAX_CAPSENSE_CHANNELS cfg);
  inv_bin_rows :
    Forall (fun row => length row = Z.to_nat (NUM_CAPSENSE_BINS cfg)
                       /\ Forall in16 row) (csBin (sn s));
  inv_readings : Forall in16 (csReadings (sn s));
  inv_baseline : Forall in16 (csBaseline (sn s));
  inv_thresholds : Forall in8 (csThresholds (sn s));
  inv_current_bin : 0 <= csCurrentBin (sn s) < NUM_CAPSENSE_BINS cfg;
  inv_polls : 0 <= csLastDownPolls (sn s) <= 255;
  inv_held_polls :
    csHoldingButton (sn s) <> NO_CAPSENSE_BUTTONS cfg ->
    csLastDownPolls (sn s) = 0
}.

(** A sequence of events applied to a state. *)
Definition run (cfg : Config) (events : list Event) (s : State) : State :=
  fold_left (drive cfg) events s.

(** The sensing globals that the calibration has no business with. *)
Definition sensing_core (s : State) :=
  (hw s, ticks s, csReadings (sn s), currentCapSenseChannel (sn s),
   csBaseline (sn s), csDownInBin (sn s), csLastBinTicks (sn s),
   csLastButtonTicks (sn s), csLastDownPolls (sn s), csHoldingButton (sn s),
   csCurrentBin (sn s), csBin (sn s)).

(** The channel number after one of the skip blocks of
    [BumpCapSenseChannel]. *)
Definition skip_value (cfg : Config) (n c : Z) : Z :=
  if channel_compiled cfg n then c else if c =? n then to_byte (c + 1) else c.

(** The channel [BumpCapSenseChannel] moves to from [cur]. *)
Definition next_channel (cfg : Config) (cur : Z) : Z :=
  let c := skip_value cfg 3
             (skip_value cfg 2 (skip_value cfg 1 (to_byte (cur + 1)))) in
  if LAST_CAPSENSE_CHANNEL cfg <? c then FIRST_CAPSENSE_CHANNEL cfg else c.

(** ** Arithmetic and array facts *)

Lemma to_reading_range z : 0 <= to_reading z < 65536.
Proof. unfold to_reading. apply Z.mod_pos_bound. lia. Qed.

Lemma to_byte_range z : 0 <= to_byte z < 256.
Proof. unfold to_byte. apply Z.mod_pos_bound. lia. Qed.

Lemma to_reading_small z : 0 <= z < 65536 -> to_reading z = z.
Proof. intros H. unfold to_reading. apply Z.mod_small. exact H. Qed.

Lemma to_byte_small z : 0 <= z < 256 -> to_byte z = z.
Proof. intros H. unfold to_byte. apply Z.mod_small. exact H. Qed.

Lemma to_byte_to_reading z : to_byte (to_reading z) = z mod 256.
Proof.
  unfold to_byte, to_reading. apply Z.mod_mod_divide. by exists 256.
Qed.

Lemma c_max_is_max a b : c_max a b = Z.max a b.
Proof. unfold c_max. destruct (Z.ltb_spec a b); lia. Qed.

Lemma c_min_is_min a b : c_min a b = Z.min a b.
Proof. unfold c_min. destruct (Z.ltb_spec b a); lia. Qed.

Lemma accumulateMax_is_max a v : accumulateMax a v = Z.max a v.
Proof. unfold accumulateMax. destruct (Z.ltb_spec a v); lia. Qed.

Lemma aget_aset_eq (l : list Z) i v :
  (Z.to_nat i < length l)%nat -> aget (aset l i v) i = v.
Proof.
  intros H. unfold aget, aset. by rewrite list_lookup_insert_eq.
Qed.

Lemma aget_aset_ne (l : list Z) i j v :
  Z.to_nat i <> Z.to_nat j -> aget (aset l i v) j = aget l j.
Proof.
  intros H. unfold aget, aset. by rewrite list_lookup_insert_ne.
Qed.

Lemma aset_length (l : list Z) i v : length (aset l i v) = length l.
Proof. apply length_insert. Qed.

(** ** The live press threshold *)

Section Threshold.

Variable cfg : Config.
Hypothesis min_threshold_fits : 0 <= CS_MIN_THRESHOLD cfg < 65536.

(** The subtraction never wraps: it is only done when the baseline is the
    larger of the two. *)
Lemma press_threshold_value baseline sensitivity :
  0 <= baseline < 65536 -> 0 <= sensitivity ->
  press_threshold cfg baseline sensitivity =
    if sensitivity <? baseline
    then Z.max (baseline - sensitivity) (CS_MIN_THRESHOLD cfg)
    else CS_MIN_THRESHOLD cfg.
Proof.
  intros Hb Hs. unfold press_threshold.
  destruct (Z.ltb_spec sensitivity baseline) as [Hlt | Hge].
  - rewrite (to_reading_small (baseline - sensitivity)) by lia.
    rewrite c_max_is_max. apply to_reading_small. lia.
  - apply to_reading_small. exact min_threshold_fits.
Qed.

(** C1. In every measurement cycle, for the channel being scanned, the
    threshold the pipeline compares the filtered reading with is
    max(Baseline - sensitivity, CS_MIN_THRESHOLD) when Baseline > sensitivity
    and CS_MIN_THRESHOLD otherwise, where sensitivity is the channel's entry
    in the table of persisted thresholds. *)
Theorem live_threshold_formula (s : State) :
  let ch := currentCapSenseChannel (sn s) in
  let Baseline := aget (csBaseline (sn s)) ch in
  let sensitivity := aget (csThresholds (sn s)) ch in
  0 <= Baseline < 65536 ->
  0 <= sensitivity < 256 ->
  isr_threshold cfg s =
    if Baseline >? sensitivity
    then Z.max (Baseline - sensitivity) (CS_MIN_THRESHOLD cfg)
    else CS_MIN_THRESHOLD cfg.
Proof.
  intros ch Baseline sensitivity Hb Hs. unfold isr_threshold.
  fold ch. fold sensitivity. fold Baseline.
  rewrite (to_byte_small sensitivity) by exact Hs.
  rewrite press_threshold_value by lia.
  rewrite Z.gtb_ltb. reflexivity.
Qed.

End Threshold.

Lemma live_threshold_formula_witness :
  isr_threshold two_button_cfg touch_state =
    if 1000 >? 38 then Z.max (1000 - 38) 2 else 2.
Proof.
  apply (live_threshold_formula two_button_cfg); vm_compute; split; congruence.
Defined.

(** ** Loops that leave part of the state alone *)

Lemma fold_left_keeps {A B} (proj : State -> A) (f : State -> B -> State) l :
  (forall s x, proj (f s x) = proj s) ->
  forall s, proj (fold_left f l s) = proj s.
Proof.
  intros Hf. induction l as [| x l IH]; intros s; simpl.
  - reflexivity.
  - rewrite IH. apply Hf.
Qed.

Lemma fold_idle_sn l s : sn (fold_left fold_idle l s) = sn s.
Proof. apply fold_left_keeps. reflexivity. Qed.

Lemma fold_press_sn l s : sn (fold_left fold_press l s) = sn s.
Proof.
  apply fold_left_keeps. intros s0 x. unfold fold_press.
  destruct (x =? csCalButton (cal s0)); reflexivity.
Qed.

Lemma done_step_csButton cfg l s :
  csButton (sn (fold_left (done_step cfg) l s)) = csButton (sn s).
Proof.
  apply (fold_left_keeps (fun s => csButton (sn s))). reflexivity.
Qed.

Lemma cal_transition_csButton cfg s :
  csButton (sn (cal_transition cfg s)) = csButton (sn s).
Proof.
  unfold cal_transition.
  destruct (csAutoCalibrateState (cal s)); try reflexivity.
  - destruct (SETTLE_TICKS cfg <? _); [| reflexivity].
    destruct (timesThruButtons _ =? 0); simpl; by rewrite fold_idle_sn.
  - destruct (SETTLE_TICKS cfg <? _); [| reflexivity].
    repeat match goal with
           | |- context [if ?b then _ else _] => destruct b
           end; simpl; by rewrite fold_press_sn.
Qed.

Lemma cal_done_csButton cfg s :
  csButton (sn (cal_done cfg s)) = csButton (sn s).
Proof.
  unfold cal_done.
  pose proof (done_step_csButton cfg (channel_range cfg)
                (with_cal (set_csCalButton (FIRST_CAPSENSE_CHANNEL cfg)) s)) as H.
  remember (fold_left _ _ _) as s1. clear Heqs1.
  destruct (channel_range cfg); exact H.
Qed.

(** ** The pending button during calibration *)

(** C10. Whatever the calibration phase and whether or not the wait of the
    phase is over, a call of CapSenseContinueCalibrate leaves the one-slot
    queue empty, and neither its result nor the state it leaves depends on
    the button that was pending: a press queued while calibration is polled
    is thrown away. *)
Theorem continue_calibrate_drops_pending cfg (s : State) :
  csButton (sn (snd (CapSenseContinueCalibrate cfg s))) = NO_CAPSENSE_BUTTONS cfg
  /\ forall pending,
       CapSenseContinueCalibrate cfg (with_sn (set_csButton pending) s)
       = CapSenseContinueCalibrate cfg (snd (GetCapSenseButton cfg s)).
Proof.
  split.
  - unfold CapSenseContinueCalibrate.
    destruct (ac_eqb _ acDone); simpl snd.
    + by rewrite cal_done_csButton, cal_transition_csButton.
    + by rewrite cal_transition_csButton.
  - intros pending. reflexivity.
Qed.

(** ** Timer overrun *)

(** C9. When the timer-0 flag is up at the end of interrupt processing (a
    second completion before the first was serviced), CapSenseISRDone clears
    both timers and the flag and lets Timer 1 count afresh.  The count that
    was in progress is gone: it is not filtered into any reading (the
    readings and all other globals are as before), and the state left behind
    is the same whatever that count was.  Nothing is returned, so the caller
    does not learn of it. *)
Theorem isr_done_discards_overrun (s : State) :
  T0IF (hw s) = true ->
  let s' := CapSenseISRDone s in
  tmr0 (hw s') = 0 /\ tmr1l (hw s') = 0 /\ tmr1h (hw s') = 0
  /\ read_tmr1 (hw s') = 0
  /\ TMR1ON (hw s') = true /\ T0IF (hw s') = false
  /\ sn s' = sn s /\ cal s' = cal s /\ ticks s' = ticks s
  /\ forall t0 t1l t1h, CapSenseISRDone (with_counts t0 t1l t1h s) = s'.
Proof.
  intros Hov s'. subst s'. unfold CapSenseISRDone.
  rewrite Hov. repeat split.
  intros t0 t1l t1h. simpl. rewrite Hov. reflexivity.
Qed.

Lemma isr_done_discards_overrun_witness :
  read_tmr1 (hw overrun_state) = 1234
  /\ read_tmr1 (hw (CapSenseISRDone overrun_state)) = 0
  /\ csReadings (sn (CapSenseISRDone overrun_state)) = [900; 1000; 0; 0].
Proof.
  pose proof (isr_done_discards_overrun overrun_state eq_refl) as H.
  cbv zeta in H.
  destruct H as (_ & _ & _ & Hc & _ & _ & Hsn & _).
  split; [reflexivity |]. split; [exact Hc |].
  rewrite Hsn. reflexivity.
Defined.

(** Without the flag the measurement in progress goes on undisturbed. *)
Lemma isr_done_no_overrun (s : State) :
  T0IF (hw s) = false -> CapSenseISRDone s = s.
Proof. intros H. unfold CapSenseISRDone. by rewrite H. Qed.

(** ** Debounce and button state *)

Ltac break_ifs :=
  repeat match goal with
         | |- context [if ?b then _ else _] => destruct b
         end.

(** The steps of the ISR that follow the press test do not touch the button
    state. *)
Lemma isr_bin_max_buttons cfg reading s :
  buttons (isr_bin_max cfg reading s) = buttons s.
Proof. unfold isr_bin_max. break_ifs; reflexivity. Qed.

Lemma isr_cal_min_buttons reading s :
  buttons (isr_cal_min reading s) = buttons s.
Proof. unfold isr_cal_min. break_ifs; reflexivity. Qed.

Lemma BumpCapSenseBin_buttons cfg s :
  buttons (BumpCapSenseBin cfg s) = buttons s.
Proof.
  unfold BumpCapSenseBin, bump_baseline, bump_reset_bin. cbv zeta.
  break_ifs; reflexivity.
Qed.

Lemma isr_rotate_buttons cfg s : buttons (isr_rotate cfg s) = buttons s.
Proof.
  unfold isr_rotate. destruct (_ <=? _); [apply BumpCapSenseBin_buttons | done].
Qed.

Lemma BumpCapSenseChannel_buttons cfg s :
  buttons (BumpCapSenseChannel cfg s) = buttons s.
Proof.
  unfold BumpCapSenseChannel, skip_if_unused. cbv zeta.
  break_ifs; reflexivity.
Qed.

Lemma CapSenseISR_buttons cfg s :
  buttons (snd (CapSenseISR cfg true s)) = buttons (isr_after_button cfg s).
Proof.
  unfold CapSenseISR. cbv zeta. simpl snd.
  rewrite BumpCapSenseChannel_buttons, isr_rotate_buttons,
    isr_cal_min_buttons, isr_bin_max_buttons.
  reflexivity.
Qed.

(** The press test itself, case by case. *)
Lemma isr_button_press cfg reading threshold s :
  reading < threshold -> press_guard cfg (sn s) = true ->
  buttons (isr_button cfg reading threshold s)
    = (currentCapSenseChannel (sn s), currentCapSenseChannel (sn s), 0)
  /\ csDownInBin (sn (isr_button cfg reading threshold s))
       = aset (csDownInBin (sn s)) (csCurrentBin (sn s)) 1
  /\ csLastButtonTicks (sn (isr_button cfg reading threshold s)) = ticks s.
Proof.
  intros Hlt Hg. unfold isr_button.
  destruct (Z.ltb_spec reading threshold); [| lia].
  rewrite Hg. repeat split.
Qed.

Lemma isr_button_no_press cfg reading threshold s :
  (reading <? threshold) && press_guard cfg (sn s) = false ->
  csButton (sn (isr_button cfg reading threshold s)) = csButton (sn s)
  /\ csDownInBin (sn (isr_button cfg reading threshold s)) = csDownInBin (sn s)
  /\ (csHoldingButton (sn (isr_button cfg reading threshold s))
        = csHoldingButton (sn s)
      \/ csHoldingButton (sn (isr_button cfg reading threshold s))
        = NO_CAPSENSE_BUTTONS cfg).
Proof.
  intros H. unfold isr_button.
  destruct (reading <? threshold); simpl in H.
  - rewrite H. auto.
  - destruct (csHoldingButton (sn s) =? currentCapSenseChannel (sn s));
      simpl; break_ifs; simpl; auto.
Qed.

Lemma press_guard_true cfg r :
  press_guard cfg r = true <->
  csButton r = NO_CAPSENSE_BUTTONS cfg
  /\ csHoldingButton r = NO_CAPSENSE_BUTTONS cfg
  /\ DEBOUNCE_POLLS cfg < csLastDownPolls r.
Proof.
  unfold press_guard. rewrite !andb_true_iff, !Z.eqb_eq, Z.ltb_lt. tauto.
Qed.

(** C2. A press of the scanned channel is registered only when the filtered
    reading is below the live threshold, no button is pending, no channel is
    held and the down-poll counter exceeds DEBOUNCE_POLLS.  It then sets both
    the pending and the held button to the channel, resets the down-poll
    counter to 0 and marks the current bin as having had a press.  In every
    other case the pending button and the had-a-press marks stay as they
    were and the held button is kept or cleared; so while a press is pending
    a further press is not recorded anywhere: it is dropped. *)
Theorem press_registered_only_on_guarded_edge cfg (s : State) :
  let ch := currentCapSenseChannel (sn s) in
  let reading := isr_reading cfg s in
  let threshold := isr_threshold cfg s in
  let none := NO_CAPSENSE_BUTTONS cfg in
  let mid := isr_after_button cfg s in
  let s' := snd (CapSenseISR cfg true s) in
  let edge := reading < threshold /\ csButton (sn s) = none
              /\ csHoldingButton (sn s) = none
              /\ DEBOUNCE_POLLS cfg < csLastDownPolls (sn s) in
  (edge ->
     csButton (sn s') = ch /\ csHoldingButton (sn s') = ch
     /\ csLastDownPolls (sn s') = 0
     /\ csDownInBin (sn mid) = aset (csDownInBin (sn s)) (csCurrentBin (sn s)) 1
     /\ ((Z.to_nat (csCurrentBin (sn s)) < length (csDownInBin (sn s)))%nat ->
         aget (csDownInBin (sn mid)) (csCurrentBin (sn s)) = 1))
  /\ (csButton (sn s') <> csButton (sn s) -> edge)
  /\ (~ edge ->
        csButton (sn s') = csButton (sn s)
        /\ csDownInBin (sn mid) = csDownInBin (sn s)
        /\ (csHoldingButton (sn s') = csHoldingButton (sn s)
            \/ csHoldingButton (sn s') = none))
  /\ (csButton (sn s) <> none ->
        csButton (sn s') = csButton (sn s)
        /\ csDownInBin (sn mid) = csDownInBin (sn s)
        /\ (csHoldingButton (sn s') = csHoldingButton (sn s)
            \/ csHoldingButton (sn s') = none)).
Proof.
  intros ch reading threshold none mid s' edge.
  assert (Hbtn : csButton (sn s') = csButton (sn mid)
                 /\ csHoldingButton (sn s') = csHoldingButton (sn mid)
                 /\ csLastDownPolls (sn s') = csLastDownPolls (sn mid)).
  { pose proof (CapSenseISR_buttons cfg s) as Hb. unfold buttons in Hb.
    subst s' mid. repeat split; congruence. }
  destruct Hbtn as (Hbtn & Hhold & Hpolls).
  assert (Hedge : edge <->
            (reading <? threshold)
            && press_guard cfg (sn (isr_store_reading reading s)) = true).
  { unfold edge. rewrite andb_true_iff, Z.ltb_lt, press_guard_true.
    simpl. tauto. }
  assert (Hno : ~ edge ->
            csButton (sn mid) = csButton (sn s)
            /\ csDownInBin (sn mid) = csDownInBin (sn s)
            /\ (csHoldingButton (sn mid) = csHoldingButton (sn s)
                \/ csHoldingButton (sn mid) = none)).
  { intros Hne. rewrite Hedge in Hne. apply not_true_is_false in Hne.
    apply (isr_button_no_press cfg reading threshold) in Hne.
    exact Hne. }
  split; [| split; [| split]].
  - intros He. pose proof He as (Hlt & _).
    apply Hedge in He. apply andb_true_iff in He as [_ Hg].
    destruct (isr_button_press cfg reading threshold
                (isr_store_reading reading s) Hlt Hg) as (Hb3 & Hflag & _).
    change (isr_button cfg reading threshold (isr_store_reading reading s))
      with mid in Hb3, Hflag.
    unfold buttons in Hb3.
    cbn [isr_store_reading with_sn sn set_csReadings csDownInBin csCurrentBin
         currentCapSenseChannel] in Hb3, Hflag.
    fold ch in Hb3.
    rewrite Hbtn, Hhold, Hpolls.
    split; [congruence |]. split; [congruence |]. split; [congruence |].
    split; [exact Hflag |].
    intros Hlen. rewrite Hflag. by apply aget_aset_eq.
  - intros Hchg.
    destruct ((reading <? threshold)
              && press_guard cfg (sn (isr_store_reading reading s))) eqn:E.
    + by apply Hedge.
    + exfalso. apply Hchg. rewrite Hbtn. apply Hno.
      rewrite Hedge. congruence.
  - intros Hne. rewrite Hbtn, Hhold. exact (Hno Hne).
  - intros Hpend.
    assert (Hne : ~ edge) by (unfold edge; tauto).
    rewrite Hbtn, Hhold. exact (Hno Hne).
Qed.

Lemma press_registered_witness :
  let s' := snd (CapSenseISR two_button_cfg true touch_state) in
  csButton (sn s') = 0 /\ csHoldingButton (sn s') = 0
  /\ csLastDownPolls (sn s') = 0
  /\ csDownInBin (sn (isr_after_button two_button_cfg touch_state))
     = [1; 0; 0; 0].
Proof.
  destruct (proj1 (press_registered_only_on_guarded_edge
                     two_button_cfg touch_state)) as (H1 & H2 & H3 & H4 & _).
  - vm_compute. repeat split.
  - cbv zeta. repeat split; assumption.
Defined.

(** A press of channel 1 while the press of channel 0 is still pending. *)
Example second_press_dropped :
  let s := with_sn (fun r => set_currentCapSenseChannel 1
                               (set_csReadings [900; 900; 0; 0]
                                  (set_csButton 0 (set_csHoldingButton 255 r))))
                   touch_state in
  (isr_reading two_button_cfg s <? isr_threshold two_button_cfg s) = true
  /\ buttons (snd (CapSenseISR two_button_cfg true s)) = (0, 255, 255).
Proof. vm_compute. split; reflexivity. Qed.

(** ** Updating the current bin *)

(** The second half of the bin-update condition compares an elapsed time,
    which is never negative, with [0 * TICKS_PER_SEC]: the condition holds in
    every state. *)
Lemma bin_update_guard_always cfg s : bin_update_guard cfg s = true.
Proof.
  unfold bin_update_guard. apply orb_true_iff. right.
  apply Z.leb_le. change (0 * TICKS_PER_SEC cfg) with 0.
  apply to_byte_range.
Qed.

(** Hence the bin step is a plain running maximum, whether or not a button
    is held. *)
Lemma isr_bin_max_unconditional cfg reading s :
  isr_bin_max cfg reading s =
    let r := sn s in
    let ch := currentCapSenseChannel r in
    if aget2 (csBin r) ch (csCurrentBin r) <? reading
    then with_sn (set_csBin (aset2 (csBin r) ch (csCurrentBin r) reading)) s
    else s.
Proof. unfold isr_bin_max. by rewrite bin_update_guard_always. Qed.

(** C3. The code at the failing input: button 0 is held, no time at all has
    passed since it went down, the debounce count is at 0, and still the
    measurement cycle raises the stored maximum of the current bin of the
    scanned channel from 900 to the new filtered reading 905. *)
Theorem bin_max_updated_while_held :
  let s := held_state in
  let s' := snd (CapSenseISR two_button_cfg true s) in
  csHoldingButton (sn s) = 0
  /\ csLastDownPolls (sn s) = 0
  /\ tick_diff (ticks s) (csLastButtonTicks (sn s)) = 0
  /\ aget2 (csBin (sn s)) 0 (csCurrentBin (sn s)) = 900
  /\ isr_reading two_button_cfg s = 905
  /\ csHoldingButton (sn s') = 0
  /\ csCurrentBin (sn s') = csCurrentBin (sn s)
  /\ aget2 (csBin (sn s')) 0 (csCurrentBin (sn s)) = 905.
Proof. vm_compute. repeat split. Qed.

(** ** The running minimum of the calibration *)

Lemma BumpCapSenseBin_csMin cfg s :
  csMin (sn (BumpCapSenseBin cfg s)) = csMin (sn s).
Proof.
  unfold BumpCapSenseBin, bump_baseline, bump_reset_bin. cbv zeta.
  break_ifs; reflexivity.
Qed.

Lemma BumpCapSenseChannel_csMin cfg s :
  csMin (sn (BumpCapSenseChannel cfg s)) = csMin (sn s).
Proof.
  unfold BumpCapSenseChannel, skip_if_unused. cbv zeta.
  break_ifs; reflexivity.
Qed.

Lemma isr_front_cal_csMin cfg reading threshold s :
  let s1 := isr_bin_max cfg reading
              (isr_button cfg reading threshold (isr_store_reading reading s)) in
  cal s1 = cal s /\ csMin (sn s1) = csMin (sn s).
Proof.
  unfold isr_bin_max, isr_button, isr_store_reading. cbv zeta.
  break_ifs; split; reflexivity.
Qed.

(** The ISR follows the minima in the state [acPressAndReleaseButton] and in
    no other: during the idle windows [csMin] stays as it is. *)
Lemma isr_keeps_csMin_outside_press cfg fired s :
  csAutoCalibrateState (cal s) <> acPressAndReleaseButton ->
  csMin (sn (snd (CapSenseISR cfg fired s))) = csMin (sn s).
Proof.
  intros Hst. unfold CapSenseISR. destruct fired; [| reflexivity].
  cbv zeta. simpl snd. rewrite BumpCapSenseChannel_csMin.
  destruct (isr_front_cal_csMin cfg (isr_reading cfg s) (isr_threshold cfg s) s)
    as [Hcal Hmin].
  cbv zeta in Hcal, Hmin.
  assert (Hskip : forall s1, cal s1 = cal s ->
            isr_cal_min (isr_reading cfg s) s1 = s1).
  { intros s1 E. unfold isr_cal_min. rewrite E.
    destruct (csAutoCalibrateState (cal s)); try reflexivity. congruence. }
  rewrite Hskip by exact Hcal.
  unfold isr_rotate. destruct (_ <=? _).
  - rewrite BumpCapSenseBin_csMin. exact Hmin.
  - exact Hmin.
Qed.

(** C8. The code at the failing input: in the idle window ([acPressNothing])
    channel 0 is measured at 900, below the stored minimum 65535, and the
    stored minimum is still 65535 after the measurement cycle: the running
    minimum is not tracked during the idle window. *)
Theorem idle_window_minimum_not_tracked :
  let s := idle_window_state in
  let s' := snd (CapSenseISR two_button_cfg true s) in
  csAutoCalibrateState (cal s) = acPressNothing
  /\ aget (csMin (sn s)) 0 = 65535
  /\ isr_reading two_button_cfg s = 900
  /\ aget (csReadings (sn s')) 0 = 900
  /\ aget (csMin (sn s')) 0 = 65535.
Proof. vm_compute. repeat split. Qed.

(** ** Bin rotation *)

Lemma aset2_lookup_eq (m : list (list Z)) i j v row :
  m !! Z.to_nat i = Some row ->
  aset2 m i j v !! Z.to_nat i = Some (aset row j v).
Proof.
  intros H. unfold aset2. rewrite H.
  apply list_lookup_insert_eq. by eapply lookup_lt_Some.
Qed.

Lemma aset2_lookup_ne (m : list (list Z)) i i' j v :
  Z.to_nat i <> Z.to_nat i' ->
  aset2 m i j v !! Z.to_nat i' = m !! Z.to_nat i'.
Proof.
  intros H. unfold aset2. destruct (m !! Z.to_nat i); [| reflexivity].
  by apply list_lookup_insert_ne.
Qed.

Lemma BumpCapSenseBin_fields cfg s :
  let s' := BumpCapSenseBin cfg s in
  let cur' := next_bin cfg (csCurrentBin (sn s)) in
  csCurrentBin (sn s') = cur'
  /\ csBaseline (sn s') =
       baseline_stmt cfg s 3 (baseline_stmt cfg s 2
         (baseline_stmt cfg s 1 (baseline_stmt cfg s 0 (csBaseline (sn s)))))
  /\ csBin (sn s') =
       reset_stmt cfg s 3 (reset_stmt cfg s 2
         (reset_stmt cfg s 1 (reset_stmt cfg s 0 (csBin (sn s)))))
  /\ csDownInBin (sn s') = aset (csDownInBin (sn s)) cur' 0
  /\ csLastBinTicks (sn s') = ticks s
  /\ csReadings (sn s') = csReadings (sn s).
Proof.
  unfold BumpCapSenseBin, bump_baseline, bump_reset_bin, baseline_stmt,
    reset_stmt, next_bin.
  cbv zeta. cbn [with_sn sn set_csCurrentBin csCurrentBin].
  break_ifs; repeat split.
Qed.

Lemma baseline_stmt_length cfg s n l :
  length (baseline_stmt cfg s n l) = length l.
Proof. unfold baseline_stmt. destruct (channel_compiled cfg n); [apply aset_length | done]. Qed.

Lemma baseline_stmt_other cfg s n l c :
  Z.to_nat n <> Z.to_nat c ->
  aget (baseline_stmt cfg s n l) c = aget l c.
Proof.
  intros H. unfold baseline_stmt.
  destruct (channel_compiled cfg n); [by apply aget_aset_ne | done].
Qed.

Lemma baseline_stmt_same cfg s c l :
  channel_compiled cfg c = true -> (Z.to_nat c < length l)%nat ->
  aget (baseline_stmt cfg s c l) c =
    to_reading (c_max (aget2 (csBin (sn s)) c 0) (aget2 (csBin (sn s)) c 1)).
Proof.
  intros Hc Hl. unfold baseline_stmt. rewrite Hc. by apply aget_aset_eq.
Qed.

Lemma reset_stmt_other cfg s n m c :
  Z.to_nat n <> Z.to_nat c ->
  reset_stmt cfg s n m !! Z.to_nat c = m !! Z.to_nat c.
Proof.
  intros H. unfold reset_stmt.
  destruct (channel_compiled cfg n); [by apply aset2_lookup_ne | done].
Qed.

Lemma reset_stmt_same cfg s c m row :
  channel_compiled cfg c = true -> m !! Z.to_nat c = Some row ->
  reset_stmt cfg s c m !! Z.to_nat c =
    Some (aset row (next_bin cfg (csCurrentBin (sn s))) (aget (csReadings (sn s)) c)).
Proof.
  intros Hc Hl. unfold reset_stmt. rewrite Hc. by apply aset2_lookup_eq.
Qed.

Section Rotation.

Variable cfg : Config.

(** [BumpCapSenseBin] spells the maximum out over the bins 0 and 1: the
    module is written for two bins per channel. *)
Hypothesis two_bins : NUM_CAPSENSE_BINS cfg = 2.

Lemma next_bin_wraps cur :
  0 <= cur < NUM_CAPSENSE_BINS cfg ->
  next_bin cfg cur = (cur + 1) mod NUM_CAPSENSE_BINS cfg
  /\ 0 <= next_bin cfg cur < NUM_CAPSENSE_BINS cfg.
Proof.
  rewrite two_bins. intros H. unfold next_bin. rewrite two_bins.
  assert (cur = 0 \/ cur = 1) as [-> | ->] by lia; vm_compute; repeat split; congruence.
Qed.

(** What a rotation does for a channel in use: the bin index advances and
    wraps, the baseline becomes the maximum over all the channel's bins, the
    new current bin is reset to the channel's latest reading, and the
    had-a-press mark of the new current bin is cleared. *)
Lemma rotation_effect (s : State) (c : Z) (row : list Z) :
  0 <= c <= 3 ->
  channel_compiled cfg c = true ->
  0 <= csCurrentBin (sn s) < NUM_CAPSENSE_BINS cfg ->
  csBin (sn s) !! Z.to_nat c = Some row ->
  Z.of_nat (length row) = NUM_CAPSENSE_BINS cfg ->
  Forall (fun v => 0 <= v < 65536) row ->
  (Z.to_nat c < length (csBaseline (sn s)))%nat ->
  NUM_CAPSENSE_BINS cfg <= Z.of_nat (length (csDownInBin (sn s))) ->
  let s' := BumpCapSenseBin cfg s in
  let cur' := csCurrentBin (sn s') in
  cur' = (csCurrentBin (sn s) + 1) mod NUM_CAPSENSE_BINS cfg
  /\ GetBaseline c s' = max_over_bins row
  /\ aget2 (csBin (sn s')) c cur' = GetLastCapSenseReading c s
  /\ aget (csDownInBin (sn s')) cur' = 0.
Proof.
  intros Hc Hen Hcur Hrow Hlen Hrange Hbl Hdown s' cur'.
  destruct (BumpCapSenseBin_fields cfg s) as (Ecur & Ebl & Ebin & Edown & _).
  fold s' in Ecur, Ebl, Ebin, Edown. fold cur' in Ecur.
  destruct (next_bin_wraps _ Hcur) as [Enext Hnext].
  rewrite <- Ecur in Enext, Hnext.
  split; [exact Enext |].
  rewrite two_bins in Hlen, Hnext, Hdown.
  destruct row as [| a [| b [| ? ?]]]; simpl in Hlen; try lia.
  apply Forall_cons in Hrange as [Ha Hrange].
  apply Forall_cons in Hrange as [Hb _].
  assert (Hval : to_reading (c_max (aget2 (csBin (sn s)) c 0)
                                   (aget2 (csBin (sn s)) c 1))
                 = max_over_bins [a; b]).
  { unfold aget2. rewrite Hrow. unfold aget, max_over_bins. simpl.
    rewrite c_max_is_max. rewrite to_reading_small; lia. }
  split; [| split].
  - unfold GetBaseline. rewrite Ebl, <- Hval.
    assert (c = 0 \/ c = 1 \/ c = 2 \/ c = 3) as [-> | [-> | [-> | ->]]] by lia;
      rewrite ?baseline_stmt_other by (simpl; lia);
      (rewrite baseline_stmt_same;
         [reflexivity | exact Hen | rewrite ?baseline_stmt_length; exact Hbl]).
  - unfold GetLastCapSenseReading, aget2. rewrite Ebin.
    assert (Hrow' :
      reset_stmt cfg s 3 (reset_stmt cfg s 2
        (reset_stmt cfg s 1 (reset_stmt cfg s 0 (csBin (sn s))))) !! Z.to_nat c
      = Some (aset [a; b] (next_bin cfg (csCurrentBin (sn s)))
                   (aget (csReadings (sn s)) c))).
    { assert (c = 0 \/ c = 1 \/ c = 2 \/ c = 3) as [-> | [-> | [-> | ->]]] by lia;
        rewrite ?reset_stmt_other by (simpl; lia);
        (apply reset_stmt_same;
           [ exact Hen | rewrite ?reset_stmt_other by (simpl; lia); exact Hrow ]). }
    rewrite Hrow'. simpl default. rewrite Ecur.
    apply aget_aset_eq. rewrite <- Ecur. simpl. lia.
  - rewrite Edown, <- Ecur. apply aget_aset_eq. lia.
Qed.

(** C4 (amended). A rotation advances the bin index with wrap-around,
    recomputes the baseline of every channel in use as the maximum over all
    NUM_CAPSENSE_BINS bins of the channel, resets the channel's new current
    bin to its latest filtered reading, and clears the had-a-press mark of the
    new current bin.  Hence, when all bins of a channel hold the same value
    v, the rotation sets the channel's baseline to v; the baseline is left
    unchanged when it was v already. *)
Theorem bin_rotation (s : State) (c : Z) (row : list Z) :
  0 <= c <= 3 ->
  channel_compiled cfg c = true ->
  0 <= csCurrentBin (sn s) < NUM_CAPSENSE_BINS cfg ->
  csBin (sn s) !! Z.to_nat c = Some row ->
  Z.of_nat (length row) = NUM_CAPSENSE_BINS cfg ->
  Forall (fun v => 0 <= v < 65536) row ->
  (Z.to_nat c < length (csBaseline (sn s)))%nat ->
  NUM_CAPSENSE_BINS cfg <= Z.of_nat (length (csDownInBin (sn s))) ->
  let s' := BumpCapSenseBin cfg s in
  let cur' := csCurrentBin (sn s') in
  cur' = (csCurrentBin (sn s) + 1) mod NUM_CAPSENSE_BINS cfg
  /\ GetBaseline c s' = max_over_bins row
  /\ aget2 (csBin (sn s')) c cur' = GetLastCapSenseReading c s
  /\ aget (csDownInBin (sn s')) cur' = 0
  /\ forall v, Forall (fun x => x = v) row ->
       GetBaseline c s' = v
       /\ (GetBaseline c s = v -> GetBaseline c s' = GetBaseline c s).
Proof.
  intros Hc Hen Hcur Hrow Hlen Hrange Hbl Hdown s' cur'.
  destruct (rotation_effect s c row Hc Hen Hcur Hrow Hlen Hrange Hbl Hdown)
    as (H1 & H2 & H3 & H4).
  fold s' in H1, H2, H3, H4. fold cur' in H1, H3, H4.
  repeat (split; [assumption |]).
  intros v Hall.
  assert (Hv : GetBaseline c s' = v).
  { rewrite H2. rewrite two_bins in Hlen.
    destruct row as [| a [| b [| ? ?]]]; simpl in Hlen; try lia.
    apply Forall_cons in Hall as [-> Hall].
    apply Forall_cons in Hall as [-> _].
    apply Forall_cons in Hrange as [Ha _].
    unfold max_over_bins. simpl. lia. }
  split; [exact Hv | congruence].
Qed.

End Rotation.

Lemma bin_rotation_witness :
  let s' := BumpCapSenseBin two_button_cfg settled_low_state in
  csCurrentBin (sn s') = 0
  /\ GetBaseline 0 s' = 3
  /\ aget2 (csBin (sn s')) 0 0 = 3
  /\ aget (csDownInBin (sn s')) 0 = 0.
Proof.
  destruct (bin_rotation two_button_cfg eq_refl settled_low_state 0 [3; 3])
    as (H1 & H2 & H3 & H4 & _).
  - lia.
  - reflexivity.
  - vm_compute. split; congruence.
  - reflexivity.
  - reflexivity.
  - repeat constructor; lia.
  - simpl. lia.
  - simpl. lia.
  - cbv zeta in *. repeat split; assumption.
Defined.

(** C4 as stated fails: both bins of channel 0 hold the same value, and the
    rotation moves the baseline of channel 0 (from 5 down to 3). *)
Lemma rotation_moves_baseline_of_equal_bins :
  Forall (fun x => x = 3) (bins_of settled_low_state 0)
  /\ GetBaseline 0 settled_low_state = 5
  /\ GetBaseline 0 (BumpCapSenseBin two_button_cfg settled_low_state) = 3
  /\ GetBaseline 0 (BumpCapSenseBin two_button_cfg settled_low_state)
     <> GetBaseline 0 settled_low_state.
Proof.
  split; [repeat constructor |].
  vm_compute. repeat split. congruence.
Qed.

(** ** The running-average filter *)

Section Filter.

Variable cfg : Config.
Hypothesis filter_length_pos : 0 < FILTER_LENGTH cfg.



















End Filter.



(** ** The Done phase of the calibration *)

Lemma done_result_stats cfg c c' b :
  stats c = stats c' -> done_result cfg c b = done_result cfg c' b.
Proof.
  unfold stats, done_result. intros H. injection H as -> -> ->. reflexivity.
Qed.

Lemma done_loop_frame cfg l : forall s,
  let s' := fold_left (done_step cfg) l s in
  stats (cal s') = stats (cal s)
  /\ length (csResults (cal s')) = length (csResults (cal s))
  /\ length (csThresholds (sn s')) = length (csThresholds (sn s))
  /\ forall b, (forall x, x ∈ l -> Z.to_nat x <> Z.to_nat b) ->
       csResults (cal s') !! Z.to_nat b = csResults (cal s) !! Z.to_nat b
       /\ aget (csThresholds (sn s')) b = aget (csThresholds (sn s)) b.
Proof.
  induction l as [| x l IH]; intros s; simpl.
  - repeat split.
  - destruct (IH (done_step cfg s x)) as (Hst & Hlr & Hlt & Hother).
    cbv zeta in *.
    split; [rewrite Hst; reflexivity |].
    split; [rewrite Hlr; simpl; apply length_insert |].
    split; [rewrite Hlt; simpl; apply aset_length |].
    intros b Hb.
    destruct (Hother b) as [Hr Ht].
    { intros y Hy. apply Hb. by right. }
    rewrite Hr, Ht. simpl.
    assert (Z.to_nat x <> Z.to_nat b) by (apply Hb; by left).
    split; [by apply list_lookup_insert_ne | by apply aget_aset_ne].
Qed.

Lemma done_loop_at cfg l : forall s b,
  NoDup l -> (forall x, x ∈ l -> 0 <= x) -> b ∈ l ->
  (Z.to_nat b < length (csResults (cal s)))%nat ->
  (Z.to_nat b < length (csThresholds (sn s)))%nat ->
  let s' := fold_left (done_step cfg) l s in
  csResults (cal s') !! Z.to_nat b = Some (fst (done_result cfg (cal s) b))
  /\ aget (csThresholds (sn s')) b = snd (done_result cfg (cal s) b).
Proof.
  induction l as [| x l IH]; intros s b Hnd Hpos Hin Hlr Hlt; simpl.
  - by apply elem_of_nil in Hin.
  - apply NoDup_cons in Hnd as [Hx Hnd].
    destruct (decide (b = x)) as [-> | Hne].
    + destruct (done_loop_frame cfg l (done_step cfg s x)) as (_ & _ & _ & Hother).
      destruct (Hother x) as [Hr Ht].
      { intros y Hy E.
        assert (0 <= y) by (apply Hpos; by right).
        assert (0 <= x) by (apply Hpos; by left).
        assert (y = x) by lia. subst y. contradiction. }
      rewrite Hr, Ht. simpl.
      split; [by apply list_lookup_insert_eq | by apply aget_aset_eq].
    + apply elem_of_cons in Hin as [? | Hin]; [contradiction |].
      destruct (IH (done_step cfg s x) b Hnd) as [Hr Ht]; try assumption.
      * intros y Hy. apply Hpos. by right.
      * simpl. by rewrite length_insert.
      * simpl. by rewrite aset_length.
      * cbv zeta in Hr, Ht. rewrite Hr, Ht.
        rewrite (done_result_stats cfg (cal (done_step cfg s x)) (cal s) b);
          [by split | reflexivity].
Qed.

Lemma channel_range_elem cfg c :
  c ∈ channel_range cfg <->
  FIRST_CAPSENSE_CHANNEL cfg <= c <= LAST_CAPSENSE_CHANNEL cfg.
Proof. unfold channel_range. rewrite elem_of_seqZ. lia. Qed.

(** What the Done phase leaves for a channel between the first and the last
    one. *)
Lemma cal_done_channel cfg s c :
  0 <= FIRST_CAPSENSE_CHANNEL cfg ->
  FIRST_CAPSENSE_CHANNEL cfg <= c <= LAST_CAPSENSE_CHANNEL cfg ->
  (Z.to_nat c < length (csResults (cal s)))%nat ->
  (Z.to_nat c < length (csThresholds (sn s)))%nat ->
  let s' := cal_done cfg s in
  stats (cal s') = stats (cal s)
  /\ csResults (cal s') !! Z.to_nat c = Some (fst (done_result cfg (cal s) c))
  /\ aget (csThresholds (sn s')) c = snd (done_result cfg (cal s) c).
Proof.
  intros Hfirst Hc Hlr Hlt. unfold cal_done. cbv zeta.
  set (s0 := with_cal (set_csCalButton (FIRST_CAPSENSE_CHANNEL cfg)) s).
  destruct (done_loop_frame cfg (channel_range cfg) s0) as (Hst & _).
  destruct (done_loop_at cfg (channel_range cfg) s0 c) as [Hr Ht].
  - apply NoDup_seqZ.
  - intros x Hx. apply channel_range_elem in Hx. lia.
  - by apply channel_range_elem.
  - exact Hlr.
  - exact Hlt.
  - cbv zeta in Hst, Hr, Ht.
    remember (fold_left (done_step cfg) (channel_range cfg) s0) as s1.
    clear Heqs1.
    destruct (channel_range cfg); (split; [exact Hst | split; [exact Hr | exact Ht]]).
Qed.

Lemma cal_done_lengths cfg s :
  length (csResults (cal (cal_done cfg s))) = length (csResults (cal s))
  /\ length (csThresholds (sn (cal_done cfg s))) = length (csThresholds (sn s)).
Proof.
  unfold cal_done. cbv zeta.
  set (s0 := with_cal (set_csCalButton (FIRST_CAPSENSE_CHANNEL cfg)) s).
  destruct (done_loop_frame cfg (channel_range cfg) s0) as (_ & Hr & Ht & _).
  cbv zeta in Hr, Ht.
  remember (fold_left (done_step cfg) (channel_range cfg) s0) as s1.
  clear Heqs1.
  destruct (channel_range cfg); split; assumption.
Qed.

(** When the call reports completion, the results and thresholds of the
    channels are those of [done_result] on the statistics it leaves. *)
Lemma continue_calibrate_done cfg s c :
  let s' := snd (CapSenseContinueCalibrate cfg s) in
  fst (CapSenseContinueCalibrate cfg s) = false ->
  0 <= FIRST_CAPSENSE_CHANNEL cfg ->
  FIRST_CAPSENSE_CHANNEL cfg <= c <= LAST_CAPSENSE_CHANNEL cfg ->
  (Z.to_nat c < length (csResults (cal s')))%nat ->
  (Z.to_nat c < length (csThresholds (sn s')))%nat ->
  csResults (cal s') !! Z.to_nat c = Some (fst (done_result cfg (cal s') c))
  /\ aget (csThresholds (sn s')) c = snd (done_result cfg (cal s') c).
Proof.
  unfold CapSenseContinueCalibrate. cbv zeta.
  set (s1 := cal_transition cfg (snd (GetCapSenseButton cfg s))).
  destruct (ac_eqb (csAutoCalibrateState (cal s1)) acDone); simpl fst; simpl snd;
    [| discriminate].
  intros _ Hfirst Hc Hlr Hlt.
  destruct (cal_done_lengths cfg s1) as [Elr Elt].
  rewrite Elr in Hlr. rewrite Elt in Hlt.
  destruct (cal_done_channel cfg s1 c Hfirst Hc Hlr Hlt) as (Hst & Hr & Ht).
  cbv zeta in Hst, Hr, Ht.
  rewrite (done_result_stats cfg _ _ c Hst). by split.
Qed.

Section Rating.

Variable cfg : Config.
Variable c : Calib.
Variable channel : Z.
Hypothesis in_range : stats_in_range cfg c channel.

Lemma own_press_min_value :
  own_press_min cfg (csMaxHolding c) channel = minOwnPress c channel.
Proof.
  destruct in_range as (Hmax & Hown & _).
  pose proof (Hown 0 ltac:(unfold TIMES_THRU_BUTTONS; lia)) as H0.
  pose proof (Hown 1 ltac:(unfold TIMES_THRU_BUTTONS; lia)) as H1.
  pose proof (Hown 2 ltac:(unfold TIMES_THRU_BUTTONS; lia)) as H2.
  unfold own_press_min, minOwnPress.
  change (seqZ 0 TIMES_THRU_BUTTONS) with [0; 1; 2]. simpl fold_left.
  unfold own_press in *. rewrite !c_min_is_min.
  rewrite (to_reading_small (MAX_CS_READING cfg)) by lia.
  rewrite (to_reading_small (Z.min (MAX_CS_READING cfg) _)) by lia.
  rewrite (to_reading_small (Z.min (Z.min _ _) _)) by lia.
  rewrite to_reading_small by lia. lia.
Qed.

Lemma own_press_max_value :
  own_press_max (csMaxHolding c) channel = maxOwnPress c channel.
Proof.
  destruct in_range as (Hmax & Hown & _).
  pose proof (Hown 0 ltac:(unfold TIMES_THRU_BUTTONS; lia)) as H0.
  pose proof (Hown 1 ltac:(unfold TIMES_THRU_BUTTONS; lia)) as H1.
  pose proof (Hown 2 ltac:(unfold TIMES_THRU_BUTTONS; lia)) as H2.
  unfold own_press_max, maxOwnPress.
  change (seqZ 0 TIMES_THRU_BUTTONS) with [0; 1; 2]. simpl fold_left.
  unfold own_press in *. rewrite !c_max_is_max.
  rewrite (to_reading_small (Z.max 0 _)) by lia.
  rewrite (to_reading_small (Z.max (Z.max _ _) _)) by lia.
  rewrite to_reading_small by lia. lia.
Qed.

(** The result of the Done phase for a channel in use, on the channel's
    statistics. *)
Lemma done_result_used :
  IsChannelUsed cfg channel <> 0 ->
  done_result cfg c channel =
    rate_channel cfg (aget (csMaxWaiting c) channel) (aget (csMaxOthers c) channel)
                 (minOwnPress c channel) (maxOwnPress c channel).
Proof.
  intros Hused. unfold done_result.
  destruct (Z.eqb_spec (IsChannelUsed cfg channel) 0); [contradiction |].
  by rewrite own_press_min_value, own_press_max_value.
Qed.

Lemma within_margins_rate_ok :
  within_margins cfg c channel <->
  rate_ok cfg (aget (csMaxWaiting c) channel) (aget (csMaxOthers c) channel)
          (minOwnPress c channel) = true.
Proof.
  unfold within_margins, rate_ok. cbv zeta.
  rewrite !orb_true_iff, !Z.ltb_lt. lia.
Qed.

End Rating.

Section DonePhase.

Variable cfg : Config.
Variable s : State.
Variable channel : Z.

Let s' := snd (CapSenseContinueCalibrate cfg s).
Let minOwn := minOwnPress (cal s') channel.
Let maxOwn := maxOwnPress (cal s') channel.
Let crossTalk := aget (csMaxOthers (cal s')) channel.
Let idle := aget (csMaxWaiting (cal s')) channel.
Let MIN := CS_MIN_THRESHOLD cfg.

(** The call reaches (or is in) the Done phase, [channel] is a channel in
    use, and the arrays have an entry for it. *)
Hypothesis completes : fst (CapSenseContinueCalibrate cfg s) = false.
Hypothesis first_nonneg : 0 <= FIRST_CAPSENSE_CHANNEL cfg.
Hypothesis in_loop :
  FIRST_CAPSENSE_CHANNEL cfg <= channel <= LAST_CAPSENSE_CHANNEL cfg.
Hypothesis used : IsChannelUsed cfg channel <> 0.
Hypothesis results_entry : (Z.to_nat channel < length (csResults (cal s')))%nat.
Hypothesis thresholds_entry :
  (Z.to_nat channel < length (csThresholds (sn s')))%nat.
Hypothesis in_range : stats_in_range cfg (cal s') channel.

Lemma done_phase_rating :
  csResults (cal s') !! Z.to_nat channel
    = Some (fst (rate_channel cfg idle crossTalk minOwn maxOwn))
  /\ aget (csThresholds (sn s')) channel
    = snd (rate_channel cfg idle crossTalk minOwn maxOwn).
Proof.
  destruct (continue_calibrate_done cfg s channel completes first_nonneg in_loop
              results_entry thresholds_entry) as [Hr Ht].
  fold s' in Hr, Ht.
  rewrite (done_result_used cfg (cal s') channel in_range used) in Hr, Ht.
  by split.
Qed.

(** C6 (amended). In the Done phase a channel in use is rated Fail exactly
    when its cross-talk excursion plus twice CS_MIN_THRESHOLD is not below
    minOwnPress, or its idle excursion plus twice CS_MIN_THRESHOLD is not
    below minOwnPress (minOwnPress being the minimum over the three passes of
    the channel's own-press excursions), for sums that do not overflow their
    16 bits.  The threshold of a failed channel is still set: to half its
    strongest own-press excursion plus half its idle excursion, minus
    CS_MIN_THRESHOLD (kept in a byte). *)
Theorem done_phase_fail :
  0 <= MIN ->
  crossTalk + 2 * MIN < 65536 ->
  idle + 2 * MIN < 65536 ->
  (csResults (cal s') !! Z.to_nat channel = Some acrFail
     <-> (minOwn <= crossTalk + 2 * MIN \/ minOwn <= idle + 2 * MIN))
  /\ (csResults (cal s') !! Z.to_nat channel = Some acrFail ->
        aget (csThresholds (sn s')) channel
          = (maxOwn / 2 + idle / 2 - MIN) mod 256).
Proof.
  intros Hmin Hcross Hidle.
  destruct done_phase_rating as [Hr Ht]. rewrite Hr, Ht.
  destruct in_range as (Hmax & Hown & Hw & Ho). fold idle in Hw. fold crossTalk in Ho.
  assert (Hmaxown : 0 <= maxOwn).
  { pose proof (Hown 0 ltac:(unfold TIMES_THRU_BUTTONS; lia)).
    unfold maxOwn, maxOwnPress. lia. }
  unfold rate_channel, rate_fail. fold MIN.
  rewrite (to_reading_small (crossTalk + 2 * MIN)) by lia.
  rewrite (to_reading_small (idle + 2 * MIN)) by lia.
  destruct (Z.leb_spec minOwn (crossTalk + 2 * MIN));
    destruct (Z.leb_spec minOwn (idle + 2 * MIN)); simpl.
  1-3: split; [split; [intros _; lia | reflexivity] |];
       intros _; rewrite !Z.quot_div_nonneg by lia;
       apply to_byte_to_reading.
  split; [split; [| lia] | ];
    destruct (rate_ok cfg idle crossTalk minOwn); intros [=].
Qed.

(** C7 (amended). In the Done phase a channel in use that is not rated Fail
    gets as threshold the low byte of minOwnPress - CS_MIN_THRESHOLD, that is
    (minOwnPress - CS_MIN_THRESHOLD) mod 256, which is minOwnPress -
    CS_MIN_THRESHOLD itself only when that is below 256; and it is rated
    Great unless its cross-talk excursion exceeds minOwnPress or minOwnPress -
    2 CS_MIN_THRESHOLD, or its idle excursion exceeds minOwnPress or
    minOwnPress - CS_MIN_THRESHOLD (differences in 16-bit arithmetic), in
    which case it is rated Ok.  With idle excursion 5, own-press excursions
    40, 45 and 50 and no cross-talk the rating is Great and the threshold
    40 - CS_MIN_THRESHOLD, for every CS_MIN_THRESHOLD with
    5 + 2 CS_MIN_THRESHOLD < 40. *)
Theorem done_phase_pass :
  (csResults (cal s') !! Z.to_nat channel <> Some acrFail ->
     aget (csThresholds (sn s')) channel = (minOwn - MIN) mod 256
     /\ (MIN <= minOwn -> minOwn - MIN < 256 ->
           aget (csThresholds (sn s')) channel = minOwn - MIN)
     /\ (within_margins cfg (cal s') channel ->
           csResults (cal s') !! Z.to_nat channel = Some acrOK)
     /\ (~ within_margins cfg (cal s') channel ->
           csResults (cal s') !! Z.to_nat channel = Some acrGreat))
  /\ (idle = 5 -> crossTalk = 0 ->
      own_press (cal s') channel 0 = 40 -> own_press (cal s') channel 1 = 45 ->
      own_press (cal s') channel 2 = 50 ->
      0 <= MIN -> 5 + 2 * MIN < 40 ->
      csResults (cal s') !! Z.to_nat channel = Some acrGreat
      /\ aget (csThresholds (sn s')) channel = 40 - MIN).
Proof.
  destruct done_phase_rating as [Hr Ht]. rewrite Hr, Ht.
  pose proof (within_margins_rate_ok cfg (cal s') channel) as Hm.
  fold idle crossTalk minOwn in Hm.
  pose proof to_byte_to_reading as Hbyte.
  split.
  - unfold rate_channel.
    destruct (rate_fail cfg idle crossTalk minOwn); simpl; [congruence |].
    intros _. fold MIN. rewrite Hbyte.
    split; [reflexivity |].
    split; [intros; apply Z.mod_small; lia |].
    destruct (rate_ok cfg idle crossTalk minOwn).
    + split; [reflexivity |]. intros Hn. exfalso. apply Hn. by apply Hm.
    + split; [| reflexivity]. intros Hy. apply Hm in Hy. discriminate.
  - intros Hi Hc H0 H1 H2 Hmin Hsmall.
    assert (EminOwn : minOwn = 40) by (unfold minOwn, minOwnPress; lia).
    unfold rate_channel, rate_fail, rate_ok. fold MIN.
    rewrite EminOwn, Hi, Hc, Hbyte.
    rewrite (to_reading_small (0 + 2 * MIN)) by lia.
    rewrite (to_reading_small (5 + 2 * MIN)) by lia.
    rewrite (to_reading_small (40 - 2 * MIN)) by lia.
    rewrite (to_reading_small (40 - MIN)) by lia.
    destruct (Z.leb_spec 40 (0 + 2 * MIN)); [lia |].
    destruct (Z.leb_spec 40 (5 + 2 * MIN)); [lia |].
    destruct (Z.ltb_spec 40 0); [lia |].
    destruct (Z.ltb_spec (40 - 2 * MIN) 0); [lia |].
    destruct (Z.ltb_spec 40 5); [lia |].
    destruct (Z.ltb_spec (40 - MIN) 5); [lia |].
    simpl. split; [reflexivity |]. apply Z.mod_small. lia.
Qed.

(** As long as neither sum of the Fail test wraps around in its 16 bits, a
    channel that is not rated Fail is outside every margin, and so is rated
    Great: the rating Ok is left to the wrapped sums. *)
Lemma pass_without_wraparound_is_great :
  0 <= MIN ->
  crossTalk + 2 * MIN < 65536 ->
  idle + 2 * MIN < 65536 ->
  csResults (cal s') !! Z.to_nat channel <> Some acrFail ->
  ~ within_margins cfg (cal s') channel
  /\ csResults (cal s') !! Z.to_nat channel = Some acrGreat.
Proof.
  intros Hmin Hcross Hidle Hnf.
  destruct done_phase_rating as [Hr _]. rewrite Hr in *.
  destruct in_range as (Hmax & Hown & Hw & Ho).
  fold idle in Hw. fold crossTalk in Ho.
  assert (HminOwn : 0 <= minOwn < 65536).
  { pose proof (Hown 0 ltac:(unfold TIMES_THRU_BUTTONS; lia)).
    pose proof (Hown 1 ltac:(unfold TIMES_THRU_BUTTONS; lia)).
    pose proof (Hown 2 ltac:(unfold TIMES_THRU_BUTTONS; lia)).
    unfold minOwn, minOwnPress. lia. }
  assert (Hfail : rate_fail cfg idle crossTalk minOwn = false).
  { destruct (rate_fail cfg idle crossTalk minOwn) eqn:E; [| reflexivity].
    exfalso. apply Hnf. unfold rate_channel. rewrite E. reflexivity. }
  assert (Hout : ~ within_margins cfg (cal s') channel).
  { unfold within_margins. cbv zeta. fold minOwn crossTalk idle MIN.
    unfold rate_fail in Hfail. fold MIN in Hfail.
    rewrite (to_reading_small (crossTalk + 2 * MIN)) in Hfail by lia.
    rewrite (to_reading_small (idle + 2 * MIN)) in Hfail by lia.
    apply orb_false_iff in Hfail as [H1 H2]. apply Z.leb_gt in H1, H2.
    rewrite (to_reading_small (minOwn - 2 * MIN)) by lia.
    rewrite (to_reading_small (minOwn - MIN)) by lia. lia. }
  split; [exact Hout |].
  unfold rate_channel. rewrite Hfail.
  destruct (rate_ok cfg idle crossTalk minOwn) eqn:E; [| reflexivity].
  exfalso. apply Hout.
  apply (within_margins_rate_ok cfg (cal s') channel). exact E.
Qed.

End DonePhase.

Ltac check_stats :=
  unfold stats_in_range;
  split; [vm_compute; congruence |];
  split; [| split; vm_compute; split; congruence];
  let i := fresh "i" in
  let Hi := fresh "Hi" in
  intros i Hi;
  assert (i = 0 \/ i = 1 \/ i = 2) as [-> | [-> | ->]]
    by (unfold TIMES_THRU_BUTTONS in Hi; lia);
  vm_compute; split; congruence.

(** The scenario of two channels: A's cross-talk excursion is 38, its weakest
    own press 40 and CS_MIN_THRESHOLD is 2, so A fails (38 + 4 >= 40). *)
Lemma done_phase_fail_witness :
  let s' := snd (CapSenseContinueCalibrate two_button_cfg crosstalk_state) in
  csResults (cal s') !! 0%nat = Some acrFail
  /\ aget (csThresholds (sn s')) 0 = 24.
Proof.
  destruct (done_phase_fail two_button_cfg crosstalk_state 0) as [Hiff Hthr];
    try (vm_compute; congruence); try (vm_compute; lia).
  - split; vm_compute; congruence.
  - check_stats.
  - cbv zeta.
    assert (Hf : csResults (cal (snd (CapSenseContinueCalibrate two_button_cfg
                                        crosstalk_state))) !! Z.to_nat 0
                 = Some acrFail).
    { apply Hiff. left. vm_compute. congruence. }
    split; [exact Hf |]. rewrite (Hthr Hf). reflexivity.
Defined.

(** C6 as stated fails: channel A above is rated Fail and gets the threshold
    50/2 + 3/2 - 2 = 24, not the midpoint of its weakest (40) and strongest
    (50) own press minus CS_MIN_THRESHOLD, which is 43. *)
Lemma failed_threshold_is_not_own_press_midpoint :
  let s' := snd (CapSenseContinueCalibrate two_button_cfg crosstalk_state) in
  let st := cal s' in
  csResults st !! 0%nat = Some acrFail
  /\ minOwnPress st 0 = 40 /\ maxOwnPress st 0 = 50
  /\ aget (csMaxWaiting st) 0 = 3
  /\ aget (csThresholds (sn s')) 0 = 24
  /\ aget (csThresholds (sn s')) 0
     <> (minOwnPress st 0 + maxOwnPress st 0) / 2 - CS_MIN_THRESHOLD two_button_cfg.
Proof. vm_compute. repeat split; congruence. Qed.

(** The scenario of a single channel with idle excursion 5 and own presses
    40, 45 and 50, in a module that held the rating Fail and the threshold 0
    before the call; and a channel that is not rated Fail but lies within
    the margins, which the call rates Ok. *)
Lemma done_phase_pass_witness :
  (csResults (cal clean_state) !! 0%nat = Some acrFail
   /\ aget (csThresholds (sn clean_state)) 0 = 0)
  /\ (csResults
        (cal (snd (CapSenseContinueCalibrate one_button_cfg clean_state)))
        !! 0%nat = Some acrGreat
      /\ aget (csThresholds
                 (sn (snd (CapSenseContinueCalibrate one_button_cfg clean_state))))
              0
         = 40 - CS_MIN_THRESHOLD one_button_cfg)
  /\ (csResults
        (cal (snd (CapSenseContinueCalibrate one_button_cfg
                     wrapped_crosstalk_state)))
        !! 0%nat = Some acrOK
      /\ aget (csThresholds
                 (sn (snd (CapSenseContinueCalibrate one_button_cfg
                             wrapped_crosstalk_state))))
              0
         = 38).
Proof.
  split; [split; reflexivity |]. split.
  - destruct (done_phase_pass one_button_cfg clean_state 0) as [_ Hscen];
      try (vm_compute; congruence); try (vm_compute; lia).
    + split; vm_compute; congruence.
    + check_stats.
    + apply Hscen; vm_compute; congruence.
  - destruct (done_phase_pass one_button_cfg wrapped_crosstalk_state 0)
      as [Hgen _];
      try (vm_compute; congruence); try (vm_compute; lia).
    + split; vm_compute; congruence.
    + check_stats.
    + destruct Hgen as (Hthr & _ & Hok & _); [vm_compute; congruence |].
      split.
      * apply Hok. left. vm_compute. reflexivity.
      * rewrite Hthr. vm_compute. reflexivity.
Defined.

(** C7 as stated fails.  A channel whose weakest own press moved it by 300
    is not rated Fail, and its threshold comes out as 42, the low byte of
    300 - CS_MIN_THRESHOLD = 298.  And with a CS_MIN_THRESHOLD of 18 the
    channel of the scenario (idle excursion 5, own presses 40, 45 and 50, no
    cross-talk) is rated Fail, as 5 + 2 * 18 is not below 40, with the
    threshold 50/2 + 5/2 - 18 = 9. *)
Lemma done_phase_pass_as_stated_fails :
  (let s' := snd (CapSenseContinueCalibrate one_button_cfg strong_press_state) in
   fst (CapSenseContinueCalibrate one_button_cfg strong_press_state) = false
   /\ csResults (cal s') !! 0%nat = Some acrGreat
   /\ minOwnPress (cal s') 0 = 300
   /\ aget (csThresholds (sn s')) 0 = 42
   /\ aget (csThresholds (sn s')) 0
      <> minOwnPress (cal s') 0 - CS_MIN_THRESHOLD one_button_cfg)
  /\ (let s' := snd (CapSenseContinueCalibrate coarse_cfg clean_state) in
      fst (CapSenseContinueCalibrate coarse_cfg clean_state) = false
      /\ aget (csMaxWaiting (cal s')) 0 = 5
      /\ aget (csMaxOthers (cal s')) 0 = 0
      /\ (own_press (cal s') 0 0, own_press (cal s') 0 1, own_press (cal s') 0 2)
         = (40, 45, 50)
      /\ csResults (cal s') !! 0%nat = Some acrFail
      /\ aget (csThresholds (sn s')) 0 = 9).
Proof. vm_compute. repeat split; congruence. Qed.

(** The rating Ok is given when a sum of the Fail test wraps around: here
    the cross-talk excursion is 65534. *)
Example done_phase_ok :
  let s := done_state [0; 0; 0; 0] [65534; 0; 0; 0]
                      [[40; 45; 50]; [0; 0; 0]; [0; 0; 0]; [0; 0; 0]] in
  let s' := snd (CapSenseContinueCalibrate one_button_cfg s) in
  csResults (cal s') !! 0%nat = Some acrOK
  /\ aget (csThresholds (sn s')) 0 = 38.
Proof. vm_compute. split; reflexivity. Qed.

(** ** The loops of the calibration terminate *)

(** The [while] loop that skips inactive channels has left its condition
    when [skip_inactive] returns: the fuel is enough. *)
Lemma skip_inactive_exits cfg b :
  0 <= b -> LAST_CAPSENSE_CHANNEL cfg < 255 ->
  let b' := skip_inactive cfg b in
  (IsChannelUsed cfg b' <> 0 \/ LAST_CAPSENSE_CHANNEL cfg < b') /\ b <= b'.
Proof.
  intros Hb Hlast. unfold skip_inactive. cbv zeta.
  remember (Z.to_nat (LAST_CAPSENSE_CHANNEL cfg + 1 - b)) as fuel eqn:Hfuel.
  assert (Hen : LAST_CAPSENSE_CHANNEL cfg + 1 - b <= Z.of_nat fuel) by lia.
  clear Hfuel. revert b Hb Hen.
  induction fuel as [| fuel IH]; intros b Hb Hen; simpl.
  - split; [right |]; lia.
  - destruct (Z.eqb_spec (IsChannelUsed cfg b) 0) as [E | E]; simpl.
    + destruct (Z.leb_spec b (LAST_CAPSENSE_CHANNEL cfg)) as [Hle | Hgt].
      * rewrite (to_byte_small (b + 1)) by lia.
        destruct (IH (b + 1)) as [Hexit Hmono]; [lia | lia |].
        split; [exact Hexit | lia].
      * split; [right |]; lia.
    + split; [left; exact E | lia].
Qed.

(** ** Scenarios *)

(** From power-up to equal bins under an older baseline: the button rests
    at 5 for two ticks and at 3 for the next two.  Both bins then hold 3
    while the baseline is still 5, and the next rotation moves it to 3. *)
Example equal_bins_with_old_baseline_reachable :
  let s := fold_left (drive unfiltered_cfg)
             [Measure 5 10; Measure 5 11; Measure 3 12; Measure 3 13]
             (InitCapSense unfiltered_cfg [4; 0; 0; 0] (zeroed 10)) in
  bins_of s 0 = [3; 3] /\ GetBaseline 0 s = 5
  /\ GetBaseline 0 (drive unfiltered_cfg s (Measure 3 14)) = 3.
Proof. vm_compute. repeat split. Qed.

(** From power-up to a held button: after the touch the button is held, the
    press has been taken, and the current bin of the channel holds 900.  A
    further measurement in the same tick raises the bin to 905. *)
Example held_bin_update_reachable :
  let s := run_from_power_up touch_events in
  let s' := drive unfiltered_cfg s (Measure 905 13) in
  buttons s = (255, 0, 0)
  /\ tick_diff (ticks s) (csLastButtonTicks (sn s)) = 0
  /\ aget2 (csBin (sn s)) 0 (csCurrentBin (sn s)) = 900
  /\ csHoldingButton (sn s') = 0
  /\ aget2 (csBin (sn s')) 0 (csCurrentBin (sn s)) = 905.
Proof. vm_compute. repeat split. Qed.

(** From power-up through a calibration: in the last idle window the minimum
    of the channel is still the 65535 of the reset although 990 has been
    measured, and the calibration ends with an idle excursion of 1001, taken
    from that stale minimum, and a failed channel. *)
Example idle_minimum_untracked_reachable :
  let s := run_from_power_up calibration_events in
  let r := CapSenseContinueCalibrate unfiltered_cfg
             (drive unfiltered_cfg s (Measure 1000 37)) in
  csAutoCalibrateState (cal s) = acPressNothing
  /\ timesThruButtons (cal s) = 3
  /\ aget (csMin (sn s)) 0 = 65535
  /\ fst r = false
  /\ aget (csMaxWaiting (cal (snd r))) 0 = 1001
  /\ csResults (cal (snd r)) !! 0%nat = Some acrFail.
Proof. vm_compute. repeat split. Qed.

(** The end of the first idle window: the excursions [csBaseline - csMin]
    are folded into [csMaxWaiting] and the protocol goes on with the first
    channel in use. *)
Example idle_window_first_expiry :
  let s := with_cal (fun c => set_timesThruButtons 0 (set_csMaxWaiting [0; 0; 0; 0] c))
             (with_sn (set_csMin [996; 998; 0; 0]) idle_window_state) in
  let s := {| hw := hw s; sn := sn s; cal := cal s; ticks := 14 |} in
  let r := CapSenseContinueCalibrate two_button_cfg s in
  fst r = true
  /\ csAutoCalibrateState (cal (snd r)) = acPressAndReleaseButton
  /\ csCalButton (cal (snd r)) = FIRST_CAPSENSE_CHANNEL two_button_cfg
  /\ csMaxWaiting (cal (snd r)) = [4; 2; 0; 0].
Proof. vm_compute. repeat split. Qed.

(** The end of the second idle window leads to Done.  As the minima were not
    followed during the window, the idle excursion of channel 0 comes out as
    1000 - 65535 in 16 bits, that is 1001, and the channel fails. *)
Example idle_window_last_expiry :
  let s := snd (CapSenseISR two_button_cfg true idle_window_state) in
  let s := {| hw := hw s; sn := sn s; cal := cal s; ticks := 14 |} in
  let r := CapSenseContinueCalibrate two_button_cfg s in
  fst r = false
  /\ csAutoCalibrateState (cal (snd r)) = acDone
  /\ aget (csMaxWaiting (cal (snd r))) 0 = 1001
  /\ csResults (cal (snd r)) !! 0%nat = Some acrFail.
Proof. vm_compute. repeat split. Qed.

(** * Further properties of the module *)

(** ** Channel mask and timer read-out *)

Lemma land_one_bit ch m :
  0 <= ch -> Z.land (Z.shiftl 1 ch) m = if Z.testbit m ch then 2 ^ ch else 0.
Proof.
  intros Hch. apply Z.bits_inj'. intros n Hn.
  rewrite Z.land_spec, Z.shiftl_spec by lia.
  destruct (Z.eq_dec n ch) as [-> | Hne].
  - rewrite Z.sub_diag. change (Z.testbit 1 0) with true. simpl.
    destruct (Z.testbit m ch); [by rewrite Z.pow2_bits_true | by rewrite Z.bits_0].
  - assert (Z.testbit 1 (n - ch) = false) as ->.
    { destruct (Z.lt_ge_cases (n - ch) 0); [by apply Z.testbit_neg_r |].
      apply (Z.bits_above_log2 1); simpl; lia. }
    simpl. destruct (Z.testbit m ch);
      [by rewrite Z.pow2_bits_false by lia | by rewrite Z.bits_0].
Qed.

(** X1. IsChannelUsed reports a channel below 8 as used exactly when the
    channel's bit is set in CAPSENSE_CHANNELS; as its result is a byte, a
    channel from 8 on is never reported as used, whatever the mask. *)
Theorem IsChannelUsed_bit cfg ch :
  0 <= ch ->
  (ch < 8 ->
     (IsChannelUsed cfg ch <> 0 <-> Z.testbit (CAPSENSE_CHANNELS cfg) ch = true))
  /\ (8 <= ch -> IsChannelUsed cfg ch = 0).
Proof.
  intros Hch. unfold IsChannelUsed. rewrite land_one_bit by exact Hch.
  split.
  - intros Hlt. destruct (Z.testbit (CAPSENSE_CHANNELS cfg) ch).
    + assert (0 < 2 ^ ch < 256).
      { split; [apply Z.pow_pos_nonneg; lia |].
        change 256 with (2 ^ 8). apply Z.pow_lt_mono_r; lia. }
      rewrite to_byte_small by lia. split; [reflexivity | lia].
    + split; [intros H; by contradiction H | discriminate].
  - intros Hge. destruct (Z.testbit (CAPSENSE_CHANNELS cfg) ch); [| reflexivity].
    unfold to_byte. replace ch with (8 + (ch - 8)) by lia.
    rewrite Z.pow_add_r by lia. change (2 ^ 8) with 256.
    rewrite Z.mul_comm. apply Z.mod_mul. lia.
Qed.

Lemma IsChannelUsed_bit_witness :
  IsChannelUsed two_button_cfg 1 <> 0 /\ IsChannelUsed two_button_cfg 9 = 0.
Proof.
  destruct (IsChannelUsed_bit two_button_cfg 1 ltac:(lia)) as [H1 _].
  destruct (IsChannelUsed_bit two_button_cfg 9 ltac:(lia)) as [_ H9].
  split; [apply H1; [lia | reflexivity] | apply H9; lia].
Defined.

Lemma tmr1_halves h l :
  0 <= l < 256 -> 0 <= h < 256 ->
  to_reading (Z.lor (Z.shiftl h 8) l) = 256 * h + l.
Proof.
  intros Hl Hh.
  assert (Hdisj : Z.land (Z.shiftl h 8) l = 0).
  { apply Z.bits_inj'. intros n Hn. rewrite Z.land_spec, Z.bits_0.
    destruct (Z.lt_ge_cases n 8).
    - by rewrite Z.shiftl_spec_low.
    - rewrite andb_false_iff. right.
      destruct (Z.eq_dec l 0) as [-> | Hne]; [apply Z.bits_0 |].
      apply Z.bits_above_log2; [lia |].
      assert (Z.log2 l < 8)
        by (apply Z.log2_lt_pow2; [lia | change (2 ^ 8) with 256; lia]).
      lia. }
  rewrite <- Z.lxor_lor by exact Hdisj.
  rewrite <- Z.add_nocarry_lxor by exact Hdisj.
  rewrite Z.shiftl_mul_pow2 by lia. change (2 ^ 8) with 256.
  rewrite to_reading_small by lia. lia.
Qed.

(** X2. With both halves of Timer 1 holding bytes, the count the ISR reads
    is 256 * TMR1H + TMR1L: no bit of one half is lost to the other and
    nothing is lost to the 16-bit reading. *)
Theorem read_tmr1_value (t : Timer) :
  0 <= tmr1l t < 256 -> 0 <= tmr1h t < 256 ->
  read_tmr1 t = 256 * tmr1h t + tmr1l t.
Proof.
  intros Hl Hh. unfold read_tmr1. by apply tmr1_halves.
Qed.

Lemma read_tmr1_value_witness : read_tmr1 (timer_at 900) = 256 * 3 + 132.
Proof.
  apply (read_tmr1_value (timer_at 900)); vm_compute; split; congruence.
Defined.

(** ** The channel scanner *)

(** Case analysis on the innermost conditions first. *)
Ltac break_inner_ifs :=
  repeat match goal with
         | |- context [if ?b then _ else _] =>
             lazymatch b with
             | context [if _ then _ else _] => fail
             | _ => destruct b
             end
         end.

Lemma BumpCapSenseChannel_channel cfg s :
  currentCapSenseChannel (sn (BumpCapSenseChannel cfg s))
  = next_channel cfg (currentCapSenseChannel (sn s)).
Proof.
  unfold BumpCapSenseChannel, next_channel, skip_if_unused, skip_value,
    SetCapSenseChannel, RestartCapSenseTimer. cbv zeta.
  destruct (channel_compiled cfg 1), (channel_compiled cfg 2),
    (channel_compiled cfg 3);
    repeat (cbn [with_sn with_hw sn currentCapSenseChannel
                 set_currentCapSenseChannel];
            match goal with
            | |- context [if ?b then _ else _] =>
                lazymatch b with
                | context [if _ then _ else _] => fail
                | _ => destruct b
                end
            end);
    reflexivity.
Qed.

(** X3. From a channel 0..3, with LAST_CAPSENSE_CHANNEL at most 3,
    BumpCapSenseChannel moves either to the next channel compiled in (every
    channel in between is compiled out, and the new one is not beyond
    LAST_CAPSENSE_CHANNEL), or, when no channel compiled in is left up to
    LAST_CAPSENSE_CHANNEL, back to FIRST_CAPSENSE_CHANNEL. *)
Theorem next_channel_is_next_used cfg (s : State) :
  let cur := currentCapSenseChannel (sn s) in
  let new := currentCapSenseChannel (sn (BumpCapSenseChannel cfg s)) in
  0 <= cur <= 3 -> LAST_CAPSENSE_CHANNEL cfg <= 3 ->
  (cur < new <= LAST_CAPSENSE_CHANNEL cfg
   /\ channel_compiled cfg new = true
   /\ forall k, cur < k < new -> channel_compiled cfg k = false)
  \/ (new = FIRST_CAPSENSE_CHANNEL cfg
      /\ forall k, cur < k <= LAST_CAPSENSE_CHANNEL cfg ->
                   channel_compiled cfg k = false).
Proof.
  intros cur new Hcur Hlast. subst new.
  rewrite BumpCapSenseChannel_channel. fold cur.
  assert (Hk : forall k, cur < k -> k <= 3 -> k = 1 \/ k = 2 \/ k = 3) by lia.
  unfold next_channel, skip_value. cbv zeta.
  assert (cur = 0 \/ cur = 1 \/ cur = 2 \/ cur = 3) as [E | [E | [E | E]]] by lia;
    rewrite E in *; clear E;
    destruct (channel_compiled cfg 1) eqn:E1;
    destruct (channel_compiled cfg 2) eqn:E2;
    destruct (channel_compiled cfg 3) eqn:E3;
    vm_compute to_byte; cbn [Z.eqb Pos.eqb Z.add Pos.add Pos.succ];
    match goal with
    | |- context [if ?c <? ?d then _ else _] => destruct (Z.ltb_spec c d)
    end.
  all: try (exfalso; lia).
  all: first
    [ left; split; [lia |]; split; [assumption |];
      intros k Hr; destruct (Hk k) as [-> | [-> | ->]]; (assumption || lia)
    | right; split; [reflexivity |];
      intros k Hr; destruct (Hk k) as [-> | [-> | ->]]; (assumption || lia) ].
Qed.

Lemma next_channel_is_next_used_witness :
  let cur := currentCapSenseChannel (sn touch_state) in
  let new := currentCapSenseChannel
               (sn (BumpCapSenseChannel two_button_cfg touch_state)) in
  (cur < new <= 1
   /\ channel_compiled two_button_cfg new = true
   /\ forall k, cur < k < new -> channel_compiled two_button_cfg k = false)
  \/ (new = 0
      /\ forall k, cur < k <= 1 -> channel_compiled two_button_cfg k = false).
Proof.
  apply (next_channel_is_next_used two_button_cfg touch_state).
  - vm_compute. split; congruence.
  - vm_compute. congruence.
Defined.

(** X4. A measurement cycle always ends with a fresh measurement under way:
    whatever the state, after CapSenseISR has run for a fired interrupt both
    timers are at 0, Timer 1 is running, the timer-0 flag is down and the
    comparators are switched to the channel that is scanned next; so a
    CapSenseISRDone that follows at once changes nothing. *)
Theorem isr_restarts_measurement cfg (s : State) :
  let s' := snd (CapSenseISR cfg true s) in
  tmr0 (hw s') = 0 /\ tmr1l (hw s') = 0 /\ tmr1h (hw s') = 0
  /\ TMR1ON (hw s') = true /\ T0IF (hw s') = false
  /\ cm1con0 (hw s') = to_byte (148 + currentCapSenseChannel (sn s'))
  /\ cm2con0 (hw s') = to_byte (160 + currentCapSenseChannel (sn s'))
  /\ CapSenseISRDone s' = s'.
Proof.
  unfold CapSenseISR. cbv zeta. simpl snd.
  unfold BumpCapSenseChannel. cbv zeta. repeat split.
Qed.

(** ** The invariant of the sensing globals *)

Lemma engine_inv_sn cfg s s' :
  sn s' = sn s -> engine_inv cfg s -> engine_inv cfg s'.
Proof. intros E [? ? ? ? ? ? ? ? ? ? ? ?]. constructor; rewrite E; assumption. Qed.

Lemma in16_to_reading z : in16 (to_reading z).
Proof. apply to_reading_range. Qed.

Lemma in8_to_byte z : in8 (to_byte z).
Proof. apply to_byte_range. Qed.

Lemma in16_aget (l : list Z) i : Forall in16 l -> in16 (aget l i).
Proof.
  intros H. unfold aget. destruct (l !! Z.to_nat i) as [v |] eqn:E; simpl.
  - by eapply Forall_lookup_1.
  - unfold in16. lia.
Qed.

Lemma aset2_length (m : list (list Z)) i j v :
  length (aset2 m i j v) = length m.
Proof.
  unfold aset2. destruct (m !! Z.to_nat i); [apply length_insert | done].
Qed.

Lemma aset2_rows (k : nat) (m : list (list Z)) i j v :
  in16 v ->
  Forall (fun row => length row = k /\ Forall in16 row) m ->
  Forall (fun row => length row = k /\ Forall in16 row) (aset2 m i j v).
Proof.
  intros Hv Hm. unfold aset2.
  destruct (m !! Z.to_nat i) as [row |] eqn:E; [| exact Hm].
  apply Forall_insert; [exact Hm |].
  destruct (Forall_lookup_1 _ _ _ _ Hm E) as [Hl Hr].
  split; [unfold aset; by rewrite length_insert | by apply Forall_insert].
Qed.

Lemma isr_store_reading_inv cfg v s :
  in16 v -> engine_inv cfg s -> engine_inv cfg (isr_store_reading v s).
Proof.
  intros Hv [? ? ? ? ? ? ? ? ? ? ? ?]. constructor; simpl; try assumption.
  - unfold aset. by rewrite length_insert.
  - by apply Forall_insert.
Qed.

Lemma isr_button_inv cfg reading threshold s :
  engine_inv cfg s -> engine_inv cfg (isr_button cfg reading threshold s).
Proof.
  intros H. pose proof H as [? ? ? ? ? ? ? ? ? ? Hp Hhp].
  unfold isr_button.
  destruct (reading <? threshold).
  - destruct (press_guard cfg (sn s)); [| exact H].
    constructor; simpl; try assumption; try lia;
      try (unfold aset; by rewrite length_insert); reflexivity.
  - destruct (Z.eqb_spec (csHoldingButton (sn s)) (currentCapSenseChannel (sn s)))
      as [Eh | Eh]; simpl.
    + rewrite Z.eqb_refl. simpl.
      destruct (Z.ltb_spec (csLastDownPolls (sn s)) 255).
      * constructor; simpl; try assumption.
        -- rewrite to_byte_small by lia. lia.
        -- intros Hc. by contradiction Hc.
      * constructor; simpl; try assumption.
        intros Hc. by contradiction Hc.
    + destruct (Z.eqb_spec (csHoldingButton (sn s)) (NO_CAPSENSE_BUTTONS cfg))
        as [En | En]; simpl; [| exact H].
      destruct (Z.ltb_spec (csLastDownPolls (sn s)) 255); [| exact H].
      constructor; simpl; try assumption.
      * rewrite to_byte_small by lia. lia.
      * intros Hc. by contradiction Hc.
Qed.

Lemma isr_bin_max_inv cfg v s :
  in16 v -> engine_inv cfg s -> engine_inv cfg (isr_bin_max cfg v s).
Proof.
  intros Hv H. pose proof H as [? ? ? ? ? ? ? ? ? ? ? ?].
  unfold isr_bin_max. destruct (bin_update_guard cfg s); [| exact H].
  cbv zeta. destruct (_ <? v); [| exact H].
  constructor; simpl; try assumption.
  - by rewrite aset2_length.
  - by apply aset2_rows.
Qed.

Lemma isr_cal_min_inv cfg v s :
  engine_inv cfg s -> engine_inv cfg (isr_cal_min v s).
Proof.
  intros H. unfold isr_cal_min. destruct (ac_eqb _ _); [| exact H].
  destruct H as [? ? ? ? ? ? ? ? ? ? ? ?]. constructor; assumption.
Qed.

Lemma bump_baseline_inv cfg n s :
  engine_inv cfg s -> engine_inv cfg (bump_baseline cfg n s).
Proof.
  intros H. pose proof H as [? ? ? ? ? ? ? ? ? ? ? ?].
  unfold bump_baseline. destruct (channel_compiled cfg n); [| exact H].
  constructor; simpl; try assumption.
  - unfold aset. by rewrite length_insert.
  - apply Forall_insert; [assumption | apply in16_to_reading].
Qed.

Lemma bump_reset_bin_inv cfg n s :
  engine_inv cfg s -> engine_inv cfg (bump_reset_bin cfg n s).
Proof.
  intros H. pose proof H as [? ? ? ? ? ? ? ? ? ? ? ?].
  unfold bump_reset_bin. destruct (channel_compiled cfg n); [| exact H].
  constructor; simpl; try assumption.
  - by rewrite aset2_length.
  - apply aset2_rows; [by apply in16_aget | assumption].
Qed.

Lemma BumpCapSenseBin_inv cfg s :
  0 < NUM_CAPSENSE_BINS cfg ->
  engine_inv cfg s -> engine_inv cfg (BumpCapSenseBin cfg s).
Proof.
  intros Hnum H. unfold BumpCapSenseBin. cbv zeta.
  set (s1 := with_sn (fun r => set_csCurrentBin (to_byte (csCurrentBin r + 1)) r) s).
  set (s2 := if NUM_CAPSENSE_BINS cfg <=? csCurrentBin (sn s1)
             then with_sn (set_csCurrentBin 0) s1 else s1).
  assert (H2 : engine_inv cfg s2).
  { destruct H as [? ? ? ? ? ? ? ? ? ? ? ?]. subst s2.
    destruct (Z.leb_spec (NUM_CAPSENSE_BINS cfg) (csCurrentBin (sn s1)))
      as [Hle | Hgt].
    - constructor; simpl; try assumption. lia.
    - constructor; simpl; try assumption.
      simpl in Hgt. pose proof (to_byte_range (csCurrentBin (sn s) + 1)). lia. }
  clearbody s2. clear s1.
  pose proof (bump_baseline_inv cfg 0 s2 H2) as H3.
  apply (bump_baseline_inv cfg 1) in H3. apply (bump_baseline_inv cfg 2) in H3.
  apply (bump_baseline_inv cfg 3) in H3.
  apply (bump_reset_bin_inv cfg 0) in H3. apply (bump_reset_bin_inv cfg 1) in H3.
  apply (bump_reset_bin_inv cfg 2) in H3. apply (bump_reset_bin_inv cfg 3) in H3.
  destruct H3 as [? ? ? ? ? ? ? ? ? ? ? ?].
  constructor; simpl; try assumption.
  unfold aset. by rewrite length_insert.
Qed.

Lemma isr_rotate_inv cfg s :
  0 < NUM_CAPSENSE_BINS cfg ->
  engine_inv cfg s -> engine_inv cfg (isr_rotate cfg s).
Proof.
  intros Hnum H. unfold isr_rotate.
  destruct (_ <=? _); [by apply BumpCapSenseBin_inv | exact H].
Qed.

Lemma skip_if_unused_inv cfg n s :
  engine_inv cfg s -> engine_inv cfg (skip_if_unused cfg n s).
Proof.
  intros H. unfold skip_if_unused.
  destruct (channel_compiled cfg n); [exact H |].
  destruct (_ =? n); [| exact H].
  destruct H as [? ? ? ? ? ? ? ? ? ? ? ?]. constructor; assumption.
Qed.

Lemma BumpCapSenseChannel_inv cfg s :
  engine_inv cfg s -> engine_inv cfg (BumpCapSenseChannel cfg s).
Proof.
  intros H. unfold BumpCapSenseChannel. cbv zeta.
  match goal with
  | |- engine_inv _ (RestartCapSenseTimer (SetCapSenseChannel ?x)) =>
      apply (engine_inv_sn cfg x); [reflexivity |]
  end.
  assert (H1 : engine_inv cfg
                 (with_sn (fun r => set_currentCapSenseChannel
                            (to_byte (currentCapSenseChannel r + 1)) r) s)).
  { destruct H as [? ? ? ? ? ? ? ? ? ? ? ?]. constructor; assumption. }
  apply (skip_if_unused_inv cfg 1) in H1. apply (skip_if_unused_inv cfg 2) in H1.
  apply (skip_if_unused_inv cfg 3) in H1.
  destruct (_ <? _); [| exact H1].
  destruct H1 as [? ? ? ? ? ? ? ? ? ? ? ?]. constructor; assumption.
Qed.

Lemma CapSenseISR_inv cfg fired s :
  0 < NUM_CAPSENSE_BINS cfg ->
  engine_inv cfg s -> engine_inv cfg (snd (CapSenseISR cfg fired s)).
Proof.
  intros Hnum H. unfold CapSenseISR. destruct fired; [| exact H].
  cbv zeta. simpl snd.
  apply BumpCapSenseChannel_inv, isr_rotate_inv; [exact Hnum |].
  apply isr_cal_min_inv, isr_bin_max_inv; [apply in16_to_reading |].
  apply isr_button_inv, isr_store_reading_inv; [apply in16_to_reading | exact H].
Qed.

Lemma CapSenseISRDone_sn s : sn (CapSenseISRDone s) = sn s.
Proof. unfold CapSenseISRDone. destruct (T0IF (hw s)); reflexivity. Qed.

Lemma measure_inv cfg s m :
  0 < NUM_CAPSENSE_BINS cfg ->
  engine_inv cfg s -> engine_inv cfg (measure cfg s m).
Proof.
  intros Hnum H. unfold measure. destruct m as [count now].
  eapply engine_inv_sn; [apply CapSenseISRDone_sn |].
  apply CapSenseISR_inv; [exact Hnum |].
  eapply engine_inv_sn; [| exact H]. reflexivity.
Qed.

(** The calibration writes only three of the sensing globals: the pending
    button, the minima and the thresholds. *)
Lemma cal_transition_core cfg s :
  sensing_core (cal_transition cfg s) = sensing_core s
  /\ csButton (sn (cal_transition cfg s)) = csButton (sn s)
  /\ csThresholds (sn (cal_transition cfg s)) = csThresholds (sn s)
  /\ csResults (cal (cal_transition cfg s)) = csResults (cal s).
Proof.
  unfold cal_transition.
  destruct (csAutoCalibrateState (cal s)); try (repeat split; reflexivity).
  - destruct (SETTLE_TICKS cfg <? _); [| repeat split; reflexivity].
    pose proof (fold_idle_sn (channel_range cfg) s) as E.
    assert (Ec : forall s0 l, hw (fold_left fold_idle l s0) = hw s0
                              /\ ticks (fold_left fold_idle l s0) = ticks s0
                              /\ csResults (cal (fold_left fold_idle l s0))
                                 = csResults (cal s0)).
    { intros s0 l. revert s0. induction l as [| x l IH]; intros s0; simpl;
        [repeat split |].
      destruct (IH (fold_idle s0 x)) as (-> & -> & ->). repeat split. }
    destruct (Ec s (channel_range cfg)) as (Eh & Et & Er).
    destruct (timesThruButtons _ =? 0); unfold sensing_core; simpl;
      rewrite E, Eh, Et, Er; repeat split.
  - destruct (SETTLE_TICKS cfg <? _); [| repeat split; reflexivity].
    pose proof (fold_press_sn (channel_range cfg) s) as E.
    assert (Ec : forall s0 l, hw (fold_left fold_press l s0) = hw s0
                              /\ ticks (fold_left fold_press l s0) = ticks s0
                              /\ csResults (cal (fold_left fold_press l s0))
                                 = csResults (cal s0)).
    { intros s0 l. revert s0. induction l as [| x l IH]; intros s0; simpl;
        [repeat split |].
      destruct (IH (fold_press s0 x)) as (-> & -> & ->).
      unfold fold_press. destruct (x =? _); repeat split. }
    destruct (Ec s (channel_range cfg)) as (Eh & Et & Er).
    cbv zeta.
    repeat match goal with
           | |- context [if ?b then _ else _] => destruct b
           end; unfold sensing_core; simpl; rewrite E, Eh, Et, Er; repeat split.
Qed.

Lemma done_loop_core cfg l : forall s,
  sensing_core (fold_left (done_step cfg) l s) = sensing_core s
  /\ csButton (sn (fold_left (done_step cfg) l s)) = csButton (sn s)
  /\ csMin (sn (fold_left (done_step cfg) l s)) = csMin (sn s)
  /\ csAutoCalibrateState (cal (fold_left (done_step cfg) l s))
     = csAutoCalibrateState (cal s)
  /\ (Forall in8 (csThresholds (sn s)) ->
      Forall in8 (csThresholds (sn (fold_left (done_step cfg) l s)))).
Proof.
  induction l as [| x l IH]; intros s; simpl; [repeat split; auto |].
  destruct (IH (done_step cfg s x)) as (-> & -> & -> & -> & Hin).
  repeat split. intros H. apply Hin. simpl. apply Forall_insert; [exact H |].
  unfold done_result, rate_channel.
  repeat match goal with
         | |- context [if ?b then _ else _] => destruct b
         end; simpl; (apply in8_to_byte || (unfold in8; lia)).
Qed.

Lemma cal_done_core cfg s :
  sensing_core (cal_done cfg s) = sensing_core s
  /\ csButton (sn (cal_done cfg s)) = csButton (sn s)
  /\ csMin (sn (cal_done cfg s)) = csMin (sn s)
  /\ csAutoCalibrateState (cal (cal_done cfg s)) = csAutoCalibrateState (cal s)
  /\ (Forall in8 (csThresholds (sn s)) ->
      Forall in8 (csThresholds (sn (cal_done cfg s)))).
Proof.
  unfold cal_done. cbv zeta.
  pose proof (done_loop_core cfg (channel_range cfg)
                (with_cal (set_csCalButton (FIRST_CAPSENSE_CHANNEL cfg)) s)) as H.
  remember (fold_left _ _ _) as s1. clear Heqs1.
  destruct (channel_range cfg); exact H.
Qed.

Lemma continue_calibrate_core cfg s :
  sensing_core (snd (CapSenseContinueCalibrate cfg s)) = sensing_core s.
Proof.
  unfold CapSenseContinueCalibrate. cbv zeta.
  set (s0 := snd (GetCapSenseButton cfg s)).
  assert (E0 : sensing_core s0 = sensing_core s) by reflexivity.
  destruct (cal_transition_core cfg s0) as (E1 & _).
  destruct (ac_eqb _ acDone); simpl snd.
  - destruct (cal_done_core cfg (cal_transition cfg s0)) as (E2 & _). congruence.
  - congruence.
Qed.

Lemma engine_inv_core cfg s s' :
  sensing_core s' = sensing_core s ->
  length (csThresholds (sn s')) = length (csThresholds (sn s)) ->
  (Forall in8 (csThresholds (sn s)) -> Forall in8 (csThresholds (sn s'))) ->
  engine_inv cfg s -> engine_inv cfg s'.
Proof.
  unfold sensing_core. intros E El Ht [? ? ? ? ? ? ? ? ? ? ? ?].
  injection E as _ _ Er _ Eb Ed _ _ Ep Eh Ec Ebin.
  constructor; rewrite ?Er, ?Eb, ?Ed, ?Ep, ?Eh, ?Ec, ?Ebin, ?El;
    try assumption. auto.
Qed.

Lemma continue_calibrate_inv cfg s :
  engine_inv cfg s -> engine_inv cfg (snd (CapSenseContinueCalibrate cfg s)).
Proof.
  intros H.
  assert (Ht : length (csThresholds (sn (snd (CapSenseContinueCalibrate cfg s))))
               = length (csThresholds (sn s))
               /\ (Forall in8 (csThresholds (sn s)) ->
                   Forall in8 (csThresholds
                                 (sn (snd (CapSenseContinueCalibrate cfg s)))))).
  { unfold CapSenseContinueCalibrate. cbv zeta.
    set (s0 := snd (GetCapSenseButton cfg s)).
    destruct (cal_transition_core cfg s0) as (_ & _ & Et & _).
    change (csThresholds (sn s0)) with (csThresholds (sn s)) in Et.
    set (s1 := cal_transition cfg s0) in *.
    destruct (ac_eqb _ acDone); cbn [snd].
    - destruct (cal_done_lengths cfg s1) as [_ El].
      destruct (cal_done_core cfg s1) as (_ & _ & _ & _ & Hin).
      rewrite El, Et. split; [reflexivity |].
      intros Hs. apply Hin. by rewrite Et.
    - rewrite Et. by split. }
  destruct Ht as [El Hin].
  by apply (engine_inv_core cfg s); [apply continue_calibrate_core | | |].
Qed.

Lemma InitCapSense_inv cfg stored s :
  0 < NUM_CAPSENSE_BINS cfg ->
  length stored = Z.to_nat (MAX_CAPSENSE_CHANNELS cfg) ->
  engine_inv cfg (InitCapSense cfg stored s).
Proof.
  intros Hnum Hlen. unfold InitCapSense. cbv zeta.
  constructor; simpl; rewrite ?length_replicate, ?length_fmap;
    try reflexivity; try assumption; try lia.
  - apply Forall_replicate. split; [apply length_replicate |].
    apply Forall_replicate. unfold in16. lia.
  - apply Forall_replicate. unfold in16. lia.
  - apply Forall_replicate. unfold in16. lia.
  - apply Forall_fmap. apply Forall_forall. intros x _. apply in8_to_byte.
Qed.

Lemma run_inv cfg events : forall s,
  0 < NUM_CAPSENSE_BINS cfg ->
  engine_inv cfg s -> engine_inv cfg (run cfg events s).
Proof.
  unfold run. induction events as [| e events IH]; intros s Hnum H; simpl;
    [exact H |].
  apply IH; [exact Hnum |]. destruct e; cbn [drive].
  - by apply measure_inv.
  - destruct H as [? ? ? ? ? ? ? ? ? ? ? ?]. constructor; assumption.
  - destruct H as [? ? ? ? ? ? ? ? ? ? ? ?]. constructor; assumption.
  - by apply continue_calibrate_inv.
Qed.

(** X5. Every state the module reaches from InitCapSense through measurement
    cycles, takes of the pending button and calibration calls is well formed:
    all per-channel arrays keep MAX_CAPSENSE_CHANNELS entries and every
    channel NUM_CAPSENSE_BINS bins, readings, baselines and bins stay 16-bit
    values and thresholds bytes, the bin index stays below NUM_CAPSENSE_BINS,
    the down-poll counter stays within 0..255, and it is 0 whenever a button
    is held.  InitCapSense may start from any contents of the globals. *)
Theorem engine_inv_reachable cfg stored (s0 : State) events :
  0 < NUM_CAPSENSE_BINS cfg ->
  length stored = Z.to_nat (MAX_CAPSENSE_CHANNELS cfg) ->
  engine_inv cfg (run cfg events (InitCapSense cfg stored s0)).
Proof.
  intros Hnum Hlen. apply run_inv; [exact Hnum |]. by apply InitCapSense_inv.
Qed.

Lemma engine_inv_reachable_witness :
  engine_inv two_button_cfg
    (run two_button_cfg [Measure 1000 10; TakeButton; StartCalibrate;
                         ContinueCalibrate; Measure 900 11]
         (InitCapSense two_button_cfg [38; 38; 0; 0] (zeroed 10))).
Proof.
  apply engine_inv_reachable; reflexivity.
Defined.

(** X6. A call of CapSenseContinueCalibrate, in whatever phase, leaves the
    timer registers, the tick counter, the readings, the scanned channel,
    the baselines, the bins and the bin index, the had-a-press marks, the
    saved tick values, the down-poll counter and the held button as they
    are: of the sensing globals it writes only the pending button, the
    minima and the thresholds. *)
Theorem calibration_leaves_sensing_alone cfg (s : State) :
  sensing_core (snd (CapSenseContinueCalibrate cfg s)) = sensing_core s.
Proof. apply continue_calibrate_core. Qed.

(** ** What a measurement cycle leaves alone *)

Lemma isr_front_frame cfg reading threshold s :
  let s1 := isr_cal_min reading (isr_bin_max cfg reading
              (isr_button cfg reading threshold (isr_store_reading reading s))) in
  cal s1 = cal s /\ ticks s1 = ticks s
  /\ csThresholds (sn s1) = csThresholds (sn s)
  /\ csLastBinTicks (sn s1) = csLastBinTicks (sn s)
  /\ csCurrentBin (sn s1) = csCurrentBin (sn s)
  /\ csBaseline (sn s1) = csBaseline (sn s).
Proof.
  unfold isr_cal_min, isr_bin_max, isr_button, isr_store_reading. cbv zeta.
  break_ifs; repeat split.
Qed.

Lemma BumpCapSenseBin_frame cfg s :
  cal (BumpCapSenseBin cfg s) = cal s /\ ticks (BumpCapSenseBin cfg s) = ticks s
  /\ csThresholds (sn (BumpCapSenseBin cfg s)) = csThresholds (sn s).
Proof.
  unfold BumpCapSenseBin, bump_baseline, bump_reset_bin. cbv zeta.
  break_ifs; repeat split.
Qed.

Lemma BumpCapSenseChannel_frame cfg s :
  let s1 := BumpCapSenseChannel cfg s in
  cal s1 = cal s /\ ticks s1 = ticks s
  /\ csThresholds (sn s1) = csThresholds (sn s)
  /\ csLastBinTicks (sn s1) = csLastBinTicks (sn s)
  /\ csCurrentBin (sn s1) = csCurrentBin (sn s)
  /\ csBaseline (sn s1) = csBaseline (sn s).
Proof.
  unfold BumpCapSenseChannel, skip_if_unused. cbv zeta.
  break_ifs; repeat split.
Qed.

(** X7. A measurement cycle never touches the calibration: CapSenseISR leaves
    the calibration phase, its target channel and pass counter, its start
    tick, the three excursion accumulators and the results as they are, and
    it changes neither the thresholds nor the tick counter. *)
Theorem isr_leaves_calibration_alone cfg fired (s : State) :
  let s' := snd (CapSenseISR cfg fired s) in
  cal s' = cal s /\ csThresholds (sn s') = csThresholds (sn s)
  /\ ticks s' = ticks s.
Proof.
  unfold CapSenseISR. destruct fired; [| repeat split]. cbv zeta. simpl snd.
  destruct (isr_front_frame cfg (isr_reading cfg s) (isr_threshold cfg s) s)
    as (Ec & Et & Eth & _). cbv zeta in Ec, Et, Eth.
  set (s1 := isr_cal_min _ _) in *.
  destruct (BumpCapSenseChannel_frame cfg (isr_rotate cfg s1)) as (-> & -> & -> & _).
  unfold isr_rotate. destruct (_ <=? _).
  - destruct (BumpCapSenseBin_frame cfg s1) as (-> & -> & ->). by repeat split.
  - by repeat split.
Qed.

(** ** Release and debounce *)

(** The release side of the press test, for a reading that is not below the
    threshold. *)
Lemma isr_button_release cfg reading threshold s :
  ~ reading < threshold ->
  0 <= csLastDownPolls (sn s) <= 255 ->
  let s' := isr_button cfg reading threshold s in
  csButton (sn s') = csButton (sn s)
  /\ csHoldingButton (sn s')
     = (if csHoldingButton (sn s) =? currentCapSenseChannel (sn s)
        then NO_CAPSENSE_BUTTONS cfg else csHoldingButton (sn s))
  /\ csLastDownPolls (sn s')
     = (if csHoldingButton (sn s') =? NO_CAPSENSE_BUTTONS cfg
        then Z.min (csLastDownPolls (sn s) + 1) 255
        else csLastDownPolls (sn s)).
Proof.
  intros Hge Hp. unfold isr_button. cbv zeta.
  destruct (Z.ltb_spec reading threshold); [contradiction |].
  destruct (csHoldingButton (sn s) =? currentCapSenseChannel (sn s)); simpl.
  - rewrite Z.eqb_refl. simpl.
    destruct (Z.ltb_spec (csLastDownPolls (sn s)) 255); simpl;
      rewrite ?Z.eqb_refl; repeat split; try lia.
    rewrite to_byte_small by lia. lia.
  - destruct (csHoldingButton (sn s) =? NO_CAPSENSE_BUTTONS cfg) eqn:E; simpl;
      [| rewrite E; repeat split].
    destruct (Z.ltb_spec (csLastDownPolls (sn s)) 255); simpl;
      rewrite E; repeat split; try lia.
    rewrite to_byte_small by lia. lia.
Qed.

(** X8. Release.  When the filtered reading of the scanned channel is not
    below its threshold, the cycle registers no press; if the scanned
    channel is the held one, no channel is held afterwards, and a hold of
    another channel stays.  The down-poll counter goes up by one, stopping at
    255, exactly when no channel is held after the cycle. *)
Theorem release_clears_hold cfg (s : State) :
  let ch := currentCapSenseChannel (sn s) in
  let s' := snd (CapSenseISR cfg true s) in
  ~ isr_reading cfg s < isr_threshold cfg s ->
  0 <= csLastDownPolls (sn s) <= 255 ->
  csButton (sn s') = csButton (sn s)
  /\ csHoldingButton (sn s')
     = (if csHoldingButton (sn s) =? ch
        then NO_CAPSENSE_BUTTONS cfg else csHoldingButton (sn s))
  /\ csLastDownPolls (sn s')
     = (if csHoldingButton (sn s') =? NO_CAPSENSE_BUTTONS cfg
        then Z.min (csLastDownPolls (sn s) + 1) 255
        else csLastDownPolls (sn s)).
Proof.
  intros ch s' Hge Hp.
  pose proof (CapSenseISR_buttons cfg s) as Hb. unfold buttons in Hb.
  fold s' in Hb.
  assert (E1 : csButton (sn s') = csButton (sn (isr_after_button cfg s))) by congruence.
  assert (E2 : csHoldingButton (sn s')
               = csHoldingButton (sn (isr_after_button cfg s))) by congruence.
  assert (E3 : csLastDownPolls (sn s')
               = csLastDownPolls (sn (isr_after_button cfg s))) by congruence.
  rewrite E1, E2, E3. unfold isr_after_button.
  exact (isr_button_release cfg (isr_reading cfg s) (isr_threshold cfg s)
           (isr_store_reading (isr_reading cfg s) s) Hge Hp).
Qed.

Lemma release_clears_hold_witness :
  let s := with_hw (fun _ => timer_at 1000)
             (with_sn (set_csReadings [1000; 1000; 0; 0]) held_state) in
  buttons (snd (CapSenseISR two_button_cfg true s)) = (255, 255, 1).
Proof.
  cbv zeta.
  destruct (release_clears_hold two_button_cfg
              (with_hw (fun _ => timer_at 1000)
                 (with_sn (set_csReadings [1000; 1000; 0; 0]) held_state)))
    as (H1 & H2 & H3).
  - vm_compute. congruence.
  - vm_compute. split; congruence.
  - unfold buttons. rewrite H3, H2, H1. reflexivity.
Defined.

Lemma isr_button_polls cfg reading threshold s :
  0 <= csLastDownPolls (sn s) <= 255 ->
  0 <= csLastDownPolls (sn (isr_button cfg reading threshold s)) <= 255
  /\ csLastDownPolls (sn (isr_button cfg reading threshold s))
     <= csLastDownPolls (sn s) + 1.
Proof.
  intros Hp. unfold isr_button. cbv zeta.
  destruct (reading <? threshold).
  - destruct (press_guard cfg (sn s)); simpl; lia.
  - destruct (csHoldingButton (sn s) =? currentCapSenseChannel (sn s)); simpl.
    + rewrite Z.eqb_refl. simpl.
      destruct (Z.ltb_spec (csLastDownPolls (sn s)) 255); simpl;
        rewrite ?to_byte_small by lia; lia.
    + destruct (csHoldingButton (sn s) =? NO_CAPSENSE_BUTTONS cfg); simpl;
        [| lia].
      destruct (Z.ltb_spec (csLastDownPolls (sn s)) 255); simpl;
        rewrite ?to_byte_small by lia; lia.
Qed.

Lemma isr_polls_step cfg s :
  0 <= csLastDownPolls (sn s) <= 255 ->
  let s' := snd (CapSenseISR cfg true s) in
  0 <= csLastDownPolls (sn s') <= 255
  /\ csLastDownPolls (sn s') <= csLastDownPolls (sn s) + 1.
Proof.
  intros Hp s'.
  pose proof (CapSenseISR_buttons cfg s) as Hb. unfold buttons in Hb.
  fold s' in Hb.
  assert (E3 : csLastDownPolls (sn s')
               = csLastDownPolls (sn (isr_after_button cfg s))) by congruence.
  rewrite E3. unfold isr_after_button.
  exact (isr_button_polls cfg (isr_reading cfg s) (isr_threshold cfg s)
           (isr_store_reading (isr_reading cfg s) s) Hp).
Qed.

Lemma drive_polls_step cfg s e :
  0 <= csLastDownPolls (sn s) <= 255 ->
  0 <= csLastDownPolls (sn (drive cfg s e)) <= 255
  /\ csLastDownPolls (sn (drive cfg s e)) <= csLastDownPolls (sn s) + 1.
Proof.
  intros Hp. destruct e; cbn [drive].
  - unfold measure. rewrite CapSenseISRDone_sn.
    match goal with
    | |- context [CapSenseISR cfg true ?x] =>
        exact (isr_polls_step cfg x Hp)
    end.
  - simpl. lia.
  - simpl. lia.
  - pose proof (continue_calibrate_core cfg s) as E. unfold sensing_core in E.
    assert (csLastDownPolls (sn (snd (CapSenseContinueCalibrate cfg s)))
            = csLastDownPolls (sn s)) as -> by congruence.
    lia.
Qed.

Lemma run_polls cfg events : forall s,
  0 <= csLastDownPolls (sn s) <= 255 ->
  0 <= csLastDownPolls (sn (run cfg events s)) <= 255
  /\ csLastDownPolls (sn (run cfg events s))
     <= csLastDownPolls (sn s) + Z.of_nat (length events).
Proof.
  unfold run. induction events as [| e events IH]; intros s Hp; simpl fold_left.
  - simpl. lia.
  - destruct (drive_polls_step cfg s e Hp) as [Hr Hs].
    destruct (IH (drive cfg s e) Hr) as [Hr' Hs'].
    split; [exact Hr' |]. rewrite length_cons, Nat2Z.inj_succ. lia.
Qed.

(** X9. Debounce spacing.  Once the down-poll counter is at 0, as it is
    right after a press, no press is registered in any of the next
    DEBOUNCE_POLLS + 1 events, be they measurement cycles, takes of the
    pending button or calibration calls: a measurement cycle that comes after
    at most DEBOUNCE_POLLS such events leaves the pending button as it is and
    sets no held button. *)
Theorem no_press_within_debounce cfg (s : State) events count now :
  csLastDownPolls (sn s) = 0 ->
  Z.of_nat (length events) <= DEBOUNCE_POLLS cfg ->
  let s1 := run cfg events s in
  let s2 := measure cfg s1 (count, now) in
  csButton (sn s2) = csButton (sn s1)
  /\ (csHoldingButton (sn s2) = csHoldingButton (sn s1)
      \/ csHoldingButton (sn s2) = NO_CAPSENSE_BUTTONS cfg).
Proof.
  intros H0 Hlen s1 s2.
  destruct (run_polls cfg events s ltac:(lia)) as [_ Hp]. fold s1 in Hp.
  subst s2. unfold measure. rewrite CapSenseISRDone_sn.
  match goal with
  | |- context [CapSenseISR cfg true ?x] => set (s1' := x)
  end.
  pose proof (CapSenseISR_buttons cfg s1') as Hb. unfold buttons in Hb.
  assert (E1 : csButton (sn (snd (CapSenseISR cfg true s1')))
               = csButton (sn (isr_after_button cfg s1'))) by congruence.
  assert (E2 : csHoldingButton (sn (snd (CapSenseISR cfg true s1')))
               = csHoldingButton (sn (isr_after_button cfg s1'))) by congruence.
  rewrite E1, E2. unfold isr_after_button.
  destruct (isr_button_no_press cfg (isr_reading cfg s1') (isr_threshold cfg s1')
              (isr_store_reading (isr_reading cfg s1') s1')) as (Hb1 & _ & Hb2).
  - apply andb_false_iff. right. unfold press_guard.
    apply andb_false_iff. right. apply Z.ltb_ge. simpl. lia.
  - split; [exact Hb1 | exact Hb2].
Qed.

Lemma no_press_within_debounce_witness :
  let s1 := run unfiltered_cfg [Measure 1000 13; TakeButton; Measure 1000 13]
                (run_from_power_up touch_events) in
  let s2 := measure unfiltered_cfg s1 (900, 13) in
  csButton (sn s2) = csButton (sn s1)
  /\ (csHoldingButton (sn s2) = csHoldingButton (sn s1)
      \/ csHoldingButton (sn s2) = NO_CAPSENSE_BUTTONS unfiltered_cfg).
Proof.
  apply (no_press_within_debounce unfiltered_cfg
           (run_from_power_up touch_events)).
  - vm_compute. reflexivity.
  - vm_compute. congruence.
Defined.

(** ** The cadence of the bin rotation *)

Lemma isr_bin_clock cfg s :
  let s' := snd (CapSenseISR cfg true s) in
  (1 <= tick_diff (ticks s) (csLastBinTicks (sn s)) ->
     csLastBinTicks (sn s') = ticks s)
  /\ (tick_diff (ticks s) (csLastBinTicks (sn s)) < 1 ->
        csLastBinTicks (sn s') = csLastBinTicks (sn s)
        /\ csCurrentBin (sn s') = csCurrentBin (sn s)
        /\ csBaseline (sn s') = csBaseline (sn s)).
Proof.
  unfold CapSenseISR. cbv zeta. simpl snd.
  destruct (isr_front_frame cfg (isr_reading cfg s) (isr_threshold cfg s) s)
    as (_ & Et & _ & El & Ec & Eb). cbv zeta in Et, El, Ec, Eb.
  set (s1 := isr_cal_min _ _) in *.
  destruct (BumpCapSenseChannel_frame cfg (isr_rotate cfg s1))
    as (_ & _ & _ & -> & -> & ->).
  unfold isr_rotate, TICKS_PER_BIN_CHANGE. rewrite Et, El.
  destruct (Z.leb_spec 1 (tick_diff (ticks s) (csLastBinTicks (sn s)))).
  - split; [| lia]. intros _.
    destruct (BumpCapSenseBin_fields cfg s1) as (_ & _ & _ & _ & -> & _).
    exact Et.
  - split; [lia |]. intros _. by repeat split.
Qed.

(** X10. The bins rotate at most once per tick.  After a measurement cycle
    the tick of the last rotation is the current tick, and a further cycle
    in the same tick rotates nothing: the bin index and the baselines stay
    as they are. *)
Theorem bins_rotate_once_per_tick cfg (s : State) c1 c2 now :
  0 <= csLastBinTicks (sn s) < 256 ->
  let s1 := measure cfg s (c1, now) in
  let s2 := measure cfg s1 (c2, now) in
  csLastBinTicks (sn s1) = to_byte now
  /\ csCurrentBin (sn s2) = csCurrentBin (sn s1)
  /\ csBaseline (sn s2) = csBaseline (sn s1).
Proof.
  intros Hl s1 s2.
  assert (E1 : csLastBinTicks (sn s1) = to_byte now).
  { subst s1. unfold measure. rewrite CapSenseISRDone_sn.
    match goal with
    | |- context [CapSenseISR cfg true ?x] =>
        destruct (isr_bin_clock cfg x) as [Hrot Hno]
    end.
    cbv zeta in Hrot, Hno. cbn [ticks sn] in Hrot, Hno.
    destruct (Z.lt_ge_cases (tick_diff (to_byte now) (csLastBinTicks (sn s))) 1)
      as [Hlt | Hge].
    - destruct (Hno Hlt) as (-> & _).
      unfold tick_diff, to_byte in *.
      pose proof (Z.mod_pos_bound now 256 ltac:(lia)).
      pose proof (Z.mod_pos_bound (now mod 256 - csLastBinTicks (sn s)) 256
                    ltac:(lia)).
      assert (Hz : (now mod 256 - csLastBinTicks (sn s)) mod 256 = 0) by lia.
      apply Z.mod_divide in Hz; [| lia]. destruct Hz as [q Hq]. lia.
    - exact (Hrot Hge). }
  split; [exact E1 |].
  subst s2. clearbody s1. unfold measure. rewrite !CapSenseISRDone_sn.
  match goal with
  | |- context [CapSenseISR cfg true ?x] =>
      destruct (isr_bin_clock cfg x) as [_ Hno]
  end.
  cbv zeta in Hno. cbn [ticks sn] in Hno.
  destruct Hno as (_ & Hc & Hb); [| by split].
  rewrite E1. unfold tick_diff. rewrite Z.sub_diag. vm_compute. reflexivity.
Qed.

Lemma bins_rotate_once_per_tick_witness :
  let s1 := measure two_button_cfg touch_state (900, 11) in
  let s2 := measure two_button_cfg s1 (900, 11) in
  csLastBinTicks (sn s1) = to_byte 11
  /\ csCurrentBin (sn s2) = csCurrentBin (sn s1)
  /\ csBaseline (sn s2) = csBaseline (sn s1).
Proof.
  apply (bins_rotate_once_per_tick two_button_cfg touch_state).
  vm_compute. split; congruence.
Defined.

(** ** What a rotation leaves alone *)

Lemma aget2_aset2_other_col (m : list (list Z)) i j v i' j' :
  Z.to_nat j <> Z.to_nat j' ->
  aget2 (aset2 m i j v) i' j' = aget2 m i' j'.
Proof.
  intros Hj. unfold aget2, aset2.
  destruct (m !! Z.to_nat i) as [row |] eqn:E; [| reflexivity].
  destruct (decide (Z.to_nat i = Z.to_nat i')) as [Ei | Ei].
  - rewrite <- Ei, list_lookup_insert_eq by (by eapply lookup_lt_Some).
    rewrite E. simpl. by apply aget_aset_ne.
  - by rewrite list_lookup_insert_ne.
Qed.

Lemma reset_stmt_other_col cfg s n m c j :
  Z.to_nat (next_bin cfg (csCurrentBin (sn s))) <> Z.to_nat j ->
  aget2 (reset_stmt cfg s n m) c j = aget2 m c j.
Proof.
  intros H. unfold reset_stmt.
  destruct (channel_compiled cfg n); [by apply aget2_aset2_other_col | done].
Qed.

Lemma baseline_stmt_off cfg s n l :
  channel_compiled cfg n = false -> baseline_stmt cfg s n l = l.
Proof. intros H. unfold baseline_stmt. by rewrite H. Qed.

Lemma reset_stmt_off cfg s n m :
  channel_compiled cfg n = false -> reset_stmt cfg s n m = m.
Proof. intros H. unfold reset_stmt. by rewrite H. Qed.

(** X11. A rotation touches nothing but the new current bin of the channels
    compiled in and their baselines: it keeps all readings, it keeps every
    bin other than the new current one, and for a channel that is compiled
    out (or beyond channel 3) it keeps the baseline and all bins. *)
Theorem rotation_leaves_rest_alone cfg (s : State) (c : Z) :
  0 <= c ->
  let s' := BumpCapSenseBin cfg s in
  csReadings (sn s') = csReadings (sn s)
  /\ (forall j, Z.to_nat j <> Z.to_nat (csCurrentBin (sn s')) ->
        aget2 (csBin (sn s')) c j = aget2 (csBin (sn s)) c j)
  /\ (channel_compiled cfg c = false \/ 3 < c ->
        GetBaseline c s' = GetBaseline c s /\ bins_of s' c = bins_of s c).
Proof.
  intros Hc s'.
  destruct (BumpCapSenseBin_fields cfg s) as (Ecur & Ebl & Ebin & _ & _ & Er).
  fold s' in Ecur, Ebl, Ebin, Er.
  split; [exact Er |]. split.
  - intros j Hj. rewrite Ecur in Hj. rewrite Ebin.
    rewrite !reset_stmt_other_col by congruence. reflexivity.
  - intros Hoff. unfold GetBaseline, bins_of. rewrite Ebl, Ebin.
    destruct (Z.lt_ge_cases 3 c) as [Hbig | Hsmall].
    + rewrite !baseline_stmt_other by lia.
      rewrite !reset_stmt_other by lia. by split.
    + destruct Hoff as [Hoff | Hoff]; [| lia].
      assert (c = 0 \/ c = 1 \/ c = 2 \/ c = 3) as [-> | [-> | [-> | ->]]] by lia;
        repeat first
          [ rewrite (baseline_stmt_off cfg s _ _ Hoff)
          | rewrite (reset_stmt_off cfg s _ _ Hoff)
          | rewrite baseline_stmt_other by (simpl; lia)
          | rewrite reset_stmt_other by (simpl; lia) ];
        by split.
Qed.

Lemma rotation_leaves_rest_alone_witness :
  let s' := BumpCapSenseBin two_button_cfg settled_low_state in
  csReadings (sn s') = csReadings (sn settled_low_state)
  /\ (forall j, Z.to_nat j <> Z.to_nat (csCurrentBin (sn s')) ->
        aget2 (csBin (sn s')) 2 j = aget2 (csBin (sn settled_low_state)) 2 j)
  /\ (channel_compiled two_button_cfg 2 = false \/ 3 < 2 ->
        GetBaseline 2 s' = GetBaseline 2 settled_low_state
        /\ bins_of s' 2 = bins_of settled_low_state 2).
Proof.
  apply (rotation_leaves_rest_alone two_button_cfg settled_low_state 2). lia.
Defined.

(** ** The running minimum during a press window *)

Lemma isr_front_channel cfg reading threshold s :
  currentCapSenseChannel
    (sn (isr_bin_max cfg reading
           (isr_button cfg reading threshold (isr_store_reading reading s))))
  = currentCapSenseChannel (sn s).
Proof.
  unfold isr_bin_max, isr_button, isr_store_reading. cbv zeta.
  break_ifs; reflexivity.
Qed.

Lemma accumulateMin_is_min a v : accumulateMin a v = Z.min a v.
Proof. unfold accumulateMin. destruct (Z.ltb_spec v a); lia. Qed.

(** X12. While the calibration is in a press window
    (acPressAndReleaseButton), a measurement cycle lowers the stored minimum
    of the scanned channel to the new filtered reading if that is smaller,
    and leaves the minima of the other channels as they are. *)
Theorem press_window_tracks_minimum cfg (s : State) :
  let ch := currentCapSenseChannel (sn s) in
  let s' := snd (CapSenseISR cfg true s) in
  csAutoCalibrateState (cal s) = acPressAndReleaseButton ->
  (Z.to_nat ch < length (csMin (sn s)))%nat ->
  aget (csMin (sn s')) ch = Z.min (aget (csMin (sn s)) ch) (isr_reading cfg s)
  /\ forall k, Z.to_nat k <> Z.to_nat ch ->
       aget (csMin (sn s')) k = aget (csMin (sn s)) k.
Proof.
  intros ch s' Hst Hlen. subst s'. unfold CapSenseISR. cbv zeta. simpl snd.
  rewrite BumpCapSenseChannel_csMin.
  assert (Erot : forall x, csMin (sn (isr_rotate cfg x)) = csMin (sn x)).
  { intros x. unfold isr_rotate.
    destruct (_ <=? _); [apply BumpCapSenseBin_csMin | reflexivity]. }
  rewrite Erot.
  destruct (isr_front_cal_csMin cfg (isr_reading cfg s) (isr_threshold cfg s) s)
    as [Ecal Emin]. cbv zeta in Ecal, Emin.
  pose proof (isr_front_channel cfg (isr_reading cfg s) (isr_threshold cfg s) s)
    as Ech.
  set (s1 := isr_bin_max _ _ _) in *.
  unfold isr_cal_min. rewrite Ecal, Hst. cbn [ac_eqb with_sn sn set_csMin csMin].
  rewrite Emin, Ech. fold ch. rewrite accumulateMin_is_min.
  split.
  - by apply aget_aset_eq.
  - intros k Hk. apply aget_aset_ne. congruence.
Qed.

Lemma press_window_tracks_minimum_witness :
  let s := with_cal (set_csAutoCalibrateState acPressAndReleaseButton)
             idle_window_state in
  aget (csMin (sn (snd (CapSenseISR two_button_cfg true s)))) 0
  = Z.min 65535 (isr_reading two_button_cfg s).
Proof.
  apply (press_window_tracks_minimum two_button_cfg
           (with_cal (set_csAutoCalibrateState acPressAndReleaseButton)
              idle_window_state)).
  - reflexivity.
  - simpl. lia.
Defined.

(** ** Filter and loops *)

(** X13. With FILTER_LENGTH 1 the filter passes the raw count through:
    whatever the previous reading, the new reading is the raw count. *)
Theorem unit_filter_is_identity cfg r raw :
  FILTER_LENGTH cfg = 1 -> 0 <= raw < 65536 ->
  filter_step cfg r raw = raw.
Proof.
  intros HF Hraw. unfold filter_step, to_reading. rewrite HF, Z.quot_1_r.
  rewrite Zplus_mod_idemp_r. replace (r + (raw - r)) with raw by lia.
  apply Z.mod_small. exact Hraw.
Qed.

Lemma unit_filter_is_identity_witness : filter_step unfiltered_cfg 1000 900 = 900.
Proof. apply unit_filter_is_identity; [reflexivity | lia]. Defined.

Lemma skip_inactive_loop_spec cfg fuel : forall b,
  0 <= b -> LAST_CAPSENSE_CHANNEL cfg < 255 ->
  LAST_CAPSENSE_CHANNEL cfg + 1 - b <= Z.of_nat fuel ->
  let b' := skip_inactive_loop cfg fuel b in
  b <= b'
  /\ (IsChannelUsed cfg b' <> 0 \/ LAST_CAPSENSE_CHANNEL cfg < b')
  /\ (forall k, b <= k < b' ->
        IsChannelUsed cfg k = 0 /\ k <= LAST_CAPSENSE_CHANNEL cfg).
Proof.
  induction fuel as [| fuel IH]; intros b Hb Hlast Hen; simpl.
  - split; [lia |]. split; [right; lia |]. intros k Hk. lia.
  - destruct (Z.eqb_spec (IsChannelUsed cfg b) 0) as [E | E]; simpl.
    + destruct (Z.leb_spec b (LAST_CAPSENSE_CHANNEL cfg)) as [Hle | Hgt].
      * rewrite (to_byte_small (b + 1)) by lia.
        destruct (IH (b + 1)) as (Hmono & Hexit & Hskip); [lia | lia | lia |].
        cbv zeta in *. split; [lia |]. split; [exact Hexit |].
        intros k Hk. destruct (Z.eq_dec k b) as [-> | Hne]; [by split |].
        apply Hskip. lia.
      * split; [lia |]. split; [right; lia |]. intros k Hk. lia.
    + split; [lia |]. split; [by left |]. intros k Hk. lia.
Qed.

(** X14. The loop that skips inactive channels during calibration always
    ends, on the first channel from the starting one on that is in use, or
    one past LAST_CAPSENSE_CHANNEL when there is none: every channel it has
    passed is unused and not beyond LAST_CAPSENSE_CHANNEL. *)
Theorem skip_inactive_finds_next_used cfg b :
  0 <= b -> LAST_CAPSENSE_CHANNEL cfg < 255 ->
  let b' := skip_inactive cfg b in
  b <= b'
  /\ (IsChannelUsed cfg b' <> 0 \/ LAST_CAPSENSE_CHANNEL cfg < b')
  /\ (forall k, b <= k < b' ->
        IsChannelUsed cfg k = 0 /\ k <= LAST_CAPSENSE_CHANNEL cfg).
Proof.
  intros Hb Hlast. unfold skip_inactive.
  apply skip_inactive_loop_spec; lia.
Qed.

Lemma skip_inactive_finds_next_used_witness :
  let b' := skip_inactive two_button_cfg 2 in
  2 <= b'
  /\ (IsChannelUsed two_button_cfg b' <> 0 \/ 1 < b')
  /\ (forall k, 2 <= k < b' -> IsChannelUsed two_button_cfg k = 0 /\ k <= 1).
Proof.
  apply (skip_inactive_finds_next_used two_button_cfg 2); [lia |].
  vm_compute. reflexivity.
Defined.

(** ** The first measurement cycle after power-up *)

Lemma aget_replicate_zero n i : aget (replicate n 0) i = 0.
Proof.
  unfold aget. destruct (replicate n 0 !! Z.to_nat i) as [x |] eqn:E;
    [| reflexivity].
  apply lookup_replicate in E as [-> _]. reflexivity.
Qed.

Lemma isr_button_from_rest cfg reading threshold s :
  buttons s = (NO_CAPSENSE_BUTTONS cfg, NO_CAPSENSE_BUTTONS cfg, 255) ->
  DEBOUNCE_POLLS cfg < 255 ->
  buttons (isr_button cfg reading threshold s)
  = if reading <? threshold
    then (currentCapSenseChannel (sn s), currentCapSenseChannel (sn s), 0)
    else (NO_CAPSENSE_BUTTONS cfg, NO_CAPSENSE_BUTTONS cfg, 255).
Proof.
  unfold buttons. intros [= Hb Hh Hp] Hd. unfold isr_button, press_guard.
  rewrite Hb, Hh, Hp, Z.eqb_refl.
  destruct (Z.ltb_spec (DEBOUNCE_POLLS cfg) 255); [| lia].
  destruct (reading <? threshold); [reflexivity |].
  destruct (NO_CAPSENSE_BUTTONS cfg =? currentCapSenseChannel (sn s));
    cbn [sn with_sn csHoldingButton set_csHoldingButton csLastDownPolls];
    rewrite ?Hh, ?Hp, Z.eqb_refl; change (255 <? 255) with false;
    cbn [andb sn with_sn csButton csHoldingButton csLastDownPolls
         set_csHoldingButton];
    by rewrite ?Hb, ?Hh, ?Hp.
Qed.

(** X15. Power-up.  InitCapSense zeroes the baselines, so no stored
    sensitivity counts in the first measurement cycle: whatever the globals
    and the stored thresholds were, the cycle registers a press, of
    FIRST_CAPSENSE_CHANNEL, exactly when the count divided by FILTER_LENGTH is
    below CS_MIN_THRESHOLD, and otherwise leaves no button pending or held
    and the down-poll counter at 255. *)
Theorem first_cycle_after_init cfg stored (s0 : State) count now :
  0 <= count < 65536 -> 0 < FILTER_LENGTH cfg ->
  0 <= CS_MIN_THRESHOLD cfg < 65536 -> DEBOUNCE_POLLS cfg < 255 ->
  buttons (measure cfg (InitCapSense cfg stored s0) (count, now))
  = if count ÷ FILTER_LENGTH cfg <? CS_MIN_THRESHOLD cfg
    then (FIRST_CAPSENSE_CHANNEL cfg, FIRST_CAPSENSE_CHANNEL cfg, 0)
    else (NO_CAPSENSE_BUTTONS cfg, NO_CAPSENSE_BUTTONS cfg, 255).
Proof.
  intros Hcount Hfl Hmin Hdeb. unfold measure.
  set (s1 := {| hw := _; sn := sn (InitCapSense cfg stored s0);
                cal := _; ticks := _ |}).
  assert (Eb : buttons (CapSenseISRDone (snd (CapSenseISR cfg true s1)))
               = buttons (snd (CapSenseISR cfg true s1))).
  { unfold buttons. by rewrite CapSenseISRDone_sn. }
  rewrite Eb, CapSenseISR_buttons. unfold isr_after_button.
  assert (Eraw : read_tmr1 (hw s1) = count).
  { unfold read_tmr1. cbn [s1 hw tmr1h tmr1l set_tmr1l set_tmr1h].
    rewrite tmr1_halves.
    - pose proof (Z.div_mod count 256). lia.
    - apply Z.mod_pos_bound. lia.
    - split; [apply Z.div_pos; lia | apply Z.div_lt_upper_bound; lia]. }
  assert (Equot : 0 <= count ÷ FILTER_LENGTH cfg <= count).
  { rewrite Z.quot_div_nonneg by lia.
    split; [apply Z.div_pos; lia |].
    apply Z.div_le_upper_bound; nia. }
  assert (Er : isr_reading cfg s1 = count ÷ FILTER_LENGTH cfg).
  { unfold isr_reading. rewrite Eraw.
    change (csReadings (sn s1))
      with (replicate (Z.to_nat (MAX_CAPSENSE_CHANNELS cfg)) 0).
    rewrite aget_replicate_zero. unfold filter_step.
    rewrite Z.sub_0_r, Z.add_0_l, (to_reading_small count) by lia.
    apply to_reading_small. lia. }
  assert (Et : isr_threshold cfg s1 = CS_MIN_THRESHOLD cfg).
  { unfold isr_threshold, press_threshold.
    change (csBaseline (sn s1))
      with (replicate (Z.to_nat (MAX_CAPSENSE_CHANNELS cfg)) 0).
    rewrite aget_replicate_zero. cbv zeta.
    match goal with
    | |- context [to_byte ?x <? 0] =>
        pose proof (to_byte_range x);
        destruct (Z.ltb_spec (to_byte x) 0); [lia |]
    end.
    apply to_reading_small. lia. }
  rewrite Er, Et.
  rewrite isr_button_from_rest by (reflexivity || exact Hdeb).
  reflexivity.
Qed.

Lemma first_cycle_after_init_witness :
  buttons (measure two_button_cfg
             (InitCapSense two_button_cfg [38; 20; 0; 0] (zeroed 10)) (1000, 10))
  = (255, 255, 255).
Proof.
  apply (first_cycle_after_init two_button_cfg [38; 20; 0; 0] (zeroed 10) 1000 10);
    vm_compute; try split; congruence.
Defined.

(** ** The calibration protocol, phase by phase *)

(** X16. Polling early does nothing.  In a waiting phase (acPressNothing or
    acPressAndReleaseButton), as long as no more than SETTLE_TICKS ticks have
    passed since the phase was entered, CapSenseContinueCalibrate reports
    that calibration is still running and changes nothing but the pending
    button, which it empties. *)
Theorem calibration_waits_for_settle cfg (s : State) :
  csAutoCalibrateState (cal s) = acPressNothing
  \/ csAutoCalibrateState (cal s) = acPressAndReleaseButton ->
  tick_diff (ticks s) (ticksStateStart (cal s)) <= SETTLE_TICKS cfg ->
  CapSenseContinueCalibrate cfg s = (true, snd (GetCapSenseButton cfg s)).
Proof.
  intros Hst Hwait. unfold CapSenseContinueCalibrate. cbv zeta.
  set (s0 := snd (GetCapSenseButton cfg s)).
  assert (E : cal_transition cfg s0 = s0).
  { unfold cal_transition.
    change (cal s0) with (cal s). change (ticks s0) with (ticks s).
    destruct (Z.ltb_spec (SETTLE_TICKS cfg)
                (tick_diff (ticks s) (ticksStateStart (cal s)))); [lia |].
    destruct Hst as [-> | ->]; reflexivity. }
  rewrite E. change (cal s0) with (cal s).
  destruct Hst as [-> | ->]; reflexivity.
Qed.

Lemma calibration_waits_for_settle_witness :
  CapSenseContinueCalibrate two_button_cfg idle_window_state
  = (true, snd (GetCapSenseButton two_button_cfg idle_window_state)).
Proof.
  apply calibration_waits_for_settle.
  - left. reflexivity.
  - vm_compute. congruence.
Defined.

Lemma InitReadingArray_full (l : list Z) n v :
  length l = n -> InitReadingArray l n v = replicate n v.
Proof.
  intros <-. unfold InitReadingArray.
  rewrite Nat.min_id, drop_all. apply app_nil_r.
Qed.

Lemma InitReadingRows_all k v (rows : list (list Z)) : forall count,
  Forall (fun row => length row = k) rows ->
  (k * length rows <= count)%nat ->
  InitReadingRows rows count v = replicate (length rows) (replicate k v).
Proof.
  induction rows as [| row rows IH]; intros count Hrows Hcount; simpl;
    [reflexivity |].
  apply Forall_cons in Hrows as [Hrow Hrows]. simpl in Hcount.
  rewrite IH by (try assumption; lia). f_equal.
  unfold InitReadingArray. rewrite Hrow.
  rewrite Nat.min_r by lia. rewrite drop_ge by lia. apply app_nil_r.
Qed.

Lemma InitReadingRows_full k v (rows : list (list Z)) n count :
  length rows = n ->
  Forall (fun row => length row = k) rows ->
  (k * n <= count)%nat ->
  InitReadingRows rows count v = replicate n (replicate k v).
Proof. intros <- Hrows Hcount. by apply InitReadingRows_all. Qed.

(** X17. The first call after CapSenseStartCalibrate resets the calibration:
    the target is FIRST_CAPSENSE_CHANNEL, the pass counter is 0, all three
    excursion accumulators are zero in every entry, and the protocol is in
    its idle window (acPressNothing), entered at the current tick; the call
    reports that calibration is running. *)
Theorem calibration_start_resets cfg (s : State) :
  let n := Z.to_nat (MAX_CAPSENSE_CHANNELS cfg) in
  length (csMaxWaiting (cal s)) = n ->
  length (csMaxOthers (cal s)) = n ->
  length (csMaxHolding (cal s)) = n ->
  Forall (fun row => length row = 3%nat) (csMaxHolding (cal s)) ->
  let r := CapSenseContinueCalibrate cfg (CapSenseStartCalibrate s) in
  fst r = true
  /\ csAutoCalibrateState (cal (snd r)) = acPressNothing
  /\ csCalButton (cal (snd r)) = FIRST_CAPSENSE_CHANNEL cfg
  /\ timesThruButtons (cal (snd r)) = 0
  /\ ticksStateStart (cal (snd r)) = ticks s
  /\ csMaxWaiting (cal (snd r)) = replicate n 0
  /\ csMaxOthers (cal (snd r)) = replicate n 0
  /\ csMaxHolding (cal (snd r)) = replicate n (replicate 3 0).
Proof.
  intros n Hw Ho Hh Hrows. cbv zeta.
  unfold CapSenseContinueCalibrate, CapSenseStartCalibrate. cbv zeta.
  set (s1 := snd (GetCapSenseButton cfg (EnterState acStart s))).
  assert (E : cal_transition cfg s1 =
    {| hw := hw s1; sn := sn s1;
       cal := {| csAutoCalibrateState := acPressNothing;
                 csCalButton := FIRST_CAPSENSE_CHANNEL cfg;
                 csResults := csResults (cal s);
                 ticksStateStart := ticks s;
                 timesThruButtons := 0;
                 csMaxWaiting := replicate n 0;
                 csMaxHolding := replicate n (replicate 3 0);
                 csMaxOthers := replicate n 0 |};
       ticks := ticks s1 |}).
  { unfold cal_transition.
    change (csAutoCalibrateState (cal s1)) with acStart. cbv iota zeta.
    unfold with_cal, EnterState, with_cal. cbv beta.
    cbn [cal hw sn ticks set_csCalButton set_timesThruButtons set_csMaxWaiting
         set_csMaxHolding set_csMaxOthers set_csAutoCalibrateState
         set_ticksStateStart csAutoCalibrateState csCalButton csResults
         ticksStateStart timesThruButtons csMaxWaiting csMaxHolding csMaxOthers].
    fold n.
    rewrite (InitReadingArray_full (csMaxWaiting (cal s1)) n 0) by exact Hw.
    rewrite (InitReadingArray_full (csMaxOthers (cal s1)) n 0) by exact Ho.
    rewrite (InitReadingRows_full 3 0 (csMaxHolding (cal s1)) n)
      by (try exact Hh; try exact Hrows; unfold TIMES_THRU_BUTTONS; fold n; lia).
    reflexivity. }
  rewrite E. cbn. repeat split.
Qed.

Lemma calibration_start_resets_witness :
  let r := CapSenseContinueCalibrate two_button_cfg
             (CapSenseStartCalibrate idle_window_state) in
  csAutoCalibrateState (cal (snd r)) = acPressNothing
  /\ csMaxWaiting (cal (snd r)) = [0; 0; 0; 0]
  /\ csMaxHolding (cal (snd r)) = [[0; 0; 0]; [0; 0; 0]; [0; 0; 0]; [0; 0; 0]].
Proof.
  destruct (calibration_start_resets two_button_cfg idle_window_state)
    as (_ & H1 & _ & _ & _ & H2 & _ & H3); try reflexivity.
  - repeat constructor.
  - cbv zeta. rewrite H1, H2, H3. repeat split.
Defined.

Lemma excursion_sn s s' ch : sn s' = sn s -> excursion s' ch = excursion s ch.
Proof. intros E. unfold excursion. by rewrite E. Qed.

(** The loop of the idle window, channel by channel. *)
Lemma fold_idle_spec l : forall s,
  NoDup l -> (forall x, x ∈ l -> 0 <= x) ->
  let s' := fold_left fold_idle l s in
  (sn s' = sn s /\ hw s' = hw s /\ ticks s' = ticks s
   /\ csAutoCalibrateState (cal s') = csAutoCalibrateState (cal s)
   /\ csCalButton (cal s') = csCalButton (cal s)
   /\ timesThruButtons (cal s') = timesThruButtons (cal s)
   /\ ticksStateStart (cal s') = ticksStateStart (cal s)
   /\ csMaxHolding (cal s') = csMaxHolding (cal s)
   /\ csMaxOthers (cal s') = csMaxOthers (cal s)
   /\ csResults (cal s') = csResults (cal s)
   /\ length (csMaxWaiting (cal s')) = length (csMaxWaiting (cal s)))
  /\ forall ch, 0 <= ch ->
       (ch ∈ l -> (Z.to_nat ch < length (csMaxWaiting (cal s)))%nat ->
          aget (csMaxWaiting (cal s')) ch
          = Z.max (aget (csMaxWaiting (cal s)) ch) (excursion s ch))
       /\ (ch ∉ l ->
             aget (csMaxWaiting (cal s')) ch = aget (csMaxWaiting (cal s)) ch).
Proof.
  induction l as [| x l IH]; intros s Hnd Hpos; simpl.
  - split; [repeat split |]. intros ch Hch. split; [| done].
    intros Hin. by apply elem_of_nil in Hin.
  - apply NoDup_cons in Hnd as [Hx Hnd].
    assert (Hpos' : forall y, y ∈ l -> 0 <= y) by (intros y Hy; apply Hpos; by right).
    assert (Hx0 : 0 <= x) by (apply Hpos; by left).
    destruct (IH (fold_idle s x) Hnd Hpos') as [Hframe Hat]. cbv zeta in *.
    destruct Hframe as (-> & -> & -> & -> & -> & -> & -> & -> & -> & -> & Hlen).
    split.
    { repeat split. rewrite Hlen. simpl. apply aset_length. }
    intros ch Hch. destruct (Hat ch Hch) as [Hin Hout]. split.
    + intros Hmem Hidx. apply elem_of_cons in Hmem as [-> | Hmem].
      * rewrite (Hout Hx). simpl. rewrite aget_aset_eq by exact Hidx.
        apply accumulateMax_is_max.
      * assert (ch <> x) by (intros ->; contradiction).
        rewrite (Hin Hmem) by (simpl; by rewrite aset_length).
        simpl. rewrite aget_aset_ne by lia. reflexivity.
    + intros Hnot. apply not_elem_of_cons in Hnot as [Hne Hnot].
      rewrite (Hout Hnot). simpl. apply aget_aset_ne. lia.
Qed.

Lemma cal_done_stats cfg s : stats (cal (cal_done cfg s)) = stats (cal s).
Proof.
  unfold cal_done. cbv zeta.
  set (s0 := with_cal (set_csCalButton (FIRST_CAPSENSE_CHANNEL cfg)) s).
  destruct (done_loop_frame cfg (channel_range cfg) s0) as (Hst & _).
  cbv zeta in Hst.
  remember (fold_left (done_step cfg) (channel_range cfg) s0) as s1.
  clear Heqs1.
  destruct (channel_range cfg); exact Hst.
Qed.

Lemma channel_range_wf cfg :
  0 <= FIRST_CAPSENSE_CHANNEL cfg ->
  NoDup (channel_range cfg) /\ forall x, x ∈ channel_range cfg -> 0 <= x.
Proof.
  intros H. split; [apply NoDup_seqZ |].
  intros x Hx. apply channel_range_elem in Hx. lia.
Qed.

(** X18. The end of an idle window.  When more than SETTLE_TICKS ticks have
    passed in acPressNothing, the call raises the idle accumulator of every
    channel from FIRST_CAPSENSE_CHANNEL to LAST_CAPSENSE_CHANNEL to the
    excursion csBaseline - csMin (in 16 bits) if that is larger, and leaves
    the idle accumulators of all other channels alone.  With the pass counter
    at 0 the protocol goes on to the press windows, with the same target
    channel, entered at the current tick, and the call reports that
    calibration is running; with any other pass counter it goes to acDone
    and the call reports completion. *)
Theorem idle_window_expiry cfg (s : State) :
  csAutoCalibrateState (cal s) = acPressNothing ->
  SETTLE_TICKS cfg < tick_diff (ticks s) (ticksStateStart (cal s)) ->
  0 <= FIRST_CAPSENSE_CHANNEL cfg ->
  let r := CapSenseContinueCalibrate cfg s in
  (forall ch, 0 <= ch ->
     (FIRST_CAPSENSE_CHANNEL cfg <= ch <= LAST_CAPSENSE_CHANNEL cfg ->
      (Z.to_nat ch < length (csMaxWaiting (cal s)))%nat ->
      aget (csMaxWaiting (cal (snd r))) ch
      = Z.max (aget (csMaxWaiting (cal s)) ch) (excursion s ch))
     /\ (ch < FIRST_CAPSENSE_CHANNEL cfg \/ LAST_CAPSENSE_CHANNEL cfg < ch ->
         aget (csMaxWaiting (cal (snd r))) ch = aget (csMaxWaiting (cal s)) ch))
  /\ (timesThruButtons (cal s) = 0 ->
        fst r = true
        /\ csAutoCalibrateState (cal (snd r)) = acPressAndReleaseButton
        /\ csCalButton (cal (snd r)) = csCalButton (cal s)
        /\ ticksStateStart (cal (snd r)) = ticks s)
  /\ (timesThruButtons (cal s) <> 0 ->
        fst r = false /\ csAutoCalibrateState (cal (snd r)) = acDone).
Proof.
  intros Hst Hexp Hfirst. cbv zeta.
  unfold CapSenseContinueCalibrate. cbv zeta.
  set (s0 := snd (GetCapSenseButton cfg s)).
  assert (Hst0 : csAutoCalibrateState (cal s0) = acPressNothing) by exact Hst.
  destruct (channel_range_wf cfg Hfirst) as [Hnd Hpos].
  destruct (fold_idle_spec (channel_range cfg) s0 Hnd Hpos) as [Hframe Hat].
  cbv zeta in Hframe, Hat.
  destruct Hframe as (Esn & Ehw & Et & Est & Eb & Ett & Ets & _ & _ & _ & _).
  set (s1 := fold_left fold_idle (channel_range cfg) s0) in *.
  assert (Hw : forall ch, 0 <= ch ->
     (FIRST_CAPSENSE_CHANNEL cfg <= ch <= LAST_CAPSENSE_CHANNEL cfg ->
      (Z.to_nat ch < length (csMaxWaiting (cal s)))%nat ->
      aget (csMaxWaiting (cal s1)) ch
      = Z.max (aget (csMaxWaiting (cal s)) ch) (excursion s ch))
     /\ (ch < FIRST_CAPSENSE_CHANNEL cfg \/ LAST_CAPSENSE_CHANNEL cfg < ch ->
         aget (csMaxWaiting (cal s1)) ch = aget (csMaxWaiting (cal s)) ch)).
  { intros ch Hch. destruct (Hat ch Hch) as [Hin Hout]. split.
    - intros Hr Hidx. apply Hin; [by apply channel_range_elem | exact Hidx].
    - intros Hr. apply Hout. rewrite channel_range_elem. lia. }
  assert (Etr : cal_transition cfg s0 =
            if timesThruButtons (cal s) =? 0
            then EnterState acPressAndReleaseButton s1
            else EnterState acDone s1).
  { unfold cal_transition. rewrite Hst0.
    change (ticks s0) with (ticks s). change (cal s0) with (cal s) at 1.
    destruct (Z.ltb_spec (SETTLE_TICKS cfg)
                (tick_diff (ticks s) (ticksStateStart (cal s)))); [| lia].
    cbv zeta. fold s1. rewrite Ett. reflexivity. }
  rewrite Etr.
  destruct (Z.eqb_spec (timesThruButtons (cal s)) 0) as [E0 | E0].
  - cbn [EnterState with_cal cal csAutoCalibrateState set_csAutoCalibrateState
         set_ticksStateStart ac_eqb fst snd csMaxWaiting csCalButton
         ticksStateStart ticks].
    split; [exact Hw |]. split; [| intros Hc; contradiction].
    intros _. rewrite Eb, Et. repeat split.
  - cbn [EnterState with_cal cal csAutoCalibrateState set_csAutoCalibrateState
         set_ticksStateStart ac_eqb fst snd].
    split; [| split; [intros Hc; contradiction |]].
    + intros ch Hch.
      match goal with
      | |- context [cal_done cfg ?x] =>
          pose proof (cal_done_stats cfg x) as Hs
      end.
      unfold stats in Hs. injection Hs as Hs _ _. rewrite Hs. exact (Hw ch Hch).
    + intros _. split; [reflexivity |].
      match goal with
      | |- csAutoCalibrateState (cal (cal_done cfg ?x)) = _ =>
          destruct (cal_done_core cfg x) as (_ & _ & _ & -> & _)
      end.
      reflexivity.
Qed.

Lemma idle_window_expiry_witness :
  let s := {| hw := hw idle_window_state; sn := sn idle_window_state;
              cal := cal idle_window_state; ticks := 14 |} in
  let r := CapSenseContinueCalibrate two_button_cfg s in
  fst r = false /\ csAutoCalibrateState (cal (snd r)) = acDone.
Proof.
  intros s.
  destruct (idle_window_expiry two_button_cfg s) as (_ & _ & H); try reflexivity.
  apply H. vm_compute. congruence.
Defined.

(** Reduction of field reads over field updates only. *)
Ltac read_fields :=
  cbn [with_hw with_sn with_cal EnterState hw sn cal ticks fst snd ac_eqb
       csReadings currentCapSenseChannel csBaseline csMin csDownInBin
       csLastBinTicks csLastButtonTicks csLastDownPolls csHoldingButton
       csButton csCurrentBin csBin csThresholds
       set_csReadings set_currentCapSenseChannel set_csBaseline set_csMin
       set_csDownInBin set_csLastBinTicks set_csLastButtonTicks
       set_csLastDownPolls set_csHoldingButton set_csButton set_csCurrentBin
       set_csBin set_csThresholds
       csAutoCalibrateState csCalButton csResults ticksStateStart
       timesThruButtons csMaxWaiting csMaxHolding csMaxOthers
       set_csAutoCalibrateState set_csCalButton set_csResults
       set_ticksStateStart set_timesThruButtons set_csMaxWaiting
       set_csMaxHolding set_csMaxOthers].

(** The loop of a press window, channel by channel. *)
Lemma fold_press_spec l : forall s,
  NoDup l -> (forall x, x ∈ l -> 0 <= x) -> 0 <= csCalButton (cal s) ->
  let b := csCalButton (cal s) in
  let t := timesThruButtons (cal s) in
  let s' := fold_left fold_press l s in
  (sn s' = sn s /\ hw s' = hw s /\ ticks s' = ticks s
   /\ csAutoCalibrateState (cal s') = csAutoCalibrateState (cal s)
   /\ csCalButton (cal s') = b
   /\ timesThruButtons (cal s') = t
   /\ ticksStateStart (cal s') = ticksStateStart (cal s)
   /\ csMaxWaiting (cal s') = csMaxWaiting (cal s)
   /\ csResults (cal s') = csResults (cal s)
   /\ length (csMaxOthers (cal s')) = length (csMaxOthers (cal s)))
  /\ csMaxHolding (cal s')
     = (if decide (b ∈ l)
        then aset2 (csMaxHolding (cal s)) b t
               (Z.max (aget2 (csMaxHolding (cal s)) b t) (excursion s b))
        else csMaxHolding (cal s))
  /\ forall ch, 0 <= ch ->
       (ch ∈ l -> ch <> b ->
        (Z.to_nat ch < length (csMaxOthers (cal s)))%nat ->
          aget (csMaxOthers (cal s')) ch
          = Z.max (aget (csMaxOthers (cal s)) ch) (excursion s ch))
       /\ (ch ∉ l \/ ch = b ->
             aget (csMaxOthers (cal s')) ch = aget (csMaxOthers (cal s)) ch).
Proof.
  induction l as [| x l IH]; intros s Hnd Hpos Hb.
  - simpl. split; [repeat split |]. split; [reflexivity |].
    intros ch Hch. split; [| done].
    intros Hin. by apply elem_of_nil in Hin.
  - apply NoDup_cons in Hnd as [Hx Hnd].
    assert (Hpos' : forall y, y ∈ l -> 0 <= y) by (intros y Hy; apply Hpos; by right).
    assert (Hx0 : 0 <= x) by (apply Hpos; by left).
    cbv zeta.
    change (fold_left fold_press (x :: l) s)
      with (fold_left fold_press l (fold_press s x)).
    set (s1 := fold_press s x).
    assert (Hs1 : sn s1 = sn s /\ hw s1 = hw s /\ ticks s1 = ticks s
                  /\ csAutoCalibrateState (cal s1) = csAutoCalibrateState (cal s)
                  /\ csCalButton (cal s1) = csCalButton (cal s)
                  /\ timesThruButtons (cal s1) = timesThruButtons (cal s)
                  /\ ticksStateStart (cal s1) = ticksStateStart (cal s)
                  /\ csMaxWaiting (cal s1) = csMaxWaiting (cal s)
                  /\ csResults (cal s1) = csResults (cal s)).
    { unfold s1, fold_press. destruct (x =? _); repeat split. }
    destruct Hs1 as (Esn & Ehw & Et & Est & Eb & Ett & Ets & Ew & Er).
    assert (Hcase :
      (x = csCalButton (cal s)
       /\ csMaxHolding (cal s1)
          = aset2 (csMaxHolding (cal s)) x (timesThruButtons (cal s))
              (Z.max (aget2 (csMaxHolding (cal s)) x (timesThruButtons (cal s)))
                     (excursion s x))
       /\ csMaxOthers (cal s1) = csMaxOthers (cal s))
      \/ (x <> csCalButton (cal s)
          /\ csMaxHolding (cal s1) = csMaxHolding (cal s)
          /\ csMaxOthers (cal s1)
             = aset (csMaxOthers (cal s)) x
                 (Z.max (aget (csMaxOthers (cal s)) x) (excursion s x)))).
    { unfold s1, fold_press.
      destruct (Z.eqb_spec x (csCalButton (cal s))); [left | right];
        read_fields; rewrite accumulateMax_is_max; by repeat split. }
    assert (Hb1 : 0 <= csCalButton (cal s1)) by (rewrite Eb; exact Hb).
    destruct (IH s1 Hnd Hpos' Hb1) as (Hframe & Hhold & Hoth).
    cbv zeta in Hframe, Hhold, Hoth.
    assert (Eexc : forall ch, excursion s1 ch = excursion s ch)
      by (intros ch; by apply excursion_sn).
    clearbody s1.
    destruct Hframe as (Fsn & Fhw & Ft & Fst & Fb & Ftt & Fts & Fw & Fr & Flen).
    rewrite Eb, Ett in *.
    set (s' := fold_left fold_press l s1) in *. clearbody s'.
    split.
    { repeat split; try congruence.
      rewrite Flen.
      destruct Hcase as [(_ & _ & ->) | (_ & _ & ->)];
        [reflexivity | apply aset_length]. }
    split.
    + rewrite Hhold, Eexc.
      destruct Hcase as [(Exb & Eh & Eo) | (Exb & Eh & Eo)].
      * rewrite <- Exb in *.
        destruct (decide (x ∈ l)) as [Hc | _]; [contradiction |].
        destruct (decide (x ∈ x :: l)) as [_ | Hc];
          [exact Eh | exfalso; apply Hc; by left].
      * rewrite Eh.
        destruct (decide (csCalButton (cal s) ∈ l)) as [Hc | Hc];
          destruct (decide (csCalButton (cal s) ∈ x :: l)) as [Hc' | Hc'];
          try reflexivity.
        -- exfalso. apply Hc'. by right.
        -- apply elem_of_cons in Hc' as [Hc' | Hc']; [congruence | contradiction].
    + intros ch Hch. destruct (Hoth ch Hch) as [Hin Hout].
      rewrite Eexc in Hin.
      destruct Hcase as [(Exb & Eh & Eo) | (Exb & Eh & Eo)]; rewrite Eo in *.
      * split.
        -- intros Hmem Hne Hidx.
           apply elem_of_cons in Hmem as [-> | Hmem]; [congruence |].
           exact (Hin Hmem Hne Hidx).
        -- intros [Hnot | Heq].
           ++ apply not_elem_of_cons in Hnot as [_ Hnot]. apply Hout. by left.
           ++ apply Hout. by right.
      * split.
        -- intros Hmem Hne Hidx. apply elem_of_cons in Hmem as [-> | Hmem].
           ++ rewrite Hout by (by left). by apply aget_aset_eq.
           ++ assert (ch <> x) by (intros ->; contradiction).
              rewrite (Hin Hmem Hne) by (by rewrite aset_length).
              rewrite aget_aset_ne by lia. reflexivity.
        -- intros Hor.
           assert (Hxch : ch <> x).
           { destruct Hor as [Hnot | ->]; [| congruence].
             apply not_elem_of_cons in Hnot as [Hne _]. exact Hne. }
           rewrite Hout.
           ++ apply aget_aset_ne. lia.
           ++ destruct Hor as [Hnot | ->]; [left | by right].
              by apply not_elem_of_cons in Hnot as [_ Hnot].
Qed.

(** The end of a press window, after its loop: [s1] is the state the loop
    leaves. *)
Lemma press_expiry_result cfg s0 :
  csAutoCalibrateState (cal s0) = acPressAndReleaseButton ->
  SETTLE_TICKS cfg < tick_diff (ticks s0) (ticksStateStart (cal s0)) ->
  let s1 := fold_left fold_press (channel_range cfg) s0 in
  let b' := skip_inactive cfg (to_byte (csCalButton (cal s1) + 1)) in
  let t' := to_byte (timesThruButtons (cal s1) + 1) in
  let tr := cal_transition cfg s0 in
  stats (cal tr) = stats (cal s1)
  /\ ticksStateStart (cal tr) = ticks s1
  /\ csMin (sn tr)
     = InitReadingArray (csMin (sn s1)) (Z.to_nat (MAX_CAPSENSE_CHANNELS cfg))
         (to_reading (MAX_CS_READING cfg))
  /\ csAutoCalibrateState (cal tr) <> acDone
  /\ (b' <= LAST_CAPSENSE_CHANNEL cfg ->
        csCalButton (cal tr) = b'
        /\ timesThruButtons (cal tr) = timesThruButtons (cal s1)
        /\ csAutoCalibrateState (cal tr) = acPressAndReleaseButton)
  /\ (LAST_CAPSENSE_CHANNEL cfg < b' ->
        csCalButton (cal tr) = FIRST_CAPSENSE_CHANNEL cfg
        /\ timesThruButtons (cal tr) = t'
        /\ (TIMES_THRU_BUTTONS <= t' ->
              csAutoCalibrateState (cal tr) = acPressNothing)
        /\ (t' < TIMES_THRU_BUTTONS ->
              csAutoCalibrateState (cal tr) = acPressAndReleaseButton)).
Proof.
  intros Hst Hexp. cbv zeta. unfold cal_transition. rewrite Hst.
  destruct (Z.ltb_spec (SETTLE_TICKS cfg)
              (tick_diff (ticks s0) (ticksStateStart (cal s0)))); [| lia].
  cbv zeta.
  set (s1 := fold_left fold_press (channel_range cfg) s0). clearbody s1.
  read_fields.
  destruct (Z.ltb_spec (LAST_CAPSENSE_CHANNEL cfg)
              (skip_inactive cfg (to_byte (csCalButton (cal s1) + 1)))).
  - read_fields.
    destruct (Z.leb_spec TIMES_THRU_BUTTONS
                (to_byte (timesThruButtons (cal s1) + 1)));
      read_fields; repeat split; try discriminate; try lia.
  - read_fields. repeat split; try discriminate; lia.
Qed.

Lemma continue_calibrate_running cfg s :
  csAutoCalibrateState
    (cal (cal_transition cfg (snd (GetCapSenseButton cfg s)))) <> acDone ->
  CapSenseContinueCalibrate cfg s
  = (true, cal_transition cfg (snd (GetCapSenseButton cfg s))).
Proof.
  intros H. unfold CapSenseContinueCalibrate. cbv zeta.
  destruct (csAutoCalibrateState (cal (cal_transition cfg _))) eqn:E;
    try reflexivity. contradiction.
Qed.

Lemma aget2_aset2_eq (m : list (list Z)) i j v row :
  m !! Z.to_nat i = Some row -> (Z.to_nat j < length row)%nat ->
  aget2 (aset2 m i j v) i j = v.
Proof.
  intros Hrow Hj. unfold aget2. rewrite (aset2_lookup_eq m i j v row Hrow).
  simpl. by apply aget_aset_eq.
Qed.

(** X19. The end of a press window: the statistics.  When more than
    SETTLE_TICKS ticks have passed in acPressAndReleaseButton, the call
    raises, for the target channel, the own-press accumulator of the current
    pass to the excursion csBaseline - csMin if that is larger, and, for
    every other channel from FIRST_CAPSENSE_CHANNEL to LAST_CAPSENSE_CHANNEL,
    the cross-talk accumulator likewise.  The cross-talk accumulator of the
    target, the own-press accumulators of the other channels and of the other
    passes, and all idle accumulators stay as they are. *)
Theorem press_window_expiry_statistics cfg (s : State) :
  let b := csCalButton (cal s) in
  let t := timesThruButtons (cal s) in
  let s' := snd (CapSenseContinueCalibrate cfg s) in
  csAutoCalibrateState (cal s) = acPressAndReleaseButton ->
  SETTLE_TICKS cfg < tick_diff (ticks s) (ticksStateStart (cal s)) ->
  0 <= FIRST_CAPSENSE_CHANNEL cfg -> 0 <= b ->
  csMaxWaiting (cal s') = csMaxWaiting (cal s)
  /\ (FIRST_CAPSENSE_CHANNEL cfg <= b <= LAST_CAPSENSE_CHANNEL cfg ->
        csMaxHolding (cal s')
        = aset2 (csMaxHolding (cal s)) b t
            (Z.max (aget2 (csMaxHolding (cal s)) b t) (excursion s b)))
  /\ (b < FIRST_CAPSENSE_CHANNEL cfg \/ LAST_CAPSENSE_CHANNEL cfg < b ->
        csMaxHolding (cal s') = csMaxHolding (cal s))
  /\ forall ch, 0 <= ch ->
       (FIRST_CAPSENSE_CHANNEL cfg <= ch <= LAST_CAPSENSE_CHANNEL cfg ->
        ch <> b -> (Z.to_nat ch < length (csMaxOthers (cal s)))%nat ->
          aget (csMaxOthers (cal s')) ch
          = Z.max (aget (csMaxOthers (cal s)) ch) (excursion s ch))
       /\ (ch < FIRST_CAPSENSE_CHANNEL cfg \/ LAST_CAPSENSE_CHANNEL cfg < ch
           \/ ch = b ->
             aget (csMaxOthers (cal s')) ch = aget (csMaxOthers (cal s)) ch).
Proof.
  intros b t s' Hst Hexp Hfirst Hb.
  set (s0 := snd (GetCapSenseButton cfg s)).
  destruct (press_expiry_result cfg s0 Hst Hexp) as (Hstats & _ & _ & Hnd & _).
  cbv zeta in Hstats, Hnd.
  assert (Es' : s' = cal_transition cfg s0).
  { unfold s'. by rewrite (continue_calibrate_running cfg s Hnd). }
  rewrite Es'. clear Es'.
  destruct (channel_range_wf cfg Hfirst) as [Hnodup Hpos].
  destruct (fold_press_spec (channel_range cfg) s0 Hnodup Hpos Hb)
    as (Hframe & Hhold & Hoth).
  cbv zeta in Hframe, Hhold, Hoth.
  destruct Hframe as (_ & _ & _ & _ & _ & _ & _ & Ew & _).
  unfold stats in Hstats. injection Hstats as -> -> ->.
  change (csCalButton (cal s0)) with b in *.
  change (timesThruButtons (cal s0)) with t in *.
  change (csMaxHolding (cal s0)) with (csMaxHolding (cal s)) in *.
  change (csMaxOthers (cal s0)) with (csMaxOthers (cal s)) in *.
  change (csMaxWaiting (cal s0)) with (csMaxWaiting (cal s)) in *.
  assert (Eexc : forall ch, excursion s0 ch = excursion s ch) by reflexivity.
  split; [exact Ew |]. split; [| split].
  - intros Hr. rewrite Hhold, Eexc.
    destruct (decide (b ∈ channel_range cfg)) as [_ | Hc]; [reflexivity |].
    exfalso. apply Hc. by apply channel_range_elem.
  - intros Hr. rewrite Hhold.
    destruct (decide (b ∈ channel_range cfg)) as [Hc | _]; [| reflexivity].
    apply channel_range_elem in Hc. lia.
  - intros ch Hch. destruct (Hoth ch Hch) as [Hin Hout]. split.
    + intros Hr Hne Hidx. rewrite <- Eexc.
      apply Hin; [by apply channel_range_elem | exact Hne | exact Hidx].
    + intros Hor. apply Hout.
      destruct Hor as [Hlo | [Hhi | Heq]]; [left | left | by right];
        rewrite channel_range_elem; lia.
Qed.

Lemma press_window_expiry_statistics_witness :
  let s := {| hw := hw idle_window_state; sn := sn idle_window_state;
              cal := set_csAutoCalibrateState acPressAndReleaseButton
                       (set_timesThruButtons 1 (cal idle_window_state));
              ticks := 14 |} in
  csMaxWaiting (cal (snd (CapSenseContinueCalibrate two_button_cfg s)))
  = [4; 3; 0; 0].
Proof.
  intros s.
  refine (proj1 (press_window_expiry_statistics two_button_cfg s _ _ _ _));
    try reflexivity; vm_compute; congruence.
Defined.

(** X20. The end of a press window: the next target.  The call empties the
    minima (every entry becomes MAX_CS_READING), restarts the window at the
    current tick and reports that calibration is running.  The target moves
    to the next channel in use; when there is none up to
    LAST_CAPSENSE_CHANNEL, the target goes back to FIRST_CAPSENSE_CHANNEL and
    the pass counter goes up by one, and when the pass counter reaches
    TIMES_THRU_BUTTONS (3) the protocol returns to its idle window. *)
Theorem press_window_expiry_advance cfg (s : State) :
  let b := csCalButton (cal s) in
  let t := timesThruButtons (cal s) in
  let b' := skip_inactive cfg (b + 1) in
  let r := CapSenseContinueCalibrate cfg s in
  csAutoCalibrateState (cal s) = acPressAndReleaseButton ->
  SETTLE_TICKS cfg < tick_diff (ticks s) (ticksStateStart (cal s)) ->
  0 <= FIRST_CAPSENSE_CHANNEL cfg -> 0 <= b < 255 ->
  LAST_CAPSENSE_CHANNEL cfg < 255 ->
  length (csMin (sn s)) = Z.to_nat (MAX_CAPSENSE_CHANNELS cfg) ->
  fst r = true
  /\ ticksStateStart (cal (snd r)) = ticks s
  /\ csMin (sn (snd r))
     = replicate (Z.to_nat (MAX_CAPSENSE_CHANNELS cfg))
                 (to_reading (MAX_CS_READING cfg))
  /\ (b' <= LAST_CAPSENSE_CHANNEL cfg ->
        csCalButton (cal (snd r)) = b'
        /\ b < b' /\ IsChannelUsed cfg b' <> 0
        /\ (forall k, b < k < b' -> IsChannelUsed cfg k = 0)
        /\ timesThruButtons (cal (snd r)) = t
        /\ csAutoCalibrateState (cal (snd r)) = acPressAndReleaseButton)
  /\ (LAST_CAPSENSE_CHANNEL cfg < b' ->
        csCalButton (cal (snd r)) = FIRST_CAPSENSE_CHANNEL cfg
        /\ (forall k, b < k <= LAST_CAPSENSE_CHANNEL cfg ->
                      IsChannelUsed cfg k = 0)
        /\ timesThruButtons (cal (snd r)) = to_byte (t + 1)
        /\ (TIMES_THRU_BUTTONS <= to_byte (t + 1) ->
              csAutoCalibrateState (cal (snd r)) = acPressNothing)
        /\ (to_byte (t + 1) < TIMES_THRU_BUTTONS ->
              csAutoCalibrateState (cal (snd r)) = acPressAndReleaseButton)).
Proof.
  intros b t b' r Hst Hexp Hfirst Hb Hlast Hmin.
  set (s0 := snd (GetCapSenseButton cfg s)).
  destruct (press_expiry_result cfg s0 Hst Hexp)
    as (_ & Hts & Hcsmin & Hnd & Hnext & Hwrap).
  cbv zeta in Hts, Hcsmin, Hnd, Hnext, Hwrap.
  assert (Er : r = (true, cal_transition cfg s0)).
  { unfold r. by rewrite (continue_calibrate_running cfg s Hnd). }
  rewrite Er. clear Er. cbn [fst snd].
  destruct (channel_range_wf cfg Hfirst) as [Hnodup Hpos].
  destruct (fold_press_spec (channel_range cfg) s0 Hnodup Hpos ltac:(exact (proj1 Hb)))
    as (Hframe & _ & _).
  cbv zeta in Hframe.
  destruct Hframe as (Esn & _ & Et & _ & Eb & Ett & _).
  rewrite Eb, Ett, Et, Esn in *.
  change (csCalButton (cal s0)) with b in *.
  change (timesThruButtons (cal s0)) with t in *.
  rewrite (to_byte_small (b + 1)) in * by lia. fold b' in Hnext, Hwrap.
  destruct (skip_inactive_loop_spec cfg
              (Z.to_nat (LAST_CAPSENSE_CHANNEL cfg + 1 - (b + 1))) (b + 1))
    as (Hmono & Hexit & Hskip); [lia | lia | lia |].
  cbv zeta in Hmono, Hexit, Hskip.
  change (skip_inactive_loop cfg _ (b + 1)) with b' in *.
  split; [reflexivity |]. split; [exact Hts |]. split.
  { rewrite Hcsmin. by apply InitReadingArray_full. }
  split.
  - intros Hle. destruct (Hnext Hle) as (-> & -> & ->).
    split; [reflexivity |]. split; [lia |].
    split; [destruct Hexit as [Hu | Hgt]; [exact Hu | lia] |].
    split; [| by split].
    intros k Hk. apply Hskip. lia.
  - intros Hgt. destruct (Hwrap Hgt) as (-> & -> & Hdone & Hmore).
    split; [reflexivity |]. split; [| by repeat split].
    intros k Hk. apply Hskip. lia.
Qed.

Lemma press_window_expiry_advance_witness :
  let s := {| hw := hw idle_window_state; sn := sn idle_window_state;
              cal := set_csAutoCalibrateState acPressAndReleaseButton
                       (set_timesThruButtons 1 (cal idle_window_state));
              ticks := 14 |} in
  let r := CapSenseContinueCalibrate two_button_cfg s in
  fst r = true /\ ticksStateStart (cal (snd r)) = 14.
Proof.
  intros s.
  pose proof (press_window_expiry_advance two_button_cfg s) as H.
  cbv zeta in H.
  destruct H as (H1 & H2 & _);
    [reflexivity | reflexivity | vm_compute; congruence
    | vm_compute; split; congruence | reflexivity | reflexivity |].
  split; [exact H1 | exact H2].
Defined.

(** ** The Done phase, beyond the channels in use *)

Lemma cal_done_outside cfg s c :
  0 <= FIRST_CAPSENSE_CHANNEL cfg -> 0 <= c ->
  c < FIRST_CAPSENSE_CHANNEL cfg \/ LAST_CAPSENSE_CHANNEL cfg < c ->
  csResults (cal (cal_done cfg s)) !! Z.to_nat c = csResults (cal s) !! Z.to_nat c
  /\ aget (csThresholds (sn (cal_done cfg s))) c = aget (csThresholds (sn s)) c.
Proof.
  intros Hfirst Hc Hout. unfold cal_done. cbv zeta.
  set (s0 := with_cal (set_csCalButton (FIRST_CAPSENSE_CHANNEL cfg)) s).
  destruct (done_loop_frame cfg (channel_range cfg) s0) as (_ & _ & _ & Hother).
  destruct (Hother c) as [Hr Ht].
  { intros x Hx. apply channel_range_elem in Hx. lia. }
  remember (fold_left (done_step cfg) (channel_range cfg) s0) as s1.
  clear Heqs1.
  destruct (channel_range cfg); split; assumption.
Qed.

(** X21. The channels the Done phase does not rate.  When the call reports
    completion, a channel between FIRST_CAPSENSE_CHANNEL and
    LAST_CAPSENSE_CHANNEL that is not in use has result acrFail and
    threshold 0, and a channel outside that range keeps the result and the
    threshold it had before the call. *)
Theorem done_phase_other_channels cfg (s : State) (c : Z) :
  let s' := snd (CapSenseContinueCalibrate cfg s) in
  fst (CapSenseContinueCalibrate cfg s) = false ->
  0 <= FIRST_CAPSENSE_CHANNEL cfg -> 0 <= c ->
  (FIRST_CAPSENSE_CHANNEL cfg <= c <= LAST_CAPSENSE_CHANNEL cfg ->
   IsChannelUsed cfg c = 0 ->
   (Z.to_nat c < length (csResults (cal s)))%nat ->
   (Z.to_nat c < length (csThresholds (sn s)))%nat ->
     csResults (cal s') !! Z.to_nat c = Some acrFail
     /\ aget (csThresholds (sn s')) c = 0)
  /\ (c < FIRST_CAPSENSE_CHANNEL cfg \/ LAST_CAPSENSE_CHANNEL cfg < c ->
        csResults (cal s') !! Z.to_nat c = csResults (cal s) !! Z.to_nat c
        /\ aget (csThresholds (sn s')) c = aget (csThresholds (sn s)) c).
Proof.
  unfold CapSenseContinueCalibrate. cbv zeta.
  set (s0 := snd (GetCapSenseButton cfg s)).
  destruct (cal_transition_core cfg s0) as (_ & _ & Et & Er).
  change (csThresholds (sn s0)) with (csThresholds (sn s)) in Et.
  change (csResults (cal s0)) with (csResults (cal s)) in Er.
  set (s1 := cal_transition cfg s0) in *. clearbody s1.
  destruct (ac_eqb (csAutoCalibrateState (cal s1)) acDone); cbn [fst snd];
    [| discriminate].
  intros _ Hfirst Hc. rewrite <- Et, <- Er. split.
  - intros Hin Hunused Hlr Hlt.
    destruct (cal_done_channel cfg s1 c Hfirst Hin Hlr Hlt) as (_ & Hr & Hth).
    cbv zeta in Hr, Hth. rewrite Hr, Hth.
    unfold done_result. rewrite Hunused. by split.
  - intros Hout. by apply cal_done_outside.
Qed.

Lemma done_phase_other_channels_witness :
  let s' := snd (CapSenseContinueCalibrate two_button_cfg
                   (done_state [4; 3; 0; 0] [5; 6; 0; 0]
                      [[30; 31; 32]; [40; 41; 42]; [0; 0; 0]; [0; 0; 0]])) in
  csResults (cal s') !! Z.to_nat 2
  = csResults (cal (done_state [4; 3; 0; 0] [5; 6; 0; 0]
                      [[30; 31; 32]; [40; 41; 42]; [0; 0; 0]; [0; 0; 0]]))
      !! Z.to_nat 2.
Proof.
  intros s'.
  refine (proj1 (proj2 (done_phase_other_channels two_button_cfg
            (done_state [4; 3; 0; 0] [5; 6; 0; 0]
               [[30; 31; 32]; [40; 41; 42]; [0; 0; 0]; [0; 0; 0]]) 2 _ _ _) _)).
  - reflexivity.
  - vm_compute. congruence.
  - lia.
  - right. vm_compute. reflexivity.
Defined.

(** *** A further call after completion *)

Lemma State_ext (s s' : State) :
  sensing_core s = sensing_core s' ->
  csMin (sn s) = csMin (sn s') -> csButton (sn s) = csButton (sn s') ->
  csThresholds (sn s) = csThresholds (sn s') -> cal s = cal s' -> s = s'.
Proof.
  destruct s as [h [] c t], s' as [h' [] c' t']. unfold sensing_core. simpl.
  intros H. injection H. intros. subst. reflexivity.
Qed.

Lemma Calib_ext (c c' : Calib) :
  csAutoCalibrateState c = csAutoCalibrateState c' ->
  csCalButton c = csCalButton c' -> csResults c = csResults c' ->
  ticksStateStart c = ticksStateStart c' ->
  timesThruButtons c = timesThruButtons c' -> stats c = stats c' -> c = c'.
Proof.
  destruct c, c'. unfold stats. simpl. intros. 
  match goal with H : (_, _, _) = _ |- _ => injection H end.
  intros. subst. reflexivity.
Qed.

Lemma GetCapSenseButton_idle cfg s :
  csButton (sn s) = NO_CAPSENSE_BUTTONS cfg -> snd (GetCapSenseButton cfg s) = s.
Proof. destruct s as [h [] c t]. simpl. intros ->. reflexivity. Qed.

Lemma done_loop_cal cfg l : forall s,
  timesThruButtons (cal (fold_left (done_step cfg) l s)) = timesThruButtons (cal s)
  /\ ticksStateStart (cal (fold_left (done_step cfg) l s))
     = ticksStateStart (cal s).
Proof.
  induction l as [| x l IH]; intros s; simpl; [by split |].
  destruct (IH (done_step cfg s x)) as (-> & ->). by split.
Qed.

Lemma cal_done_cal cfg s :
  timesThruButtons (cal (cal_done cfg s)) = timesThruButtons (cal s)
  /\ ticksStateStart (cal (cal_done cfg s)) = ticksStateStart (cal s)
  /\ csCalButton (cal (cal_done cfg s))
     = match channel_range cfg with
       | [] => FIRST_CAPSENSE_CHANNEL cfg
       | _ => to_byte (LAST_CAPSENSE_CHANNEL cfg + 1)
       end.
Proof.
  unfold cal_done. cbv zeta.
  pose proof (done_loop_cal cfg (channel_range cfg)
                (with_cal (set_csCalButton (FIRST_CAPSENSE_CHANNEL cfg)) s))
    as [H1 H2].
  destruct (channel_range cfg); [by repeat split |].
  remember (fold_left _ _ _) as s1. clear Heqs1. by repeat split.
Qed.

Lemma aget_lookup (l : list Z) i v : l !! Z.to_nat i = Some v -> aget l i = v.
Proof. unfold aget. by intros ->. Qed.

(** What the loop of the Done phase leaves in the entries it visits, where
    the arrays have such an entry. *)
Lemma done_loop_entries cfg l : forall s b,
  NoDup l -> (forall x, x ∈ l -> 0 <= x) -> b ∈ l ->
  let s' := fold_left (done_step cfg) l s in
  (forall r, csResults (cal s') !! Z.to_nat b = Some r ->
             r = fst (done_result cfg (cal s) b))
  /\ (forall v, csThresholds (sn s') !! Z.to_nat b = Some v ->
                v = snd (done_result cfg (cal s) b)).
Proof.
  induction l as [| x l IH]; intros s b Hnd Hpos Hin; simpl.
  - by apply elem_of_nil in Hin.
  - apply NoDup_cons in Hnd as [Hx Hnd].
    destruct (decide (b = x)) as [-> | Hne].
    + destruct (done_loop_frame cfg l (done_step cfg s x))
        as (_ & Hlr & Hlt & Hother).
      destruct (Hother x) as [Hr Ht].
      { intros y Hy E.
        assert (0 <= y) by (apply Hpos; by right).
        assert (0 <= x) by (apply Hpos; by left).
        assert (y = x) by lia. subst y. contradiction. }
      cbv zeta in Hlr, Hlt. split.
      * intros r Hsome. rewrite Hr in Hsome. simpl in Hsome.
        assert (Z.to_nat x < length (csResults (cal s)))%nat as Hlen.
        { apply lookup_lt_Some in Hsome. by rewrite length_insert in Hsome. }
        rewrite list_lookup_insert_eq in Hsome by exact Hlen.
        injection Hsome as <-. reflexivity.
      * intros v Hsome.
        assert (Z.to_nat x < length (csThresholds (sn s)))%nat as Hlen.
        { apply lookup_lt_Some in Hsome. rewrite Hlt in Hsome. simpl in Hsome.
          by rewrite aset_length in Hsome. }
        apply aget_lookup in Hsome. rewrite Ht in Hsome. simpl in Hsome.
        rewrite aget_aset_eq in Hsome by exact Hlen.
        subst v. reflexivity.
    + apply elem_of_cons in Hin as [? | Hin]; [contradiction |].
      destruct (IH (done_step cfg s x) b Hnd) as [Hr Ht]; try assumption.
      * intros y Hy. apply Hpos. by right.
      * cbv zeta in Hr, Ht.
        rewrite (done_result_stats cfg (cal (done_step cfg s x)) (cal s) b)
          in Hr, Ht by reflexivity.
        by split.
Qed.

(** Running the loop over entries that already hold its results changes
    neither array. *)
Lemma done_loop_fixed cfg l : forall s,
  (forall x, x ∈ l ->
     (forall r, csResults (cal s) !! Z.to_nat x = Some r ->
                r = fst (done_result cfg (cal s) x))
     /\ (forall v, csThresholds (sn s) !! Z.to_nat x = Some v ->
                   v = snd (done_result cfg (cal s) x))) ->
  csResults (cal (fold_left (done_step cfg) l s)) = csResults (cal s)
  /\ csThresholds (sn (fold_left (done_step cfg) l s)) = csThresholds (sn s).
Proof.
  induction l as [| x l IH]; intros s H; simpl; [by split |].
  destruct (H x ltac:(by left)) as [Hr Ht].
  assert (Er : csResults (cal (done_step cfg s x)) = csResults (cal s)).
  { simpl. destruct (csResults (cal s) !! Z.to_nat x) as [r |] eqn:E.
    - apply list_insert_id. rewrite E. f_equal. by apply Hr.
    - apply list_insert_ge. by apply lookup_ge_None. }
  assert (Et : csThresholds (sn (done_step cfg s x)) = csThresholds (sn s)).
  { simpl. unfold aset.
    destruct (csThresholds (sn s) !! Z.to_nat x) as [v |] eqn:E.
    - apply list_insert_id. rewrite E. f_equal. by apply Ht.
    - apply list_insert_ge. by apply lookup_ge_None. }
  destruct (IH (done_step cfg s x)) as [Hr' Ht'].
  { intros y Hy. rewrite Er, Et.
    rewrite (done_result_stats cfg (cal (done_step cfg s x)) (cal s) y)
      by reflexivity.
    apply H. by right. }
  rewrite Hr', Ht'. by split.
Qed.

Lemma cal_done_twice cfg s :
  0 <= FIRST_CAPSENSE_CHANNEL cfg ->
  cal_done cfg (cal_done cfg s) = cal_done cfg s.
Proof.
  intros Hfirst.
  assert (Hlists :
    csResults (cal (cal_done cfg (cal_done cfg s))) = csResults (cal (cal_done cfg s))
    /\ csThresholds (sn (cal_done cfg (cal_done cfg s)))
       = csThresholds (sn (cal_done cfg s))).
  { set (s1 := cal_done cfg s).
    assert (Hs1 : forall x, x ∈ channel_range cfg ->
      (forall r, csResults (cal s1) !! Z.to_nat x = Some r ->
                 r = fst (done_result cfg (cal s1) x))
      /\ (forall v, csThresholds (sn s1) !! Z.to_nat x = Some v ->
                    v = snd (done_result cfg (cal s1) x))).
    { intros x Hx.
      destruct (channel_range_wf cfg Hfirst) as [Hnd Hpos].
      pose proof (done_loop_entries cfg (channel_range cfg)
                    (with_cal (set_csCalButton (FIRST_CAPSENSE_CHANNEL cfg)) s)
                    x Hnd Hpos Hx) as He.
      pose proof (cal_done_stats cfg s) as Hst. fold s1 in Hst.
      rewrite (done_result_stats cfg (cal s1) (cal s) x Hst).
      cbv zeta in He. unfold s1, cal_done. cbv zeta.
      remember (fold_left (done_step cfg) (channel_range cfg) _) as s2.
      clear Heqs2.
      destruct (channel_range cfg); exact He. }
    clearbody s1. unfold cal_done. cbv zeta.
    pose proof (done_loop_fixed cfg (channel_range cfg)
                  (with_cal (set_csCalButton (FIRST_CAPSENSE_CHANNEL cfg)) s1)
                  Hs1) as Hfix.
    remember (fold_left (done_step cfg) (channel_range cfg) _) as s2.
    clear Heqs2.
    destruct (channel_range cfg); exact Hfix. }
  destruct Hlists as [Hr Ht].
  destruct (cal_done_core cfg (cal_done cfg s)) as (Hcore & Hb & Hm & Hstate & _).
  destruct (cal_done_cal cfg (cal_done cfg s)) as (Htt & Hts & Hcb).
  destruct (cal_done_cal cfg s) as (_ & _ & Hcb0).
  apply State_ext; try assumption.
  apply Calib_ext; try assumption.
  - congruence.
  - apply cal_done_stats.
Qed.

(** X22. Completion is final.  In acDone the call reports completion, stays
    in acDone and leaves the collected statistics as they are; a further call
    after it reports completion again and changes nothing at all: the same
    results and thresholds are written again. *)
Theorem done_is_final cfg (s : State) :
  let s1 := snd (CapSenseContinueCalibrate cfg s) in
  csAutoCalibrateState (cal s) = acDone ->
  0 <= FIRST_CAPSENSE_CHANNEL cfg ->
  fst (CapSenseContinueCalibrate cfg s) = false
  /\ csAutoCalibrateState (cal s1) = acDone
  /\ stats (cal s1) = stats (cal s)
  /\ CapSenseContinueCalibrate cfg s1 = (false, s1).
Proof.
  intros s1 Hst Hfirst.
  assert (Hdone : forall s0, csAutoCalibrateState (cal s0) = acDone ->
            CapSenseContinueCalibrate cfg s0
            = (false, cal_done cfg (snd (GetCapSenseButton cfg s0)))).
  { intros s0 H0. unfold CapSenseContinueCalibrate. cbv zeta.
    unfold cal_transition.
    change (cal (snd (GetCapSenseButton cfg s0))) with (cal s0).
    rewrite H0. change (cal (snd (GetCapSenseButton cfg s0))) with (cal s0).
    rewrite H0. reflexivity. }
  set (s0 := snd (GetCapSenseButton cfg s)).
  assert (E1 : s1 = cal_done cfg s0).
  { unfold s1. by rewrite (Hdone s Hst). }
  destruct (cal_done_core cfg s0) as (_ & Hb & _ & Hstate & _).
  assert (Hst1 : csAutoCalibrateState (cal s1) = acDone).
  { rewrite E1, Hstate. exact Hst. }
  split; [by rewrite (Hdone s Hst) |].
  split; [exact Hst1 |].
  split; [rewrite E1, cal_done_stats; reflexivity |].
  rewrite (Hdone s1 Hst1).
  rewrite GetCapSenseButton_idle by (rewrite E1, Hb; reflexivity).
  rewrite E1. f_equal. by apply cal_done_twice.
Qed.

Lemma done_is_final_witness :
  let s := done_state [4; 3; 0; 0] [5; 6; 0; 0]
             [[30; 31; 32]; [40; 41; 42]; [0; 0; 0]; [0; 0; 0]] in
  let s1 := snd (CapSenseContinueCalibrate two_button_cfg s) in
  CapSenseContinueCalibrate two_button_cfg s1 = (false, s1).
Proof.
  intros s s1.
  refine (proj2 (proj2 (proj2 (done_is_final two_button_cfg s _ _)))).
  - reflexivity.
  - vm_compute. congruence.
Defined.
